(** * pymongodb: attribute descriptors, document models and batched writes

    A shallow embedding of [pymongodb/attributes.py], [pymongodb/models.py]
    and [pymongodb/exceptions.py].

    Conventions of the embedding:
    - Python values are the inductive [pyval]; a Python [dict] is an
      association list in insertion order ([dict_set] overwrites in place or
      appends, as Python dicts do).  Numbers are integers.
    - A call that unpacks a dictionary [d] into keyword arguments passes [d]
      as the keyword dictionary of the callee; field names
      are assumed not to collide with the names of Python parameters.
    - The document store (the motor collection) is an interface record
      [Collection]; every call made on it is appended to a log, so that
      "no store call" and "one bulk request" are statements about the log.
    - Model instances are mutable Python objects: they live in an object
      table indexed by references, and the batch queue holds references.
    - An [async] method is a computation in the monad [M]; [run] drives it to
      completion.
    - [insert_one] adds the [_id] the driver generates to the dictionary it is
      handed, which is the dictionary of the instance; what the driver does to
      the documents of a bulk write is not modelled. *)

From Stdlib Require Import String Ascii ZArith NArith List Bool Lia Arith.
From Stdlib Require Import Sorted.
Import ListNotations.
Open Scope string_scope.
Open Scope Z_scope.
Open Scope list_scope.

Set Implicit Arguments.
Set Warnings "-register-all".

(** ** Python values *)

Inductive pyval : Type :=
| VNone
| VBool (b : bool)
| VInt (z : Z)
| VStr (s : string)
| VBytes (s : string)
| VDatetime (micros : Z)
| VObjectId (hex : string)
| VList (l : list pyval)
| VDict (d : list (string * pyval)).

Abbreviation dict := (list (string * pyval)).

(** [bool(v)]: Python truthiness. *)
Definition truthy (v : pyval) : bool :=
  match v with
  | VNone => false
  | VBool b => b
  | VInt z => negb (z =? 0)
  | VStr s => negb (String.eqb s "")
  | VBytes s => negb (String.eqb s "")
  | VDatetime _ => true
  | VObjectId _ => true
  | VList l => match l with [] => false | _ => true end
  | VDict d => match d with [] => false | _ => true end
  end.

(** [len(v)]; [None] stands for the [TypeError] of an object without length. *)
Definition py_len (v : pyval) : option nat :=
  match v with
  | VStr s => Some (String.length s)
  | VBytes s => Some (String.length s)
  | VList l => Some (List.length l)
  | VDict d => Some (List.length d)
  | _ => None
  end.

Definition is_none (v : pyval) : bool :=
  match v with VNone => true | _ => false end.

(** ** Dictionaries *)

(** Lookup and assignment in an insertion-ordered dictionary with string keys;
    the dictionaries of values, the registry of a class and the namespace of a
    class body are such dictionaries. *)
Fixpoint assoc_get {B : Type} (k : string) (d : list (string * B)) : option B :=
  match d with
  | [] => None
  | (k', v) :: d' => if String.eqb k k' then Some v else assoc_get k d'
  end.

Fixpoint assoc_set {B : Type} (k : string) (v : B) (d : list (string * B))
    : list (string * B) :=
  match d with
  | [] => [(k, v)]
  | (k', v') :: d' =>
      if String.eqb k k' then (k', v) :: d' else (k', v') :: assoc_set k v d'
  end.

Definition dict_get (k : string) (d : dict) : option pyval := assoc_get k d.

(** [d.get(k, None)] *)
Definition dict_get_none (k : string) (d : dict) : pyval :=
  match dict_get k d with Some v => v | None => VNone end.

Definition dict_mem (k : string) (d : dict) : bool :=
  match dict_get k d with Some _ => true | None => false end.

(** [d[k] = v] *)
Definition dict_set (k : string) (v : pyval) (d : dict) : dict := assoc_set k v d.

(** [del d[k]], used by [d.pop(k)] *)
Fixpoint dict_del (k : string) (d : dict) : dict :=
  match d with
  | [] => []
  | (k', v') :: d' =>
      if String.eqb k k' then d' else (k', v') :: dict_del k d'
  end.

Definition dict_keys (d : dict) : list string := map fst d.

Definition dict_nonempty (d : dict) : bool :=
  match d with [] => false | _ => true end.

(** ** Exceptions ([exceptions.py] and the ones raised by Python and the driver) *)

Inductive exn_class : Type :=
| EException
| ETypeError
| EValueError
| EKeyError
| EMongoDBException
| EDoesNotExist
| EModelDoesNotExist (owner : nat)
| EBulkWriteException
| EAttributesEmptyException
| EBulkWriteError
| EDuplicateKeyError
| EDriverError (name : string).

Record exn : Type := Exn { exn_cls : exn_class; exn_arg : pyval }.

Inductive result (A : Type) : Type :=
| Ok (a : A)
| Raise (e : exn).
Arguments Ok {A} a.
Arguments Raise {A} e.

(** ** [attributes.py] *)

Inductive attr_kind : Type :=
| Attribute
| NumberAttribute
| BooleanAttribute
| UnicodeAttribute
| UTCDateTimeAttribute
| JSONAttribute
| ObjectIdAttribute
| ListAttribute.

(** [default] is a value or a callable producing one. *)
Inductive default_t : Type :=
| DValue (v : pyval)
| DCallable (f : unit -> pyval).

Record attribute : Type := mkAttribute {
  kind : attr_kind;
  default : default_t;
  is_hash_key : bool;
  null : bool;
  attr_name : option string
}.

(** [Attribute.__init__(hash_key=False, null=None, default=None, attr_name=None)],
    with the [kwargs.setdefault("default", ...)] of [JSONAttribute] and
    [ListAttribute]. An omitted keyword is [None] here. *)
Definition new_attribute (k : attr_kind) (hash_key : bool)
    (null_arg : option bool) (default_arg : option default_t)
    (name : option string) : attribute :=
  let dflt :=
    match default_arg with
    | Some d => d
    | None =>
        match k with
        | JSONAttribute => DCallable (fun _ => VDict [])
        | ListAttribute => DCallable (fun _ => VList [])
        | _ => DValue VNone
        end
    end in
  let nl :=
    if hash_key then false
    else match null_arg with Some b => b | None => false end in
  mkAttribute k dflt hash_key nl name.

(** [six.u] on Python 3 returns its argument. *)
Definition six_u (v : pyval) : pyval := v.

Definition is_text_type (v : pyval) : bool :=
  match v with VStr _ => true | _ => false end.

Definition type_error (msg : string) : exn := Exn ETypeError (VStr msg).

(** [type(v).__name__] *)
Definition type_name (v : pyval) : string :=
  match v with
  | VNone => "NoneType"
  | VBool _ => "bool"
  | VInt _ => "int"
  | VStr _ => "str"
  | VBytes _ => "bytes"
  | VDatetime _ => "datetime.datetime"
  | VObjectId _ => "ObjectId"
  | VList _ => "list"
  | VDict _ => "dict"
  end.

(** The [TypeError] of [len(v)] on an object without length. *)
Definition no_len_error (v : pyval) : exn :=
  type_error ("object of type '" ++ type_name v ++ "' has no len()").

(** [serialize] of each attribute class. Only [BooleanAttribute] and
    [UnicodeAttribute] override the base method. *)
Definition serialize (k : attr_kind) (value : pyval) : result pyval :=
  match k with
  | BooleanAttribute =>
      if is_none value then Ok VNone
      else if truthy value then Ok (VBool true)
      else Ok (VBool false)
  | UnicodeAttribute =>
      if is_none value then Ok VNone
      else match py_len value with
           | None => Raise (no_len_error value)
           | Some O => Ok VNone
           | Some (S _) =>
               if is_text_type value then Ok value else Ok (six_u value)
           end
  | _ => Ok value
  end.

(** [deserialize] of each attribute class. Only [BooleanAttribute] overrides. *)
Definition deserialize (k : attr_kind) (value : pyval) : pyval :=
  match k with
  | BooleanAttribute => VBool (truthy value)
  | _ => value
  end.

(** [deserialize(serialize(v))] *)
Definition roundtrip (k : attr_kind) (v : pyval) : result pyval :=
  match serialize k v with
  | Ok s => Ok (deserialize k s)
  | Raise e => Raise e
  end.

(** The values a field of each kind is meant to hold; [None] is legal for
    every kind. *)
Definition legal (k : attr_kind) (v : pyval) : bool :=
  match v with
  | VNone => true
  | _ =>
      match k, v with
      | Attribute, _ => true
      | NumberAttribute, VInt _ => true
      | BooleanAttribute, VBool _ => true
      | UnicodeAttribute, VStr _ => true
      | UTCDateTimeAttribute, VDatetime _ => true
      | JSONAttribute, VDict _ => true
      | ObjectIdAttribute, VObjectId _ => true
      | ListAttribute, VList _ => true
      | _, _ => false
      end
  end.

(** ** Exception classes: identity and the subclass relation *)

Definition exn_class_eqb (a b : exn_class) : bool :=
  match a, b with
  | EException, EException => true
  | ETypeError, ETypeError => true
  | EValueError, EValueError => true
  | EKeyError, EKeyError => true
  | EMongoDBException, EMongoDBException => true
  | EDoesNotExist, EDoesNotExist => true
  | EModelDoesNotExist i, EModelDoesNotExist j => Nat.eqb i j
  | EBulkWriteException, EBulkWriteException => true
  | EAttributesEmptyException, EAttributesEmptyException => true
  | EBulkWriteError, EBulkWriteError => true
  | EDuplicateKeyError, EDuplicateKeyError => true
  | EDriverError n, EDriverError m => String.eqb n m
  | _, _ => false
  end.

(** The class itself followed by its ancestors. [EModelDoesNotExist i] is the
    class built by [type('DoesNotExist', (DoesNotExist,), ...)] while the model
    class [i] is created: its only base is the package-wide [DoesNotExist]. *)
Definition exn_mro (c : exn_class) : list exn_class :=
  match c with
  | EException => [EException]
  | EDoesNotExist => [EDoesNotExist; EMongoDBException; EException]
  | EModelDoesNotExist i =>
      [EModelDoesNotExist i; EDoesNotExist; EMongoDBException; EException]
  | EBulkWriteError =>
      [EBulkWriteError; EDriverError "OperationFailure";
       EDriverError "PyMongoError"; EException]
  | EDuplicateKeyError =>
      [EDuplicateKeyError; EDriverError "WriteError";
       EDriverError "OperationFailure"; EDriverError "PyMongoError"; EException]
  | c => [c; EException]
  end.

(** [except handler:] catches an exception of class [raised]. *)
Definition catches (handler raised : exn_class) : bool :=
  existsb (exn_class_eqb handler) (exn_mro raised).

(** ** Class creation: [AttributeContainerMeta] and [MetaModel] *)

(** What a class body binds a name to. *)
Inductive member : Type :=
| MAttribute (a : attribute)
| MException (e : exn_class)
| MValue (v : pyval).

Abbreviation namespace := (list (string * member)).

Definition ns_get (k : string) (ns : namespace) : option member :=
  assoc_get k ns.

Definition ns_mem (k : string) (ns : namespace) : bool :=
  match ns_get k ns with Some _ => true | None => false end.

Definition registry_get (k : string) (r : list (string * attribute))
    : option attribute := assoc_get k r.

(** [cls._attributes[name] = attribute] *)
Definition registry_set (k : string) (a : attribute)
    (r : list (string * attribute)) : list (string * attribute) :=
  assoc_set k a r.

Record model_class : Type := mkModelClass {
  mc_id : nat;
  qualname : string;
  members : namespace;
  _attributes : list (string * attribute);
  _hash_key : option string;
  DoesNotExist : exn_class;
  BulkWriteException : exn_class;
  AttrsEmptyException : exn_class
}.

(** A class statement: its name, its base and the dictionary [attrs] of its
    body, whose names are distinct. *)
Record class_decl : Type := mkClassDecl {
  decl_name : string;
  decl_base : option model_class;
  decl_attrs : namespace
}.

(** The namespace [getattr] and [dir] see: the class body first, then what the
    base class provides. *)
Definition resolve_members (d : class_decl) : namespace :=
  decl_attrs d ++
  match decl_base d with
  | None => []
  | Some b => filter (fun p => negb (ns_mem (fst p) (decl_attrs d))) (members b)
  end.

Fixpoint insert_by_name (p : string * member) (l : namespace) : namespace :=
  match l with
  | [] => [p]
  | q :: l' =>
      if String.leb (fst p) (fst q) then p :: q :: l'
      else q :: insert_by_name p l'
  end.

Definition sort_by_name (l : namespace) : namespace :=
  fold_right insert_by_name [] l.

(** [inspect.getmembers(cls, lambda o: isinstance(o, Attribute))]: the members
    that are attributes, sorted by name. *)
Definition getmembers (ns : namespace) : list (string * attribute) :=
  flat_map (fun p => match snd p with
                     | MAttribute a => [(fst p, a)]
                     | _ => []
                     end)
           (sort_by_name ns).

Definition set_attr_name (name : string) (a : attribute) : attribute :=
  mkAttribute (kind a) (default a) (is_hash_key a) (null a) (Some name).

(** [AttributeContainerMeta._initialize_attributes] *)
Definition _initialize_attributes (ns : namespace) : list (string * attribute) :=
  fold_left (fun acc p => registry_set (fst p) (set_attr_name (fst p) (snd p)) acc)
            (getmembers ns) [].

(** The loop of [MetaModel.__init__] over [get_attributes().items()]. *)
Definition record_hash_key (inherited : option string)
    (registry : list (string * attribute)) : option string :=
  fold_left (fun hk p => if is_hash_key (snd p) then Some (fst p) else hk)
            registry inherited.

Definition member_hash_key (ns : namespace) : option string :=
  match ns_get "_hash_key" ns with
  | Some (MValue (VStr s)) => Some s
  | _ => None
  end.

Definition member_exception (name : string) (dflt : exn_class) (ns : namespace)
    : exn_class :=
  match ns_get name ns with
  | Some (MException e) => e
  | Some _ => ETypeError
  | None => dflt
  end.

(** [MetaModel.__init__(self, name, bases, attrs)]; [id] is the identity of
    the class object being created. The [_hash_key] and the [DoesNotExist] it
    sets are attributes of the class, which a subclass inherits. (The [Meta]
    it sets when the body has none plays no part here.) *)
Definition MetaModel_init (id : nat) (d : class_decl) : model_class :=
  let ns := resolve_members d in
  let registry := _initialize_attributes ns in
  let hk := record_hash_key (member_hash_key ns) registry in
  let dne :=
    if ns_mem "DoesNotExist" (decl_attrs d)
    then member_exception "DoesNotExist" EDoesNotExist ns
    else EModelDoesNotExist id in
  let ns :=
    match hk with
    | Some n => assoc_set "_hash_key" (MValue (VStr n)) ns
    | None => ns
    end in
  let ns :=
    if ns_mem "DoesNotExist" (decl_attrs d) then ns
    else assoc_set "DoesNotExist" (MException dne) ns in
  mkModelClass id (decl_name d) ns registry hk dne
    (member_exception "BulkWriteException" EBulkWriteException ns)
    (member_exception "AttrsEmptyException" EAttributesEmptyException ns).

(** The class body of [MongoDBModel]. *)
Definition MongoDBModel_decl : class_decl :=
  mkClassDecl "MongoDBModel" None
    [ ("_connection", MValue VNone);
      ("_collection", MValue VNone);
      ("_id", MAttribute (new_attribute ObjectIdAttribute false None None None));
      ("_hash_key", MValue VNone);
      ("DoesNotExist", MException EDoesNotExist);
      ("DuplicateKeyExist", MException EDuplicateKeyError);
      ("BulkWriteException", MException EBulkWriteException);
      ("AttrsEmptyException", MException EAttributesEmptyException) ].

Definition MongoDBModel : model_class := MetaModel_init 0 MongoDBModel_decl.

(** A model class declared by a user: [class name(MongoDBModel): body]. *)
Definition declare_model (id : nat) (name : string) (body : namespace)
    : model_class :=
  MetaModel_init id (mkClassDecl name (Some MongoDBModel) body).

Definition get_attributes (cls : model_class) : list (string * attribute) :=
  _attributes cls.

(** ** Instances: [AttributeContainer] and [MongoDBModel.__init__] *)

Record instance : Type := mkInstance {
  inst_class : model_class;
  attributes : dict;
  attribute_values : dict
}.

Definition value_error (msg : string) : exn := Exn EValueError (VStr msg).

Definition eval_default (d : default_t) : pyval :=
  match d with
  | DValue v => v
  | DCallable f => f tt
  end.

(** [setattr(self, name, value)] for a registered name: [Attribute.__set__]. *)
Definition setattr (name : string) (value : pyval) (values : dict) : dict :=
  dict_set name value values.

(** [getattr(self, name)] for a registered name: [Attribute.__get__]. *)
Definition getattr (name : string) (self : instance) : pyval :=
  dict_get_none name (attribute_values self).

(** [AttributeContainer._set_defaults] *)
Definition _set_defaults (registry : list (string * attribute)) (values : dict)
    : dict :=
  fold_left (fun vals p =>
               let value := eval_default (default (snd p)) in
               if is_none value then vals else setattr (fst p) value vals)
            registry values.

(** [AttributeContainer._set_attributes] *)
Fixpoint _set_attributes (registry : list (string * attribute))
    (attrs : dict) (values : dict) : result dict :=
  match attrs with
  | [] => Ok values
  | (attr_name, attr_value) :: rest =>
      match registry_get attr_name registry with
      | None =>
          Raise (value_error ("Attribute " ++ attr_name ++ " specified does not exist"))
      | Some _ => _set_attributes registry rest (setattr attr_name attr_value values)
      end
  end.

(** [AttributeContainer.__init__] *)
Definition AttributeContainer_init (cls : model_class) (attrs : dict)
    : result instance :=
  match _set_attributes (get_attributes cls) attrs
          (_set_defaults (get_attributes cls) []) with
  | Ok values => Ok (mkInstance cls attrs values)
  | Raise e => Raise e
  end.

(** [MongoDBModel.__init__(self, hash_key=None, ...)]. When the class has no
    hash key, [attributes[self._hash_key]] is [attributes[None]], and the call
    that unpacks the dictionary into keywords raises the [TypeError] of a
    keyword that is not a string. *)
Definition MongoDBModel_init (cls : model_class) (hash_key : pyval)
    (attrs : dict) : result instance :=
  if is_none hash_key then AttributeContainer_init cls attrs
  else match _hash_key cls with
       | Some k => AttributeContainer_init cls (dict_set k hash_key attrs)
       | None => Raise (type_error "keywords must be strings")
       end.

(** [self._id], also [self.mongo_obj_id] *)
Definition _id (self : instance) : pyval := getattr "_id" self.

Definition mongo_obj_id (self : instance) : pyval := _id self.

(** [MongoDBModel._deserialize]: the new [attribute_values]. *)
Definition _deserialize (self : instance) (attrs : dict) : instance :=
  mkInstance (inst_class self) (attributes self)
    (fold_left (fun vals p =>
                  let name := fst p in
                  let attr := snd p in
                  let value :=
                    match attr_name attr with
                    | Some n => dict_get_none n attrs
                    | None => VNone
                    end in
                  let value :=
                    if is_none value then value
                    else deserialize (kind attr) value in
                  setattr name value vals)
               (get_attributes (inst_class self)) (attribute_values self)).

(** The loop of [from_raw_data] building the keyword dictionary. *)
Definition raw_attributes (cls : model_class) (data : dict) : dict :=
  fold_left (fun acc p =>
               match registry_get (fst p) (get_attributes cls) with
               | Some attr => dict_set (fst p) (deserialize (kind attr) (snd p)) acc
               | None => acc
               end)
            data [].

(** [MongoDBModel.from_raw_data] *)
Definition from_raw_data (cls : model_class) (data : option dict)
    : result instance :=
  match data with
  | None => Raise (value_error "Received no data to construct object")
  | Some d => MongoDBModel_init cls VNone (raw_attributes cls d)
  end.

(** ** The document store *)

Record cursor : Type := mkCursor {
  c_filter : dict;
  c_projection : option dict;
  c_sort : option pyval;
  c_skip : option pyval;
  c_limit : option pyval;
  c_hint : option pyval
}.

(** [pymongo.InsertOne], [DeleteOne], [UpdateOne] *)
Inductive request : Type :=
| InsertOne (document : dict)
| DeleteOne (filter : dict)
| UpdateOne (filter : dict) (update : dict) (upsert : bool).

Inductive store_call : Type :=
| CallFindOne (filter : dict) (projection : option (list string))
| CallFind (c : cursor)
| CallExplain (c : cursor)
| CallInsertOne (document : dict)
| CallDeleteOne (filter : dict)
| CallUpdateOne (filter : dict) (update : dict) (upsert : bool)
| CallCountDocuments (filter : dict)
| CallBulkWrite (requests : list request) (ordered : bool).

Record UpdateResult : Type := mkUpdateResult {
  matched_count : N;
  modified_count : N;
  upserted_id : pyval
}.

Record DeleteResult : Type := mkDeleteResult { deleted_count : N }.

Record InsertOneResult : Type := mkInsertOneResult { inserted_id : pyval }.

(** The collection as the models use it. Each reply is a function of the calls
    the collection has served so far and of the arguments of the call, and it
    may be an exception of the driver. [new_object_id] is the [ObjectId] the
    driver generates for a document inserted without [_id]. *)
Record Collection : Type := mkCollection {
  new_object_id : list store_call -> pyval;
  find_one : list store_call -> dict -> option (list string) -> result (option dict);
  find_docs : list store_call -> cursor -> result (list dict);
  explain : list store_call -> cursor -> result pyval;
  insert_one : list store_call -> dict -> result InsertOneResult;
  delete_one : list store_call -> dict -> result DeleteResult;
  update_one : list store_call -> dict -> dict -> bool -> result UpdateResult;
  count_documents : list store_call -> dict -> result Z;
  bulk_write_reply : list store_call -> list request -> bool -> result pyval
}.

(** ** Effects: the object table, the log of store calls, exceptions *)

Record World : Type := mkWorld {
  objects : nat -> instance;
  calls : list store_call
}.

Definition M (St A : Type) : Type := St -> result A * St.

Definition ret {St A} (a : A) : M St A := fun s => (Ok a, s).

Definition bind {St A B} (m : M St A) (f : A -> M St B) : M St B :=
  fun s => match m s with
           | (Ok a, s') => f a s'
           | (Raise e, s') => (Raise e, s')
           end.

Definition raise {St A} (e : exn) : M St A := fun s => (Raise e, s).

Definition lift_result {St A} (r : result A) : M St A := fun s => (r, s).

(** [try: m except cls as err: h err] *)
Definition try_except {St A} (m : M St A) (cls : exn_class)
    (h : exn -> M St A) : M St A :=
  fun s => match m s with
           | (Ok a, s') => (Ok a, s')
           | (Raise e, s') =>
               if catches cls (exn_cls e) then h e s' else (Raise e, s')
           end.

Declare Scope monad_scope.
Delimit Scope monad_scope with monad.
Notation "x <- m ;; k" := (bind m (fun x => k))
  (at level 61, m at next level, right associativity) : monad_scope.
Notation "m ;;; k" := (bind m (fun _ => k))
  (at level 61, right associativity) : monad_scope.
Open Scope monad_scope.

(** One call on the collection: the reply is computed from the log, the call is
    appended to it. *)
Definition store {A} (c : store_call) (reply : list store_call -> result A)
    : M World A :=
  fun w => (reply (calls w), mkWorld (objects w) (calls w ++ [c])).

Definition read_object (r : nat) : M World instance :=
  fun w => (Ok (objects w r), w).

Definition write_object (r : nat) (i : instance) : M World unit :=
  fun w => (Ok tt,
            mkWorld (fun r' => if Nat.eqb r' r then i else objects w r') (calls w)).

(** [cls.run(async_task)]: the event loop drives the task to completion. *)
Definition run {A} (async_task : M World A) : M World A := async_task.

(** ** [MongoDBModel]: queries and mutations *)

Definition AttributesEmptyException_msg : string :=
  "should get model from db or set model attributes first".

Definition DoesNotExist_msg : string := "Item does not exist".

(** [cls.DoesNotExist()] *)
Definition new_DoesNotExist (cls : model_class) : exn :=
  Exn (DoesNotExist cls)
      (if catches EDoesNotExist (DoesNotExist cls) then VStr DoesNotExist_msg
       else VNone).

(** [self.AttrsEmptyException(f"<op> error: {self.AttrsEmptyException.msg}")] *)
Definition new_AttrsEmpty (cls : model_class) (op : string) : exn :=
  Exn (AttrsEmptyException cls)
      (VStr (op ++ " error: " ++ AttributesEmptyException_msg)).

Definition document_truthy (document : option dict) : bool :=
  match document with
  | Some (_ :: _) => true
  | _ => false
  end.

Definition arg_default {A} (dflt : A) (arg : option A) : A :=
  match arg with Some a => a | None => dflt end.

Definition set_update (actions : dict) : dict := [("$set", VDict actions)].
Definition inc_update (actions : dict) : dict := [("$inc", VDict actions)].
Definition id_filter (oid : pyval) : dict := [("_id", oid)].

Fixpoint map_result {A B} (f : A -> result B) (l : list A) : result (list B) :=
  match l with
  | [] => Ok []
  | x :: l' =>
      match f x with
      | Raise e => Raise e
      | Ok y => match map_result f l' with
                | Raise e => Raise e
                | Ok ys => Ok (y :: ys)
                end
      end
  end.

Section Model.

Variable collection : Collection.

(** [MongoDBModel.get] *)
Definition get (cls : model_class) (attributes_to_get : option (list string))
    (kwargs : dict) : M World instance :=
  document <- run (store (CallFindOne kwargs attributes_to_get)
                         (fun h => find_one collection h kwargs attributes_to_get));;
  if document_truthy document then lift_result (from_raw_data cls document)
  else raise (new_DoesNotExist cls).

(** [MongoDBModel.async_get] *)
Definition async_get (cls : model_class) (attributes_to_get : option (list string))
    (kwargs : dict) : M World instance :=
  document <- store (CallFindOne kwargs attributes_to_get)
                    (fun h => find_one collection h kwargs attributes_to_get);;
  if document_truthy document then lift_result (from_raw_data cls document)
  else raise (new_DoesNotExist cls).

Definition some_if (b : bool) (v : pyval) : option pyval :=
  if b then Some v else None.

(** [MongoDBModel.async_find] *)
Definition async_find (cls : model_class) (condition : dict) (sort : pyval)
    (offset : pyval) (limit : pyval) (attributes_to_get : option (list string))
    (hint : pyval) (explain_flag : bool) : M World (list instance) :=
  let fields_to_get :=
    match attributes_to_get with
    | Some (a :: l) =>
        Some (fold_left (fun d attr => dict_set attr (VInt 1) d) (a :: l) [])
    | _ => None
    end in
  let cur := mkCursor condition fields_to_get
               (some_if (truthy sort) sort) (some_if (truthy offset) offset)
               (some_if (truthy limit) limit) (some_if (truthy hint) hint) in
  raw <- store (CallFind cur) (fun h => find_docs collection h cur);;
  documents <- lift_result (map_result (fun d => from_raw_data cls (Some d)) raw);;
  (if explain_flag
   then (_ <- store (CallExplain cur) (fun h => explain collection h cur);; ret tt)
   else ret tt);;;
  ret documents.

(** [MongoDBModel.find] *)
Definition find (cls : model_class) (condition : dict) (sort : pyval)
    (offset : pyval) (limit : pyval) (attributes_to_get : option (list string))
    (hint : pyval) (explain_flag : bool) : M World (list instance) :=
  run (async_find cls condition sort offset limit attributes_to_get hint explain_flag).

(** [MongoDBModel.async_query(cls, sort=None, attributes_to_get=None, ...)] *)
Definition async_query (cls : model_class) (sort : pyval)
    (attributes_to_get : option (list string)) (kwargs : dict)
    : M World (list instance) :=
  let offset := match dict_get "offset" kwargs with Some v => v | None => VInt 0 end in
  let kwargs := if dict_mem "offset" kwargs then dict_del "offset" kwargs else kwargs in
  let limit := match dict_get "limit" kwargs with Some v => v | None => VNone end in
  let kwargs := if dict_mem "limit" kwargs then dict_del "limit" kwargs else kwargs in
  async_find cls kwargs sort offset limit attributes_to_get VNone false.

(** A list of names as the Python list it is. *)
Definition names_value (names : option (list string)) : pyval :=
  match names with
  | None => VNone
  | Some l => VList (map VStr l)
  end.

(** [MongoDBModel.query(cls, attributes_to_get=None, ...)]: it calls
    [cls.async_query(attributes_to_get, ...)], whose first positional parameter
    is [sort]: a keyword [sort] is then a second value for that parameter. *)
Definition query (cls : model_class) (attributes_to_get : option (list string))
    (kwargs : dict) : M World (list instance) :=
  if dict_mem "sort" kwargs
  then raise (type_error "async_query() got multiple values for argument 'sort'")
  else run (async_query cls (names_value attributes_to_get) None kwargs).

Definition hash_key_filter (cls : model_class) (items : list pyval)
    : result dict :=
  match _hash_key cls with
  | Some k => Ok [(k, VDict [("$in", VList items)])]
  | None => Raise (Exn (EDriverError "InvalidDocument")
                       (VStr "documents must have only string keys"))
  end.

(** [MongoDBModel.batch_get] *)
Definition batch_get (cls : model_class) (items : list pyval)
    (attributes_to_get : option (list string)) : M World (list instance) :=
  match items with
  | [] => ret []
  | _ =>
      run (condition <- lift_result (hash_key_filter cls items);;
           async_find cls condition VNone (VInt 0) VNone attributes_to_get VNone false)
  end.

(** [MongoDBModel.async_batch_get] *)
Definition async_batch_get (cls : model_class) (items : list pyval)
    (attributes_to_get : option (list string)) : M World (list instance) :=
  match items with
  | [] => ret []
  | _ =>
      condition <- lift_result (hash_key_filter cls items);;
      async_find cls condition VNone (VInt 0) VNone attributes_to_get VNone false
  end.

(** [collection.insert_one(self.attribute_values)]: the driver is handed the
    dictionary of the instance itself, and before sending it adds to it the
    [_id] it generates when the dictionary has none. *)
Definition call_insert_one (self : nat) : M World InsertOneResult :=
  fun w =>
    let me := objects w self in
    let document :=
      if dict_mem "_id" (attribute_values me) then attribute_values me
      else dict_set "_id" (new_object_id collection (calls w)) (attribute_values me) in
    (insert_one collection (calls w) document,
     mkWorld (fun r => if Nat.eqb r self
                       then mkInstance (inst_class me) (attributes me) document
                       else objects w r)
             (calls w ++ [CallInsertOne document])).

(** [MongoDBModel.save] *)
Definition save (self : nat) : M World InsertOneResult :=
  run (call_insert_one self).

(** [MongoDBModel.async_save] *)
Definition async_save (self : nat) : M World InsertOneResult :=
  call_insert_one self.

(** [MongoDBModel.delete] *)
Definition delete (self : nat) : M World DeleteResult :=
  me <- read_object self;;
  if truthy (_id me) then
    run (store (CallDeleteOne (id_filter (_id me)))
               (fun h => delete_one collection h (id_filter (_id me))))
  else if dict_nonempty (attributes me) then
    run (store (CallDeleteOne (attributes me))
               (fun h => delete_one collection h (attributes me)))
  else raise (new_AttrsEmpty (inst_class me) "delete").

(** [MongoDBModel.async_delete] *)
Definition async_delete (self : nat) : M World DeleteResult :=
  me <- read_object self;;
  if truthy (_id me) then
    store (CallDeleteOne (id_filter (_id me)))
          (fun h => delete_one collection h (id_filter (_id me)))
  else if dict_nonempty (attributes me) then
    store (CallDeleteOne (attributes me))
          (fun h => delete_one collection h (attributes me))
  else raise (new_AttrsEmpty (inst_class me) "delete").

Definition call_update_one (flt upd : dict) (upsert : bool) : M World UpdateResult :=
  store (CallUpdateOne flt upd upsert)
        (fun h => update_one collection h flt upd upsert).

(** [MongoDBModel.update(self, actions, reload=True, upsert=False)] *)
Definition update (self : nat) (actions : dict) (reload upsert : option bool)
    : M World UpdateResult :=
  let reload := arg_default true reload in
  let upsert := arg_default false upsert in
  me <- read_object self;;
  res <- (if truthy (_id me) then
            run (call_update_one (id_filter (_id me)) (set_update actions) upsert)
          else if dict_nonempty (attributes me) then
            run (call_update_one (attributes me) (set_update actions) upsert)
          else raise (new_AttrsEmpty (inst_class me) "update"));;
  (if negb (N.eqb (modified_count res) 0) && reload then
     me <- read_object self;;
     new_data <- (if truthy (_id me)
                  then get (inst_class me) None (id_filter (_id me))
                  else get (inst_class me) None (attributes me));;
     me <- read_object self;;
     write_object self (_deserialize me (attribute_values new_data))
   else ret tt);;;
  ret res.

(** [MongoDBModel.async_update] *)
Definition async_update (self : nat) (actions : dict) (reload upsert : option bool)
    : M World UpdateResult :=
  let reload := arg_default true reload in
  let upsert := arg_default false upsert in
  me <- read_object self;;
  res <- (if truthy (_id me) then
            call_update_one (id_filter (_id me)) (set_update actions) upsert
          else if dict_nonempty (attributes me) then
            call_update_one (attributes me) (set_update actions) upsert
          else raise (new_AttrsEmpty (inst_class me) "update"));;
  (if negb (N.eqb (modified_count res) 0) && reload then
     me <- read_object self;;
     new_data <- (if truthy (_id me)
                  then async_get (inst_class me) None (id_filter (_id me))
                  else async_get (inst_class me) None (attributes me));;
     me <- read_object self;;
     write_object self (_deserialize me (attribute_values new_data))
   else ret tt);;;
  ret res.

(** [update_one(filter, update)] without [upsert]: the driver's default. *)
Definition driver_default_upsert : bool := false.

(** [MongoDBModel.inc(self, actions)] *)
Definition inc (self : nat) (actions : dict) : M World UpdateResult :=
  me <- read_object self;;
  if truthy (_id me) then
    run (call_update_one (id_filter (_id me)) (inc_update actions) driver_default_upsert)
  else if dict_nonempty (attributes me) then
    run (call_update_one (attributes me) (inc_update actions) driver_default_upsert)
  else raise (new_AttrsEmpty (inst_class me) "inc").

(** [MongoDBModel.async_inc(self, actions)] *)
Definition async_inc (self : nat) (actions : dict) : M World UpdateResult :=
  me <- read_object self;;
  if truthy (_id me) then
    call_update_one (id_filter (_id me)) (inc_update actions) driver_default_upsert
  else if dict_nonempty (attributes me) then
    call_update_one (attributes me) (inc_update actions) driver_default_upsert
  else raise (new_AttrsEmpty (inst_class me) "inc").

(** [MongoDBModel.count] *)
Definition count (filters : dict) : M World Z :=
  run (store (CallCountDocuments filters)
             (fun h => count_documents collection h filters)).

(** [MongoDBModel.async_count] *)
Definition async_count (filters : dict) : M World Z :=
  store (CallCountDocuments filters)
        (fun h => count_documents collection h filters).

(** [MongoDBModel.bulk_write] *)
Definition bulk_write (requests : list request) (ordered : bool) : M World pyval :=
  store (CallBulkWrite requests ordered)
        (fun h => bulk_write_reply collection h requests ordered).

End Model.

(** ** [BatchWrite] *)

(** [pymongodb/constants.py] is not among the sources: the action codes and
    the page limit it defines are parameters of the development. *)
Record constants : Type := mkConstants {
  ADD : Z;
  DELETE : Z;
  UPDATE : Z;
  INC : Z;
  BATCH_WRITE_PAGE_LIMIT : Z
}.

Module BatchWrite.

(** [BatchWriteOperationDict]; ['update'] and ['upsert'] are absent from the
    dictionaries staged by [save] and [delete]. *)
Record operation : Type := mkOperation {
  action : Z;
  item : nat;
  op_update : option dict;
  op_upsert : option bool
}.

Record t : Type := mkBatchWrite {
  model : model_class;
  pending_operations : list operation;
  failed_operations : list operation;
  max_operations : Z;
  ordered : bool
}.

Definition key_error (k : string) : exn := Exn EKeyError (VStr k).

Definition with_pending (self : t) (ops : list operation) : t :=
  mkBatchWrite (model self) ops (failed_operations self)
               (max_operations self) (ordered self).

Definition get_self : M (t * World) t := fun s => (Ok (fst s), s).

Definition set_pending (ops : list operation) : M (t * World) unit :=
  fun s => (Ok tt, (with_pending (fst s) ops, snd s)).

Definition get_objects : M (t * World) (nat -> instance) :=
  fun s => (Ok (objects (snd s)), s).

(** A method of the model run from a method of the writer. *)
Definition on_world {A} (m : M World A) : M (t * World) A :=
  fun s => match m (snd s) with (r, w') => (r, (fst s, w')) end.

Section Writer.

Variable K : constants.
Variable collection : Collection.

(** [BatchWrite.__init__(self, mongo_model, ordered=False)] *)
Definition init (mongo_model : model_class) (ordered_arg : option bool) : t :=
  mkBatchWrite mongo_model [] [] (BATCH_WRITE_PAGE_LIMIT K)
               (arg_default false ordered_arg).

(** The filter of a staged delete, update or increment. *)
Definition item_filter (mongo_model : instance) : dict :=
  if truthy (mongo_obj_id mongo_model)
  then id_filter (mongo_obj_id mongo_model)
  else attributes mongo_model.

(** One turn of the loop of [commit]: what is appended to [mongo_requests]. *)
Definition item_requests (objs : nat -> instance) (it : operation)
    : result (list request) :=
  let mongo_model := objs (item it) in
  if action it =? ADD K then
    Ok [InsertOne (attribute_values mongo_model)]
  else if action it =? DELETE K then
    Ok [DeleteOne (item_filter mongo_model)]
  else if action it =? UPDATE K then
    match op_upsert it with
    | None => Raise (key_error "upsert")
    | Some upsert =>
        match op_update it with
        | None => Raise (key_error "update")
        | Some upd => Ok [UpdateOne (item_filter mongo_model) (set_update upd) upsert]
        end
    end
  else if action it =? INC K then
    match op_upsert it with
    | None => Raise (key_error "upsert")
    | Some upsert =>
        match op_update it with
        | None => Raise (key_error "update")
        | Some upd => Ok [UpdateOne (item_filter mongo_model) (inc_update upd) upsert]
        end
    end
  else Ok [].

Fixpoint build_requests (objs : nat -> instance) (ops : list operation)
    : result (list request) :=
  match ops with
  | [] => Ok []
  | it :: ops' =>
      match item_requests objs it with
      | Raise e => Raise e
      | Ok rs =>
          match build_requests objs ops' with
          | Raise e => Raise e
          | Ok rs' => Ok (rs ++ rs')
          end
      end
  end.

(** [BatchWrite.commit] *)
Definition commit : M (t * World) unit :=
  self <- get_self;;
  objs <- get_objects;;
  mongo_requests <- lift_result (build_requests objs (pending_operations self));;
  set_pending [];;;
  match mongo_requests with
  | [] => ret tt
  | _ =>
      try_except
        (_ <- on_world (bulk_write collection mongo_requests (ordered self));; ret tt)
        EBulkWriteError
        (fun err => raise (Exn (BulkWriteException (model self)) (exn_arg err)))
  end.

Definition at_limit (self : t) : bool :=
  Z.of_nat (length (pending_operations self)) =? max_operations self.

Definition append (op : operation) : M (t * World) unit :=
  self <- get_self;;
  set_pending (pending_operations self ++ [op]).

(** [BatchWrite.save] *)
Definition save (put_item : nat) : M (t * World) unit :=
  self <- get_self;;
  (if at_limit self then commit else ret tt);;;
  append (mkOperation (ADD K) put_item None None).

(** [BatchWrite.delete] *)
Definition delete (del_item : nat) : M (t * World) unit :=
  self <- get_self;;
  (if at_limit self then commit else ret tt);;;
  append (mkOperation (DELETE K) del_item None None).

(** [BatchWrite.update(self, update_item, update_data, upsert=False)] *)
Definition update (update_item : nat) (update_data : dict)
    (upsert : option bool) : M (t * World) unit :=
  self <- get_self;;
  (if at_limit self then commit else ret tt);;;
  append (mkOperation (UPDATE K) update_item (Some update_data)
                      (Some (arg_default false upsert))).

(** [BatchWrite.inc(self, inc_item, inc_data, upsert=False)] *)
Definition inc (inc_item : nat) (inc_data : dict)
    (upsert : option bool) : M (t * World) unit :=
  self <- get_self;;
  (if at_limit self then commit else ret tt);;;
  append (mkOperation (INC K) inc_item (Some inc_data)
                      (Some (arg_default false upsert))).

(** [BatchWrite.__aexit__] *)
Definition __aexit__ : M (t * World) unit := commit.

(** The four staging calls, as data. *)
Inductive stage_call : Type :=
| StageSave (put_item : nat)
| StageDelete (del_item : nat)
| StageUpdate (update_item : nat) (update_data : dict) (upsert : option bool)
| StageInc (inc_item : nat) (inc_data : dict) (upsert : option bool).

Definition stage (c : stage_call) : M (t * World) unit :=
  match c with
  | StageSave i => save i
  | StageDelete i => delete i
  | StageUpdate i d u => update i d u
  | StageInc i d u => inc i d u
  end.

(** A caller making the staging calls one after the other, going on whatever
    each of them returns or raises: the state after each call. *)
Fixpoint stage_trace (cs : list stage_call) (s : t * World)
    : list (result unit * (t * World)) :=
  match cs with
  | [] => []
  | c :: cs' =>
      let rs := stage c s in
      rs :: stage_trace cs' (snd rs)
  end.

(** The same caller, stopping at the first exception. *)
Fixpoint stage_all (cs : list stage_call) : M (t * World) unit :=
  match cs with
  | [] => ret tt
  | c :: cs' => stage c;;; stage_all cs'
  end.

End Writer.

End BatchWrite.

(** ** Specification-side definitions *)

(** What one turn of the loop of [from_raw_data] assigns, if anything. *)
Definition raw_step (cls : model_class) (p : string * pyval) : option pyval :=
  match registry_get (fst p) (get_attributes cls) with
  | Some attr => Some (deserialize (kind attr) (snd p))
  | None => None
  end.

(** One turn of the loop of [from_raw_data]. *)
Definition raw_turn (cls : model_class) (acc : dict) (p : string * pyval) : dict :=
  match registry_get (fst p) (get_attributes cls) with
  | Some attr => dict_set (fst p) (deserialize (kind attr) (snd p)) acc
  | None => acc
  end.

(** The world after one more call on the collection. *)
Definition after_call (w : World) (c : store_call) : World :=
  mkWorld (objects w) (calls w ++ [c]).

(** Identity resolution as the specification words it: the object-id filter
    when the object id is present, else the raw attributes when there are
    some, else nothing. An object id is present when [_id] is truthy, which
    every [ObjectId] is. *)
Definition identity_filter (me : instance) : option dict :=
  if truthy (_id me) then Some (id_filter (_id me))
  else if dict_nonempty (attributes me) then Some (attributes me)
  else None.

(** Increment as the specification words it, with an upsert flag. *)
Definition increment_spec (collection : Collection) (self : nat) (delta : dict)
    (upsert : bool) : M World UpdateResult :=
  me <- read_object self;;
  match identity_filter me with
  | Some flt => call_update_one collection flt [("$inc", VDict delta)] upsert
  | None => raise (new_AttrsEmpty (inst_class me) "inc")
  end.

(** The call [self.inc(actions)], with or without a keyword [upsert]: the
    signature [inc(self, actions)] has no such parameter, and Python refuses
    the keyword before the body runs. *)
Definition inc_call (collection : Collection) (self : nat) (actions : dict)
    (upsert_keyword : option bool) : M World UpdateResult :=
  match upsert_keyword with
  | None => inc collection self actions
  | Some _ =>
      raise (type_error "inc() got an unexpected keyword argument 'upsert'")
  end.

(** The value a registered field holds after a reload, from what the fetched
    document has under its name. *)
Definition reloaded_value (a : attribute) (fetched : option pyval) : pyval :=
  match fetched with
  | Some v =>
      let v' := deserialize (kind a) v in
      if is_none v' then VNone else deserialize (kind a) v'
  | None =>
      let d := eval_default (default a) in
      if is_none d then VNone else deserialize (kind a) d
  end.

Fixpoint nodup_keys (l : list string) : bool :=
  match l with
  | [] => true
  | k :: l' => negb (existsb (String.eqb k) l') && nodup_keys l'
  end.

(** The dictionary a staging call appends to the queue. *)
Definition operation_of (K : constants) (c : BatchWrite.stage_call)
    : BatchWrite.operation :=
  match c with
  | BatchWrite.StageSave i => BatchWrite.mkOperation (ADD K) i None None
  | BatchWrite.StageDelete i => BatchWrite.mkOperation (DELETE K) i None None
  | BatchWrite.StageUpdate i d u =>
      BatchWrite.mkOperation (UPDATE K) i (Some d) (Some (arg_default false u))
  | BatchWrite.StageInc i d u =>
      BatchWrite.mkOperation (INC K) i (Some d) (Some (arg_default false u))
  end.

(** The request a staged operation stands for: an insert of the attribute
    values, a delete, a field-level set or an increment through the filter of
    the item. *)
Definition request_of (objs : nat -> instance) (c : BatchWrite.stage_call)
    : request :=
  match c with
  | BatchWrite.StageSave i => InsertOne (attribute_values (objs i))
  | BatchWrite.StageDelete i => DeleteOne (BatchWrite.item_filter (objs i))
  | BatchWrite.StageUpdate i d u =>
      UpdateOne (BatchWrite.item_filter (objs i)) (set_update d) (arg_default false u)
  | BatchWrite.StageInc i d u =>
      UpdateOne (BatchWrite.item_filter (objs i)) (inc_update d) (arg_default false u)
  end.

(** The four action codes are four different numbers. *)
Definition distinct_codes (K : constants) : Prop :=
  ADD K <> DELETE K /\ ADD K <> UPDATE K /\ ADD K <> INC K
  /\ DELETE K <> UPDATE K /\ DELETE K <> INC K /\ UPDATE K <> INC K.

(** The reply of the writer to the reply of the store to a bulk write. *)
Definition bulk_outcome (cls : model_class) (reply : result pyval) : result unit :=
  match reply with
  | Ok _ => Ok tt
  | Raise err =>
      if catches EBulkWriteError (exn_cls err)
      then Raise (Exn (BulkWriteException cls) (exn_arg err))
      else Raise err
  end.

(** ** Example models and stores

    [MovieModel] is the model of [tests/test.py]. *)

Definition MovieModel_body : namespace :=
  [ ("Meta", MValue (VDict [("db_name", VStr "examples");
                            ("table_name", VStr "movies")]));
    ("movie_id", MAttribute (new_attribute UnicodeAttribute true None None None));
    ("title", MAttribute (new_attribute UnicodeAttribute false None
                            (Some (DValue (VStr "CN"))) None));
    ("languages", MAttribute (new_attribute ListAttribute false None None None));
    ("year", MAttribute (new_attribute NumberAttribute false None None None));
    ("genres", MAttribute (new_attribute ListAttribute false None None None)) ].

Definition MovieModel : model_class := declare_model 1 "MovieModel" MovieModel_body.

(** A model whose two hash keys are declared in the order [zeta], [alpha]. *)
Definition TwoKeysModel_body : namespace :=
  [ ("zeta", MAttribute (new_attribute UnicodeAttribute true None None None));
    ("alpha", MAttribute (new_attribute UnicodeAttribute true None None None)) ].

Definition TwoKeysModel : model_class :=
  declare_model 2 "TwoKeysModel" TwoKeysModel_body.

(** A collection with fixed replies. *)
Definition canned_collection (document : option dict) (modified : N)
    (bulk : result pyval) : Collection :=
  mkCollection
    (fun _ => VObjectId "65f0c0ffee0000000000b001")
    (fun _ _ _ => Ok document)
    (fun _ _ => Ok match document with Some d => [d] | None => [] end)
    (fun _ _ => Ok VNone)
    (fun _ _ => Ok (mkInsertOneResult VNone))
    (fun _ _ => Ok (mkDeleteResult 1))
    (fun _ _ _ _ => Ok (mkUpdateResult modified modified VNone))
    (fun _ _ => Ok 0)
    (fun _ _ _ => bulk).

Definition example_constants : constants := mkConstants 1 2 3 4 3.

Definition oid1 : pyval := VObjectId "65f0c0ffee0000000000a001".

(** [cls(...)] with keyword arguments the class accepts. *)
Definition construct (cls : model_class) (attrs : dict) : instance :=
  match MongoDBModel_init cls VNone attrs with
  | Ok i => i
  | Raise _ => mkInstance cls attrs []
  end.

(** A movie fetched from the store, a movie built from keyword arguments and a
    movie built from nothing. *)
Definition fetched_movie : instance :=
  construct MovieModel (raw_attributes MovieModel [("_id", oid1); ("title", VStr "Old")]).

Definition keyword_movie : instance :=
  construct MovieModel [("movie_id", VStr "m1")].

Definition blank_movie : instance := construct MovieModel [].

(** A movie built with a hash key as first argument and a keyword for the same
    field. *)
Definition hashed_movie : instance :=
  match MongoDBModel_init MovieModel (VStr "m7") [("movie_id", VStr "m1")] with
  | Ok i => i
  | Raise _ => blank_movie
  end.

Definition example_objects (r : nat) : instance :=
  match r with
  | O => fetched_movie
  | S O => keyword_movie
  | _ => blank_movie
  end.

Definition example_world : World := mkWorld example_objects [].

Definition accepting_store : Collection := canned_collection None 0 (Ok VNone).

Definition write_errors : pyval :=
  VDict [("writeErrors", VList [VDict [("index", VInt 0); ("code", VInt 11000)]])].

Definition rejecting_store : Collection :=
  canned_collection None 0 (Raise (Exn EBulkWriteError write_errors)).

(** The store of the reload scenario: one document modified, and a fetched
    document without [title]. *)
Definition year_document : dict := [("_id", oid1); ("year", VInt 1943)].

Definition reload_store : Collection :=
  canned_collection (Some year_document) 1 (Ok VNone).

Definition missing_store : Collection := canned_collection None 1 (Ok VNone).

(** A store that honours the projection of a cursor: it holds one movie, and
    returns its [title] alone when a projection is asked for. *)
Definition projecting_store : Collection :=
  mkCollection
    (fun _ => VObjectId "65f0c0ffee0000000000b001")
    (fun _ _ _ => Ok None)
    (fun _ c =>
       Ok [match c_projection c with
           | Some _ => [("title", VStr "Casablanca")]
           | None => [("title", VStr "Casablanca"); ("year", VInt 1943)]
           end])
    (fun _ _ => Ok VNone)
    (fun _ _ => Ok (mkInsertOneResult VNone))
    (fun _ _ => Ok (mkDeleteResult 0))
    (fun _ _ _ _ => Ok (mkUpdateResult 0 0 VNone))
    (fun _ _ => Ok 1)
    (fun _ _ _ => Ok VNone).

(** The [year] of each instance of a result. *)
Definition years (r : result (list instance)) : list pyval :=
  match r with
  | Ok l => map (getattr "year") l
  | Raise _ => []
  end.

Definition writer_of (cs : list BatchWrite.stage_call) : BatchWrite.t :=
  BatchWrite.with_pending (BatchWrite.init example_constants MovieModel None)
    (map (operation_of example_constants) cs).

(** ** Further operations of the models and of the writer *)

(** [MongoDBModel.copy_from]: the new [attribute_values] of [self]. For a name
    registered in the class of [self], [hasattr] holds and [setattr] goes
    through [Attribute.__set__]; a name the class binds to something else is
    assigned in the own dictionary of the object, which is no part of
    [instance], and a name the class does not bind is skipped. *)
Definition copy_values (self model_from : instance) : dict :=
  fold_left (fun vals p =>
               let key := fst p in
               let attribute := snd p in
               if String.eqb key "_id" then vals
               else if is_hash_key attribute then vals
               else match registry_get key (get_attributes (inst_class self)) with
                    | Some _ => setattr key (getattr key model_from) vals
                    | None => vals
                    end)
            (get_attributes (inst_class model_from)) (attribute_values self).

Definition copy_from (self model_from : nat) : M World unit :=
  me <- read_object self;;
  source <- read_object model_from;;
  write_object self
    (mkInstance (inst_class me) (attributes me) (copy_values me source)).

(** A store that accepts every bulk write. *)
Definition accepts_bulk_writes (collection : Collection) : Prop :=
  forall log requests ordered,
    exists reply, bulk_write_reply collection log requests ordered = Ok reply.

(** The values of an instance are held under registered names, each once. *)
Definition values_registered (i : instance) : Prop :=
  NoDup (map fst (attribute_values i))
  /\ forall k, In k (map fst (attribute_values i)) ->
               registry_get k (get_attributes (inst_class i)) <> None.

Definition registered (cls : model_class) (k : string) : bool :=
  match registry_get k (get_attributes cls) with
  | Some _ => true
  | None => false
  end.

(** Names in ascending order, as [sorted] leaves them. *)
Definition name_le (a b : string) : Prop := String.leb a b = true.

(** * Properties *)

Unset Implicit Arguments.

(** ** Attribute descriptors: the round trip *)

Lemma roundtrip_identity_kinds (k : attr_kind) (v : pyval) :
  k <> BooleanAttribute -> k <> UnicodeAttribute -> roundtrip k v = Ok v.
Proof.
  intros Hb Hu. destruct k; try reflexivity; congruence.
Qed.

Lemma roundtrip_boolean (b : bool) :
  roundtrip BooleanAttribute (VBool b) = Ok (VBool b).
Proof. destruct b; reflexivity. Qed.

Lemma string_eqb_empty (s : string) : String.eqb s "" = false -> s <> "".
Proof. intros H E. subst s. discriminate. Qed.

Lemma roundtrip_text_nonempty (s : string) :
  s <> "" -> roundtrip UnicodeAttribute (VStr s) = Ok (VStr s).
Proof.
  intros Hs. destruct s as [|c s]; [congruence|reflexivity].
Qed.

(** What the two overriding classes do with the values that do not come back. *)
Lemma roundtrip_text_empty : roundtrip UnicodeAttribute (VStr "") = Ok VNone.
Proof. reflexivity. Qed.

Lemma roundtrip_boolean_none : roundtrip BooleanAttribute VNone = Ok (VBool false).
Proof. reflexivity. Qed.

(** C1, as stated, fails: the empty string is a legal text value, and
    [UnicodeAttribute] serializes it to [None], which deserializes to [None]. *)
Lemma C1_roundtrip_counterexample :
  ~ (forall k v, legal k v = true -> roundtrip k v = Ok v).
Proof.
  intros H. specialize (H UnicodeAttribute (VStr "") eq_refl). discriminate H.
Qed.

(** C1 (amended): for every attribute class and every legal value [v] of it,
    [None] included, [deserialize(serialize(v))] is [v], the empty text string
    apart, which comes back as [None]. The round trip of [None] through
    [BooleanAttribute] is left out of the statement. *)
Theorem C1_roundtrip_amended (k : attr_kind) (v : pyval) :
  legal k v = true ->
  (k = BooleanAttribute -> v <> VNone) ->
  roundtrip k v = Ok (match k, v with
                      | UnicodeAttribute, VStr EmptyString => VNone
                      | _, _ => v
                      end).
Proof.
  intros Hl Hb.
  destruct k.
  - destruct v; reflexivity.
  - destruct v; reflexivity.
  - destruct v; try discriminate Hl.
    + exfalso. now apply Hb.
    + apply roundtrip_boolean.
  - destruct v as [| | |s| | | | |]; try discriminate Hl; try reflexivity.
    destruct s; reflexivity.
  - destruct v; reflexivity.
  - destruct v; reflexivity.
  - destruct v; reflexivity.
  - destruct v; reflexivity.
Qed.

Lemma C1_roundtrip_amended_witness :
  roundtrip UnicodeAttribute (VStr "Casablanca") = Ok (VStr "Casablanca").
Proof.
  apply (@C1_roundtrip_amended UnicodeAttribute (VStr "Casablanca")).
  - reflexivity.
  - intros H. discriminate H.
Defined.

(** ** Class creation: the hash key *)

Lemma record_hash_key_none (hk : option string) (l : list (string * attribute)) :
  (forall p, In p l -> is_hash_key (snd p) = false) ->
  record_hash_key hk l = hk.
Proof.
  revert hk. induction l as [|p l IH]; intros hk H; [reflexivity|].
  unfold record_hash_key in *. simpl.
  rewrite (H p (or_introl eq_refl)).
  apply IH. intros q Hq. apply H. now right.
Qed.

Lemma record_hash_key_last (hk : option string) (pre post : list (string * attribute))
    (n : string) (a : attribute) :
  is_hash_key a = true ->
  (forall p, In p post -> is_hash_key (snd p) = false) ->
  record_hash_key hk (pre ++ (n, a) :: post) = Some n.
Proof.
  intros Ha Hpost. unfold record_hash_key.
  rewrite fold_left_app. simpl. rewrite Ha.
  now apply record_hash_key_none.
Qed.

(** The order of registration is the order of [getmembers], that is by name,
    whatever the order of the class body. *)
Example hash_key_enumeration_by_name :
  map fst TwoKeysModel_body = ["zeta"; "alpha"]
  /\ map fst (get_attributes TwoKeysModel) = ["_id"; "alpha"; "zeta"]
  /\ _hash_key TwoKeysModel = Some "zeta".
Proof. repeat split. Qed.

(** C8: a model class records at most one hash key, and when attributes with
    [hash_key=True] are registered, the one recorded is the last of them in the
    order of registration. *)
Theorem C8_hash_key_last_registered (id : nat) (d : class_decl)
    (pre post : list (string * attribute)) (n : string) (a : attribute) :
  get_attributes (MetaModel_init id d) = pre ++ (n, a) :: post ->
  is_hash_key a = true ->
  (forall p, In p post -> is_hash_key (snd p) = false) ->
  _hash_key (MetaModel_init id d) = Some n
  /\ (forall m, _hash_key (MetaModel_init id d) = Some m -> m = n).
Proof.
  intros Hreg Ha Hpost.
  assert (H : _hash_key (MetaModel_init id d) = Some n).
  { unfold get_attributes in Hreg. simpl in Hreg. simpl.
    rewrite Hreg. now apply record_hash_key_last. }
  split; [exact H|].
  intros m Hm. rewrite H in Hm. congruence.
Qed.

Lemma C8_hash_key_last_registered_witness :
  _hash_key TwoKeysModel = Some "zeta"
  /\ (forall m, _hash_key TwoKeysModel = Some m -> m = "zeta").
Proof.
  apply (@C8_hash_key_last_registered 2
           (mkClassDecl "TwoKeysModel" (Some MongoDBModel) TwoKeysModel_body)
           [("_id", set_attr_name "_id" (new_attribute ObjectIdAttribute false None None None));
            ("alpha", set_attr_name "alpha" (new_attribute UnicodeAttribute true None None None))]
           []
           "zeta"
           (set_attr_name "zeta" (new_attribute UnicodeAttribute true None None None))).
  - reflexivity.
  - reflexivity.
  - intros p [].
Defined.

(** ** Class creation: the per-model [DoesNotExist] *)

Lemma exn_class_eqb_refl (c : exn_class) : exn_class_eqb c c = true.
Proof.
  destruct c; simpl; try reflexivity.
  - apply Nat.eqb_refl.
  - apply String.eqb_refl.
Qed.

Lemma catches_generated (i j : nat) :
  catches (EModelDoesNotExist j) (EModelDoesNotExist i) = Nat.eqb j i.
Proof.
  unfold catches. simpl. now rewrite !orb_false_r.
Qed.

Lemma generated_DoesNotExist (id : nat) (d : class_decl) :
  ns_mem "DoesNotExist" (decl_attrs d) = false ->
  DoesNotExist (MetaModel_init id d) = EModelDoesNotExist id.
Proof.
  intros H. simpl. now rewrite H.
Qed.

Section GetRaises.

Variable collection : Collection.

Lemma get_not_found (cls : model_class) (attributes_to_get : option (list string))
    (kwargs : dict) (w : World) (document : option dict) :
  find_one collection (calls w) kwargs attributes_to_get = Ok document ->
  document_truthy document = false ->
  get collection cls attributes_to_get kwargs w
  = (Raise (new_DoesNotExist cls),
     mkWorld (objects w) (calls w ++ [CallFindOne kwargs attributes_to_get])).
Proof.
  intros Hf Ht. unfold get, run, bind, store. rewrite Hf, Ht. reflexivity.
Qed.

Lemma get_found (cls : model_class) (attributes_to_get : option (list string))
    (kwargs : dict) (w : World) (document : option dict) :
  find_one collection (calls w) kwargs attributes_to_get = Ok document ->
  document_truthy document = true ->
  get collection cls attributes_to_get kwargs w
  = (from_raw_data cls document,
     mkWorld (objects w) (calls w ++ [CallFindOne kwargs attributes_to_get])).
Proof.
  intros Hf Ht. unfold get, run, bind, store, lift_result. rewrite Hf, Ht.
  reflexivity.
Qed.

End GetRaises.

(** C9, as stated, fails for the base class: the body of [MongoDBModel] binds
    [DoesNotExist] to the package-wide class, so a handler scoped to
    [MongoDBModel.DoesNotExist] catches the [DoesNotExist] of [MovieModel],
    another model class. *)
Lemma C9_not_found_counterexample :
  ~ (forall A B : model_class,
        mc_id A <> mc_id B ->
        catches (DoesNotExist B) (DoesNotExist A) = false).
Proof.
  intros H. specialize (H MovieModel MongoDBModel).
  assert (Hid : mc_id MovieModel <> mc_id MongoDBModel) by (simpl; discriminate).
  specialize (H Hid). vm_compute in H. discriminate H.
Qed.

(** C9 (amended): a model class whose body does not bind [DoesNotExist] gets a
    class of its own derived from the package-wide one; [get] on an empty
    result raises it; and of two distinct such model classes, a handler scoped
    to the [DoesNotExist] of one does not catch the [DoesNotExist] of the
    other. *)
Theorem C9_not_found_amended (idA idB : nat) (dA dB : class_decl) :
  idA <> idB ->
  ns_mem "DoesNotExist" (decl_attrs dA) = false ->
  ns_mem "DoesNotExist" (decl_attrs dB) = false ->
  let A := MetaModel_init idA dA in
  let B := MetaModel_init idB dB in
  DoesNotExist A <> EDoesNotExist
  /\ catches EDoesNotExist (DoesNotExist A) = true
  /\ catches (DoesNotExist B) (DoesNotExist A) = false
  /\ forall (collection : Collection) attributes_to_get kwargs w,
       find_one collection (calls w) kwargs attributes_to_get = Ok None ->
       fst (get collection A attributes_to_get kwargs w)
       = Raise (Exn (DoesNotExist A) (VStr DoesNotExist_msg)).
Proof.
  intros Hid HA HB A B.
  assert (EA : DoesNotExist A = EModelDoesNotExist idA)
    by now apply generated_DoesNotExist.
  assert (EB : DoesNotExist B = EModelDoesNotExist idB)
    by now apply generated_DoesNotExist.
  rewrite EA, EB. repeat split.
  - discriminate.
  - rewrite catches_generated. apply Nat.eqb_neq. congruence.
  - intros collection atg kwargs w Hf.
    rewrite (get_not_found collection A atg kwargs w None Hf eq_refl).
    simpl fst. unfold new_DoesNotExist. rewrite EA. reflexivity.
Qed.

Lemma C9_not_found_amended_witness :
  catches (DoesNotExist TwoKeysModel) (DoesNotExist MovieModel) = false.
Proof.
  apply (@C9_not_found_amended 1 2
           (mkClassDecl "MovieModel" (Some MongoDBModel) MovieModel_body)
           (mkClassDecl "TwoKeysModel" (Some MongoDBModel) TwoKeysModel_body)).
  - discriminate.
  - reflexivity.
  - reflexivity.
Defined.

(** ** The batch writer *)

Section WriterProperties.

Variable K : constants.
Variable collection : Collection.

Import BatchWrite.

Local Abbreviation commit := (BatchWrite.commit K collection).
Local Abbreviation stage := (BatchWrite.stage K collection).
Local Abbreviation stage_all := (BatchWrite.stage_all K collection).

Lemma item_requests_staged (objs : nat -> instance) (c : stage_call) :
  distinct_codes K ->
  item_requests K objs (operation_of K c) = Ok [request_of objs c].
Proof.
  intros (H1 & H2 & H3 & H4 & H5 & H6). unfold item_requests.
  destruct c as [i|i|i d u|i d u]; simpl.
  - now rewrite Z.eqb_refl.
  - rewrite (proj2 (Z.eqb_neq (DELETE K) (ADD K))) by congruence.
    now rewrite Z.eqb_refl.
  - rewrite (proj2 (Z.eqb_neq (UPDATE K) (ADD K))) by congruence.
    rewrite (proj2 (Z.eqb_neq (UPDATE K) (DELETE K))) by congruence.
    now rewrite Z.eqb_refl.
  - rewrite (proj2 (Z.eqb_neq (INC K) (ADD K))) by congruence.
    rewrite (proj2 (Z.eqb_neq (INC K) (DELETE K))) by congruence.
    rewrite (proj2 (Z.eqb_neq (INC K) (UPDATE K))) by congruence.
    now rewrite Z.eqb_refl.
Qed.

(** The requests are built in the order of the queue. *)
Lemma build_requests_staged (objs : nat -> instance) (cs : list stage_call) :
  distinct_codes K ->
  build_requests K objs (map (operation_of K) cs) = Ok (map (request_of objs) cs).
Proof.
  intros HK. induction cs as [|c cs IH]; [reflexivity|].
  simpl. rewrite (item_requests_staged objs c HK), IH. reflexivity.
Qed.

Lemma commit_empty (b : t) (w : World) :
  pending_operations b = [] ->
  commit (b, w) = (Ok tt, (with_pending b [], w)).
Proof.
  intros Hp. unfold BatchWrite.commit, bind, get_self, get_objects, lift_result,
    set_pending, ret. simpl. rewrite Hp. reflexivity.
Qed.

Lemma commit_requests (b : t) (w : World) (r : request) (rs : list request) :
  build_requests K (objects w) (pending_operations b) = Ok (r :: rs) ->
  commit (b, w)
  = (bulk_outcome (model b)
       (bulk_write_reply collection (calls w) (r :: rs) (ordered b)),
     (with_pending b [],
      mkWorld (objects w) (calls w ++ [CallBulkWrite (r :: rs) (ordered b)]))).
Proof.
  intros Hb. unfold BatchWrite.commit, bind, get_self, get_objects, lift_result,
    set_pending, ret, try_except, on_world, bulk_write, store, raise. simpl.
  rewrite Hb. simpl.
  destruct (bulk_write_reply collection (calls w) (r :: rs) (ordered b)) as [v|err];
    simpl; [reflexivity|].
  destruct (catches EBulkWriteError (exn_cls err)); reflexivity.
Qed.

Lemma commit_raises_early (b : t) (w : World) (e : exn) :
  build_requests K (objects w) (pending_operations b) = Raise e ->
  commit (b, w) = (Raise e, (b, w)).
Proof.
  intros Hb. unfold BatchWrite.commit, bind, get_self, get_objects, lift_result.
  simpl. rewrite Hb. reflexivity.
Qed.

(** Whatever it returns, [commit] leaves the queue as it was (when building the
    requests fails) or empty, and never changes the limit. *)
Lemma commit_pending (b : t) (w : World) :
  let s' := snd (commit (b, w)) in
  max_operations (fst s') = max_operations b
  /\ (pending_operations (fst s') = []
      \/ pending_operations (fst s') = pending_operations b
         /\ exists e, fst (commit (b, w)) = Raise e).
Proof.
  destruct (build_requests K (objects w) (pending_operations b)) as [rs|e] eqn:Hb.
  - destruct rs as [|r rs].
    + assert (E : commit (b, w) = (Ok tt, (with_pending b [], w))).
      { unfold BatchWrite.commit, bind, get_self, get_objects, lift_result,
          set_pending, ret. simpl. rewrite Hb. reflexivity. }
      rewrite E. simpl. auto.
    + rewrite (commit_requests b w _ _ Hb). simpl. auto.
  - rewrite (commit_raises_early b w e Hb). simpl. split; [reflexivity|].
    right. split; [reflexivity|]. now exists e.
Qed.

Lemma stage_unfold (c : stage_call) (b : t) (w : World) :
  stage c (b, w)
  = if at_limit b
    then match commit (b, w) with
         | (Ok _, s') => append (operation_of K c) s'
         | (Raise e, s') => (Raise e, s')
         end
    else append (operation_of K c) (b, w).
Proof.
  destruct c; unfold BatchWrite.stage, BatchWrite.save, BatchWrite.delete,
    BatchWrite.update, BatchWrite.inc, bind, get_self, ret; simpl;
    destruct (at_limit b); reflexivity.
Qed.

Lemma append_eq (op : operation) (b : t) (w : World) :
  append op (b, w) = (Ok tt, (with_pending b (pending_operations b ++ [op]), w)).
Proof. reflexivity. Qed.

Lemma with_pending_same (b : t) : with_pending b (pending_operations b) = b.
Proof. destruct b; reflexivity. Qed.

Lemma stage_all_app (cs1 cs2 : list stage_call) (s : t * World) :
  stage_all (cs1 ++ cs2) s
  = match stage_all cs1 s with
    | (Ok _, s') => stage_all cs2 s'
    | (Raise e, s') => (Raise e, s')
    end.
Proof.
  revert s. induction cs1 as [|c cs1 IH]; intros s; [reflexivity|].
  simpl. unfold bind.
  destruct (stage c s) as [[u|e] s']; [apply IH|reflexivity].
Qed.

(** Below the limit, staging only appends. *)
Lemma stage_all_below_limit (cs : list stage_call) (b : t) (w : World) :
  Z.of_nat (length (pending_operations b) + length cs) <= max_operations b ->
  stage_all cs (b, w)
  = (Ok tt,
     (with_pending b (pending_operations b ++ map (operation_of K) cs), w)).
Proof.
  revert b. induction cs as [|c cs IH]; intros b Hlen.
  - simpl. rewrite app_nil_r, with_pending_same. reflexivity.
  - simpl. unfold bind at 1. rewrite stage_unfold.
    assert (Hl : at_limit b = false).
    { unfold at_limit. apply Z.eqb_neq. simpl in Hlen. lia. }
    rewrite Hl, append_eq.
    rewrite IH.
    + simpl. rewrite <- app_assoc. reflexivity.
    + simpl. rewrite length_app. simpl in *. lia.
Qed.

(** One staging call keeps the queue within the limit. *)
Lemma stage_keeps_bound (c : stage_call) (b : t) (w : World) :
  0 < max_operations b ->
  Z.of_nat (length (pending_operations b)) <= max_operations b ->
  let b' := fst (snd (stage c (b, w))) in
  max_operations b' = max_operations b
  /\ Z.of_nat (length (pending_operations b')) <= max_operations b.
Proof.
  intros Hpos Hle. rewrite stage_unfold.
  destruct (at_limit b) eqn:Hl.
  - pose proof (commit_pending b w) as Hc.
    destruct (commit (b, w)) as [[u|e] [b1 w1]]; simpl in Hc.
    + destruct Hc as [Hm [Hp|[_ [e He]]]]; [|discriminate He].
      rewrite append_eq. simpl. rewrite Hp. simpl. split; [exact Hm|lia].
    + simpl. destruct Hc as [Hm [Hp|[Hp _]]]; rewrite Hp; simpl; split;
        try exact Hm; lia.
  - rewrite append_eq. simpl. split; [reflexivity|].
    unfold at_limit in Hl. apply Z.eqb_neq in Hl.
    rewrite length_app. simpl. lia.
Qed.

Lemma stage_trace_bound (cs : list stage_call) (b : t) (w : World) :
  0 < max_operations b ->
  Z.of_nat (length (pending_operations b)) <= max_operations b ->
  Forall (fun rs =>
            0 <= Z.of_nat (length (pending_operations (fst (snd rs))))
              <= max_operations b)
         (BatchWrite.stage_trace K collection cs (b, w)).
Proof.
  revert b w. induction cs as [|c cs IH]; intros b w Hpos Hle; [constructor|].
  simpl. pose proof (stage_keeps_bound c b w Hpos Hle) as [Hm Hb].
  destruct (stage c (b, w)) as [r [b' w']] eqn:Hs. simpl in *.
  constructor.
  - simpl. lia.
  - rewrite <- Hm. apply IH; lia.
Qed.

(** C3 (amended): from a fresh writer, after every staging call, returning or raising,
    the queue holds between 0 and the page limit operations; and staging one
    operation more than the page limit makes exactly one bulk write, of the
    first page-limit operations in their order, after which the queue holds
    the last operation alone (or nothing, when the store rejects the bulk write
    and the last call raises). The page limit is a positive constant. *)
Theorem C3_queue_bound (cls : model_class) (ord : option bool) (w : World) :
  0 < BATCH_WRITE_PAGE_LIMIT K ->
  distinct_codes K ->
  (forall cs,
      Forall (fun rs =>
                0 <= Z.of_nat (length (pending_operations (fst (snd rs))))
                  <= BATCH_WRITE_PAGE_LIMIT K)
             (BatchWrite.stage_trace K collection cs (init K cls ord, w)))
  /\ (forall first last,
         Z.of_nat (length first) = BATCH_WRITE_PAGE_LIMIT K ->
         let b0 := init K cls ord in
         let reqs := map (request_of (objects w)) first in
         let w' := mkWorld (objects w)
                     (calls w ++ [CallBulkWrite reqs (ordered b0)]) in
         match bulk_write_reply collection (calls w) reqs (ordered b0) with
         | Ok _ =>
             stage_all (first ++ [last]) (b0, w)
             = (Ok tt, (with_pending b0 [operation_of K last], w'))
         | Raise err =>
             stage_all (first ++ [last]) (b0, w)
             = (bulk_outcome cls (Raise err), (with_pending b0 [], w'))
         end).
Proof.
  intros Hpos HK. split.
  - intros cs. apply (stage_trace_bound cs (init K cls ord) w); simpl; lia.
  - intros first last Hlen b0 reqs w'.
    assert (E : stage_all (first ++ [last]) (b0, w)
                = match bulk_outcome cls
                          (bulk_write_reply collection (calls w) reqs (ordered b0))
                  with
                  | Ok _ => (Ok tt, (with_pending b0 [operation_of K last], w'))
                  | Raise e => (Raise e, (with_pending b0 [], w'))
                  end).
    { assert (Hfirst : stage_all first (b0, w)
                       = (Ok tt, (with_pending b0 (map (operation_of K) first), w))).
      { rewrite stage_all_below_limit; [reflexivity|]. simpl. lia. }
      rewrite stage_all_app, Hfirst. simpl. unfold bind at 1.
      rewrite stage_unfold.
      assert (Hl : at_limit (with_pending b0 (map (operation_of K) first)) = true).
      { unfold at_limit. simpl. rewrite length_map. apply Z.eqb_eq. exact Hlen. }
      rewrite Hl.
      destruct first as [|c first]; [simpl in Hlen; lia|].
      assert (Hb : build_requests K (objects w)
                     (pending_operations
                        (with_pending b0 (map (operation_of K) (c :: first))))
                   = Ok (request_of (objects w) c
                           :: map (request_of (objects w)) first)).
      { exact (build_requests_staged (objects w) (c :: first) HK). }
      rewrite (commit_requests _ w _ _ Hb). simpl ordered. simpl model.
      unfold reqs, w'. simpl map. simpl ordered.
      destruct (bulk_outcome cls
                  (bulk_write_reply collection (calls w)
                     (request_of (objects w) c :: map (request_of (objects w)) first)
                     (arg_default false ord))) as [u|e]; reflexivity. }
    rewrite E.
    destruct (bulk_write_reply collection (calls w) reqs (ordered b0)) as [v|err];
      [reflexivity|].
    simpl. destruct (catches EBulkWriteError (exn_cls err)); reflexivity.
Qed.

(** C4: [commit] on an empty queue returns without a store call; on a queue of
    staged operations it makes one bulk write whose requests are the staged
    operations in staging order, the queue is empty whatever the store
    replies, and a [BulkWriteError] of the store is raised again as the
    [BulkWriteException] of the model carrying the details of the error. *)
Theorem C4_commit (b : t) (w : World) (cs : list stage_call) :
  distinct_codes K ->
  pending_operations b = map (operation_of K) cs ->
  match cs with
  | [] => commit (b, w) = (Ok tt, (with_pending b [], w))
  | _ :: _ =>
      let reqs := map (request_of (objects w)) cs in
      let reply := bulk_write_reply collection (calls w) reqs (ordered b) in
      commit (b, w)
      = (bulk_outcome (model b) reply,
         (with_pending b [],
          mkWorld (objects w) (calls w ++ [CallBulkWrite reqs (ordered b)])))
      /\ (forall details,
            reply = Raise (Exn EBulkWriteError details) ->
            fst (commit (b, w))
            = Raise (Exn (BulkWriteException (model b)) details)
            /\ pending_operations (fst (snd (commit (b, w)))) = [])
  end.
Proof.
  intros HK Hp. destruct cs as [|c cs].
  - now apply commit_empty.
  - intros reqs reply.
    assert (Hb : build_requests K (objects w) (pending_operations b)
                 = Ok (request_of (objects w) c
                         :: map (request_of (objects w)) cs)).
    { rewrite Hp. exact (build_requests_staged (objects w) (c :: cs) HK). }
    assert (E := commit_requests b w _ _ Hb). split; [exact E|].
    intros details Hr. rewrite E. simpl.
    unfold reply, reqs in Hr. simpl in Hr. rewrite Hr. simpl. auto.
Qed.

End WriterProperties.

Lemma example_codes_distinct : distinct_codes example_constants.
Proof. unfold distinct_codes. simpl. lia. Qed.

Lemma C3_queue_bound_witness :
  BatchWrite.stage_all example_constants accepting_store
    [BatchWrite.StageSave 0; BatchWrite.StageSave 1; BatchWrite.StageSave 2;
     BatchWrite.StageDelete 0]
    (BatchWrite.init example_constants MovieModel None, example_world)
  = (Ok tt,
     (writer_of [BatchWrite.StageDelete 0],
      mkWorld example_objects
        [CallBulkWrite
           [InsertOne (attribute_values fetched_movie);
            InsertOne (attribute_values keyword_movie);
            InsertOne (attribute_values blank_movie)] false])).
Proof.
  assert (Hpos : 0 < BATCH_WRITE_PAGE_LIMIT example_constants) by (simpl; lia).
  destruct (C3_queue_bound example_constants accepting_store MovieModel None
              example_world Hpos example_codes_distinct) as [_ H].
  exact (H [BatchWrite.StageSave 0; BatchWrite.StageSave 1; BatchWrite.StageSave 2]
           (BatchWrite.StageDelete 0) eq_refl).
Defined.

(** C3, as stated, fails when the store rejects the intermediate bulk write:
    the queue was emptied before the attempt, the staging call that made it
    raises before appending, and after one operation more than the page limit
    the queue holds nothing, not one operation. *)
Lemma C3_queue_bound_counterexample :
  let s := BatchWrite.stage_all example_constants rejecting_store
             [BatchWrite.StageSave 0; BatchWrite.StageSave 1;
              BatchWrite.StageSave 2; BatchWrite.StageDelete 0]
             (BatchWrite.init example_constants MovieModel None, example_world) in
  Z.of_nat 3 = BATCH_WRITE_PAGE_LIMIT example_constants
  /\ fst s = Raise (Exn EBulkWriteException write_errors)
  /\ length (BatchWrite.pending_operations (fst (snd s))) = 0%nat
  /\ length (BatchWrite.pending_operations (fst (snd s))) <> 1%nat
  /\ calls (snd (snd s))
     = [CallBulkWrite
          [InsertOne (attribute_values fetched_movie);
           InsertOne (attribute_values keyword_movie);
           InsertOne (attribute_values blank_movie)] false].
Proof.
  repeat split. discriminate.
Qed.

Lemma C4_commit_witness :
  fst (BatchWrite.commit example_constants rejecting_store
         (writer_of [BatchWrite.StageSave 1; BatchWrite.StageDelete 0], example_world))
  = Raise (Exn EBulkWriteException write_errors)
  /\ BatchWrite.pending_operations
       (fst (snd (BatchWrite.commit example_constants rejecting_store
                    (writer_of [BatchWrite.StageSave 1; BatchWrite.StageDelete 0],
                     example_world)))) = [].
Proof.
  destruct (C4_commit example_constants rejecting_store
              (writer_of [BatchWrite.StageSave 1; BatchWrite.StageDelete 0])
              example_world
              [BatchWrite.StageSave 1; BatchWrite.StageDelete 0]
              example_codes_distinct eq_refl) as [_ H].
  exact (H write_errors eq_refl).
Defined.

(** ** Identity resolution in the methods of a model *)

Section ModelProperties.

Variable collection : Collection.

Lemma delete_resolves (self : nat) (w : World) :
  delete collection self w
  = match identity_filter (objects w self) with
    | Some flt =>
        (delete_one collection (calls w) flt, after_call w (CallDeleteOne flt))
    | None => (Raise (new_AttrsEmpty (inst_class (objects w self)) "delete"), w)
    end.
Proof.
  unfold delete, identity_filter, bind, read_object, run, store, raise, after_call.
  destruct (truthy (_id (objects w self))); [reflexivity|].
  destruct (dict_nonempty (attributes (objects w self))); reflexivity.
Qed.

Lemma inc_resolves (self : nat) (actions : dict) (w : World) :
  inc collection self actions w
  = match identity_filter (objects w self) with
    | Some flt =>
        (update_one collection (calls w) flt (inc_update actions) false,
         after_call w (CallUpdateOne flt (inc_update actions) false))
    | None => (Raise (new_AttrsEmpty (inst_class (objects w self)) "inc"), w)
    end.
Proof.
  unfold inc, identity_filter, bind, read_object, run, call_update_one, store,
    raise, after_call, driver_default_upsert.
  destruct (truthy (_id (objects w self))); [reflexivity|].
  destruct (dict_nonempty (attributes (objects w self))); reflexivity.
Qed.

(** [update], step by step: the filter, the field-level set, and the reload. *)
Lemma update_resolves (self : nat) (actions : dict) (reload upsert : option bool)
    (w : World) :
  update collection self actions reload upsert w
  = match identity_filter (objects w self) with
    | None => (Raise (new_AttrsEmpty (inst_class (objects w self)) "update"), w)
    | Some flt =>
        let c1 := CallUpdateOne flt (set_update actions) (arg_default false upsert) in
        match update_one collection (calls w) flt (set_update actions)
                (arg_default false upsert) with
        | Raise e => (Raise e, after_call w c1)
        | Ok res =>
            if negb (N.eqb (modified_count res) 0) && arg_default true reload then
              match get collection (inst_class (objects w self)) None flt
                      (after_call w c1) with
              | (Ok new_data, w2) =>
                  (Ok res,
                   mkWorld (fun r => if Nat.eqb r self
                                     then _deserialize (objects w2 self)
                                            (attribute_values new_data)
                                     else objects w2 r)
                           (calls w2))
              | (Raise e, w2) => (Raise e, w2)
              end
            else (Ok res, after_call w c1)
        end
    end.
Proof.
  unfold update, identity_filter, bind, read_object, run, call_update_one, store,
    raise, after_call, ret, write_object.
  destruct (truthy (_id (objects w self))) eqn:Hid.
  - simpl. destruct (update_one collection (calls w) _ _ _) as [res|e];
      [|reflexivity].
    destruct (negb (N.eqb (modified_count res) 0) && arg_default true reload);
      [|reflexivity].
    simpl. rewrite Hid.
    destruct (get collection _ None _ _) as [[nd|e] w2]; reflexivity.
  - destruct (dict_nonempty (attributes (objects w self))) eqn:Hattrs;
      [|reflexivity].
    simpl. destruct (update_one collection (calls w) _ _ _) as [res|e];
      [|reflexivity].
    destruct (negb (N.eqb (modified_count res) 0) && arg_default true reload);
      [|reflexivity].
    simpl. rewrite Hid.
    destruct (get collection _ None _ _) as [[nd|e] w2]; reflexivity.
Qed.

(** The synchronous methods that are written as the asynchronous ones driven to
    completion, or as a copy of them. *)
Lemma sync_is_async_run :
  (forall cls atg kwargs, get collection cls atg kwargs
                          = run (async_get collection cls atg kwargs))
  /\ (forall cls c s o l atg h e, find collection cls c s o l atg h e
                                  = run (async_find collection cls c s o l atg h e))
  /\ (forall cls items atg, batch_get collection cls items atg
                            = run (async_batch_get collection cls items atg))
  /\ (forall self, save collection self = run (async_save collection self))
  /\ (forall self, delete collection self = run (async_delete collection self))
  /\ (forall self actions reload upsert,
         update collection self actions reload upsert
         = run (async_update collection self actions reload upsert))
  /\ (forall self actions, inc collection self actions
                           = run (async_inc collection self actions))
  /\ (forall filters, count collection filters = run (async_count collection filters)).
Proof.
  repeat split.
Qed.

(** C6, the failing input: [query(attributes_to_get=["title"], title=...)]
    hands the names to [async_query] as its first positional parameter, which
    is [sort]; the cursor of the synchronous form is sorted by them and not
    projected, the cursor of the asynchronous form is projected on them and
    not sorted. *)
Theorem C6_query_diverges (cls : model_class) (w : World) :
  let kwargs := [("title", VStr "Casablanca")] in
  calls (snd (query collection cls (Some ["title"]) kwargs w))
  = calls w ++ [CallFind (mkCursor kwargs None (Some (VList [VStr "title"]))
                            None None None)]
  /\ calls (snd (run (async_query collection cls VNone (Some ["title"]) kwargs) w))
     = calls w ++ [CallFind (mkCursor kwargs (Some [("title", VInt 1)]) None
                               None None None)]
  /\ query collection cls (Some ["title"]) kwargs
     = run (async_query collection cls (VList [VStr "title"]) None kwargs).
Proof.
  intros kwargs. repeat split.
  - unfold query, run, async_query, async_find, bind, store, lift_result, ret.
    simpl.
    destruct (find_docs collection (calls w) _) as [raw|e]; [|reflexivity].
    simpl. destruct (map_result _ raw); reflexivity.
  - unfold run, async_query, async_find, bind, store, lift_result, ret. simpl.
    destruct (find_docs collection (calls w) _) as [raw|e]; [|reflexivity].
    simpl. destruct (map_result _ raw); reflexivity.
Qed.

(** [inc] on an instance resolves its filter and raises
    [AttributesEmptyException] as [update] does, and sends the delta under
    [$inc]; its update is never an upsert. The [inc] of a batch writer takes an
    upsert flag, false when omitted. *)
Lemma inc_contract (K : constants) (self : nat) (delta : dict)
    (w : World) :
  distinct_codes K ->
  inc collection self delta w = increment_spec collection self delta false w
  /\ async_inc collection self delta = inc collection self delta
  /\ (identity_filter (objects w self) = None ->
      inc collection self delta w
      = (Raise (new_AttrsEmpty (inst_class (objects w self)) "inc"), w)
      /\ forall reload upsert,
           update collection self delta reload upsert w
           = (Raise (new_AttrsEmpty (inst_class (objects w self)) "update"), w))
  /\ (forall flt, identity_filter (objects w self) = Some flt ->
      calls (snd (inc collection self delta w))
      = calls w ++ [CallUpdateOne flt [("$inc", VDict delta)] false]
      /\ forall upsert, exists rest,
           calls (snd (update collection self delta (Some false) upsert w))
           = calls w ++ CallUpdateOne flt [("$set", VDict delta)] (arg_default false upsert)
                        :: rest)
  /\ (forall (b : BatchWrite.t) data upsert,
      BatchWrite.at_limit b = false ->
      BatchWrite.inc K collection self data upsert (b, w)
      = (Ok tt,
         (BatchWrite.with_pending b
            (BatchWrite.pending_operations b
               ++ [BatchWrite.mkOperation (INC K) self (Some data)
                     (Some (arg_default false upsert))]), w))
      /\ BatchWrite.item_requests K (objects w)
           (BatchWrite.mkOperation (INC K) self (Some data)
              (Some (arg_default false upsert)))
         = Ok [UpdateOne (BatchWrite.item_filter (objects w self))
                 [("$inc", VDict data)] (arg_default false upsert)]).
Proof.
  intros HK. repeat split.
  - rewrite inc_resolves. unfold increment_spec, bind, read_object. simpl.
    destruct (identity_filter (objects w self)); reflexivity.
  - rewrite inc_resolves. now rewrite H.
  - intros reload upsert. rewrite update_resolves. now rewrite H.
  - rewrite inc_resolves, H. reflexivity.
  - intros upsert. rewrite update_resolves, H. simpl.
    destruct (update_one collection (calls w) flt _ _) as [res|e];
      [|now exists []].
    rewrite andb_false_r. now exists [].
  - unfold BatchWrite.inc, bind, BatchWrite.get_self, ret. simpl.
    rewrite H. reflexivity.
  - exact (item_requests_staged K (objects w)
             (BatchWrite.StageInc self data upsert) HK).
Qed.

End ModelProperties.

(** On a store that honours projections the two forms of [query] return
    different instances. *)
Example query_results_differ :
  years (fst (query projecting_store MovieModel (Some ["title"])
                [("title", VStr "Casablanca")] example_world))
  = [VInt 1943]
  /\ years (fst (run (async_query projecting_store MovieModel VNone (Some ["title"])
                        [("title", VStr "Casablanca")]) example_world))
     = [VNone].
Proof. split; reflexivity. Qed.

(** C7, the failing input: [inc({"year": 1}, upsert=True)] on a movie built
    from keywords. [inc] has no [upsert] parameter: the call raises
    [TypeError] and the store is not called, and without the keyword the
    increment is sent with [upsert=False]. The specified increment sends it
    with [True], as [update] and the [inc] of a batch writer do with their
    upsert flag. *)
Theorem C7_inc_without_upsert :
  let delta := [("year", VInt 1)] in
  let flt := [("movie_id", VStr "m1")] in
  inc_call accepting_store 1 delta (Some true) example_world
  = (Raise (Exn ETypeError
              (VStr "inc() got an unexpected keyword argument 'upsert'")),
     example_world)
  /\ calls (snd (inc_call accepting_store 1 delta None example_world))
     = [CallUpdateOne flt [("$inc", VDict delta)] false]
  /\ calls (snd (increment_spec accepting_store 1 delta true example_world))
     = [CallUpdateOne flt [("$inc", VDict delta)] true]
  /\ calls (snd (update accepting_store 1 delta None (Some true) example_world))
     = [CallUpdateOne flt [("$set", VDict delta)] true]
  /\ BatchWrite.commit example_constants accepting_store
       (snd (BatchWrite.inc example_constants accepting_store 1 delta (Some true)
               (BatchWrite.init example_constants MovieModel None, example_world)))
     = (Ok tt,
        (BatchWrite.init example_constants MovieModel None,
         mkWorld example_objects
           [CallBulkWrite [UpdateOne flt [("$inc", VDict delta)] true] false])).
Proof.
  repeat split.
Qed.

(** C2, the failing input: a delete, an update and an increment staged for a
    movie without object id and without raw attributes. The methods of the
    instance raise [AttributesEmptyException] and call nothing; [commit] sends
    the three requests with the empty filter and returns. *)
Theorem C2_batch_commit_without_identity :
  identity_filter (example_objects 2) = None
  /\ delete accepting_store 2 example_world
     = (Raise (new_AttrsEmpty MovieModel "delete"), example_world)
  /\ update accepting_store 2 [("year", VInt 1943)] None None example_world
     = (Raise (new_AttrsEmpty MovieModel "update"), example_world)
  /\ inc accepting_store 2 [("year", VInt 1)] example_world
     = (Raise (new_AttrsEmpty MovieModel "inc"), example_world)
  /\ BatchWrite.commit example_constants accepting_store
       (writer_of [BatchWrite.StageDelete 2;
                   BatchWrite.StageUpdate 2 [("year", VInt 1943)] None;
                   BatchWrite.StageInc 2 [("year", VInt 1)] None],
        example_world)
     = (Ok tt,
        (writer_of [],
         mkWorld example_objects
           [CallBulkWrite
              [DeleteOne [];
               UpdateOne [] (set_update [("year", VInt 1943)]) false;
               UpdateOne [] (inc_update [("year", VInt 1)]) false]
              false])).
Proof.
  repeat split.
Qed.

(** Where an identity is available, the batch resolves it as the methods of the
    instance do. *)
Lemma item_filter_resolves (me : instance) (flt : dict) :
  identity_filter me = Some flt -> BatchWrite.item_filter me = flt.
Proof.
  unfold identity_filter, BatchWrite.item_filter, mongo_obj_id.
  destruct (truthy (_id me)); [congruence|].
  destruct (dict_nonempty (attributes me)); congruence.
Qed.

(** ** Insertion-ordered dictionaries *)

Section Assoc.

Context {B : Type}.

Lemma assoc_get_set (n k : string) (v : B) (d : list (string * B)) :
  assoc_get n (assoc_set k v d)
  = if String.eqb n k then Some v else assoc_get n d.
Proof.
  induction d as [|[k' v'] d IH]; simpl.
  - destruct (String.eqb_spec n k); reflexivity.
  - destruct (String.eqb_spec k k') as [E|N]; simpl.
    + subst k'. destruct (String.eqb_spec n k); reflexivity.
    + rewrite IH. destruct (String.eqb_spec n k') as [E'|N']; [|reflexivity].
      subst k'. destruct (String.eqb_spec n k); [congruence|reflexivity].
Qed.

Lemma assoc_set_keys (x k : string) (v : B) (d : list (string * B)) :
  In x (map fst (assoc_set k v d)) <-> x = k \/ In x (map fst d).
Proof.
  induction d as [|[k' v'] d IH]; simpl.
  - intuition.
  - destruct (String.eqb_spec k k') as [E|N]; simpl.
    + subst k'. intuition.
    + rewrite IH. intuition.
Qed.

Lemma assoc_set_nodup (k : string) (v : B) (d : list (string * B)) :
  NoDup (map fst d) -> NoDup (map fst (assoc_set k v d)).
Proof.
  induction d as [|[k' v'] d IH]; simpl; intros Hd.
  - constructor; [intros []|constructor].
  - inversion Hd as [|? ? Hnotin Hd']; subst.
    destruct (String.eqb_spec k k') as [E|N]; simpl.
    + now constructor.
    + constructor; [|now apply IH].
      rewrite assoc_set_keys. intros [E|Hin]; congruence.
Qed.

Lemma assoc_set_in (k k' : string) (b v : B) (d : list (string * B)) :
  In (k, b) (assoc_set k' v d) -> (k = k' /\ b = v) \/ In (k, b) d.
Proof.
  induction d as [|[k'' v''] d IH]; simpl.
  - intros [E|[]]. left. now inversion E.
  - destruct (String.eqb_spec k' k'') as [E|N]; simpl.
    + subst k''. intros [E|Hin]; [left; now inversion E|right; now right].
    + intros [E|Hin]; [right; now left|].
      destruct (IH Hin) as [H|H]; [now left|right; now right].
Qed.

Lemma assoc_get_notin (n : string) (d : list (string * B)) :
  ~ In n (map fst d) -> assoc_get n d = None.
Proof.
  induction d as [|[k v] d IH]; simpl; intros Hn; [reflexivity|].
  destruct (String.eqb_spec n k) as [E|N]; [exfalso; apply Hn; now left|].
  apply IH. intros Hin. apply Hn. now right.
Qed.

Lemma assoc_get_some_in (n : string) (b : B) (d : list (string * B)) :
  assoc_get n d = Some b -> In (n, b) d.
Proof.
  induction d as [|[k v] d IH]; simpl; [discriminate|].
  destruct (String.eqb_spec n k) as [E|N].
  - intros H. inversion H. subst. now left.
  - intros H. right. now apply IH.
Qed.

End Assoc.

(** A loop that, at each element, assigns one key or leaves the dictionary
    alone. *)
Section FoldSet.

Context {B E : Type}.
Variable f : string * E -> option B.
Variable step : list (string * B) -> string * E -> list (string * B).
Hypothesis step_spec :
  forall acc p,
    step acc p = match f p with
                 | Some v => assoc_set (fst p) v acc
                 | None => acc
                 end.

Lemma fold_set_get (n : string) (l : list (string * E)) (acc : list (string * B)) :
  NoDup (map fst l) ->
  assoc_get n (fold_left step l acc)
  = match assoc_get n l with
    | Some e => match f (n, e) with
                | Some v => Some v
                | None => assoc_get n acc
                end
    | None => assoc_get n acc
    end.
Proof.
  revert acc. induction l as [|[k e] l IH]; intros acc Hnd; [reflexivity|].
  simpl in Hnd. inversion Hnd as [|? ? Hnotin Hnd']; subst.
  simpl. rewrite (IH _ Hnd'). rewrite step_spec. simpl.
  destruct (String.eqb_spec n k) as [Enk|Nnk].
  - subst k. rewrite (assoc_get_notin n l Hnotin).
    destruct (f (n, e)) as [v|]; [|reflexivity].
    rewrite assoc_get_set. now rewrite String.eqb_refl.
  - assert (Hacc : assoc_get n match f (k, e) with
                               | Some v => assoc_set k v acc
                               | None => acc
                               end = assoc_get n acc).
    { destruct (f (k, e)) as [v|]; [|reflexivity].
      rewrite assoc_get_set.
      destruct (String.eqb_spec n k); [congruence|reflexivity]. }
    rewrite Hacc. reflexivity.
Qed.

Lemma fold_set_nodup (l : list (string * E)) (acc : list (string * B)) :
  NoDup (map fst acc) -> NoDup (map fst (fold_left step l acc)).
Proof.
  revert acc. induction l as [|p l IH]; intros acc Hnd; [exact Hnd|].
  simpl. apply IH. rewrite step_spec.
  destruct (f p); [now apply assoc_set_nodup|exact Hnd].
Qed.

Lemma fold_set_forall (P : string -> B -> Prop) (l : list (string * E))
    (acc : list (string * B)) :
  (forall k b, In (k, b) acc -> P k b) ->
  (forall p v, In p l -> f p = Some v -> P (fst p) v) ->
  forall k b, In (k, b) (fold_left step l acc) -> P k b.
Proof.
  revert acc. induction l as [|p l IH]; intros acc Hacc Hl k b Hin.
  - now apply Hacc.
  - simpl in Hin. apply (IH (step acc p)); [| |exact Hin].
    + intros k' b' Hin'. rewrite step_spec in Hin'.
      destruct (f p) as [v|] eqn:Hf; [|now apply Hacc].
      destruct (assoc_set_in _ _ _ _ _ Hin') as [[Ek Eb]|Hold].
      * subst. apply Hl; [now left|exact Hf].
      * now apply Hacc.
    + intros p' v' Hin' Hf. apply Hl; [now right|exact Hf].
Qed.

End FoldSet.

Lemma nodup_keys_NoDup (l : list string) : nodup_keys l = true -> NoDup l.
Proof.
  induction l as [|k l IH]; simpl; intros H; [constructor|].
  apply andb_true_iff in H. destruct H as [Hk Hl].
  constructor; [|now apply IH].
  intros Hin. apply negb_true_iff in Hk.
  assert (Hex : existsb (String.eqb k) l = true).
  { apply existsb_exists. exists k. split; [exact Hin|apply String.eqb_refl]. }
  congruence.
Qed.

Lemma is_none_true (v : pyval) : is_none v = true -> v = VNone.
Proof. destruct v; simpl; congruence. Qed.

(** ** The registry of a class and the values of an instance *)

(** Every class made by the metaclass has a registry without repeated names,
    in which each attribute carries the name it is registered under. *)
Lemma registry_well_formed (ns : namespace) :
  NoDup (map fst (_initialize_attributes ns))
  /\ forall n a, In (n, a) (_initialize_attributes ns) -> attr_name a = Some n.
Proof.
  unfold _initialize_attributes. split.
  - apply (fold_set_nodup (fun p => Some (set_attr_name (fst p) (snd p)))).
    + reflexivity.
    + constructor.
  - apply (fold_set_forall (fun p => Some (set_attr_name (fst p) (snd p)))
             _ (fun acc p => eq_refl) (fun n a => attr_name a = Some n)).
    + intros k b [].
    + intros p v _ Hv. inversion Hv. reflexivity.
Qed.

Lemma set_defaults_get (r : list (string * attribute)) (vals : dict) (n : string) :
  NoDup (map fst r) ->
  dict_get n (_set_defaults r vals)
  = match registry_get n r with
    | Some a =>
        if is_none (eval_default (default a)) then dict_get n vals
        else Some (eval_default (default a))
    | None => dict_get n vals
    end.
Proof.
  intros Hnd. unfold dict_get, registry_get, _set_defaults.
  rewrite (fold_set_get
             (fun p => let v := eval_default (default (snd p)) in
                       if is_none v then None else Some v)); [| |exact Hnd].
  - destruct (assoc_get n r) as [a|]; [|reflexivity]. simpl.
    destruct (is_none (eval_default (default a))); reflexivity.
  - intros acc p. simpl. destruct (is_none (eval_default (default (snd p))));
      reflexivity.
Qed.

Lemma set_attributes_ok (r : list (string * attribute)) (attrs vals : dict) :
  (forall k, In k (map fst attrs) -> registry_get k r <> None) ->
  _set_attributes r attrs vals
  = Ok (fold_left (fun vals p => setattr (fst p) (snd p) vals) attrs vals).
Proof.
  revert vals. induction attrs as [|[k v] attrs IH]; intros vals Hreg;
    [reflexivity|].
  simpl. destruct (registry_get k r) eqn:Hk.
  - apply IH. intros k' Hin. apply Hreg. now right.
  - exfalso. apply (Hreg k); [now left|exact Hk].
Qed.

Lemma raw_attributes_step (cls : model_class) (acc : dict) (p : string * pyval) :
  raw_turn cls acc p
  = match raw_step cls p with
    | Some v => assoc_set (fst p) v acc
    | None => acc
    end.
Proof.
  unfold raw_turn, raw_step.
  destruct (registry_get (fst p) (get_attributes cls)); reflexivity.
Qed.

Lemma raw_attributes_fold (cls : model_class) (data : dict) :
  raw_attributes cls data = fold_left (raw_turn cls) data [].
Proof. reflexivity. Qed.

Lemma raw_attributes_get (cls : model_class) (data : dict) (n : string) :
  NoDup (map fst data) ->
  dict_get n (raw_attributes cls data)
  = match dict_get n data, registry_get n (get_attributes cls) with
    | Some v, Some a => Some (deserialize (kind a) v)
    | _, _ => None
    end.
Proof.
  intros Hnd. rewrite raw_attributes_fold. unfold dict_get.
  etransitivity;
    [exact (fold_set_get (raw_step cls) (raw_turn cls) (raw_attributes_step cls)
              n data [] Hnd)|].
  unfold raw_step. simpl.
  destruct (assoc_get n data); [|reflexivity].
  destruct (registry_get n (get_attributes cls)); reflexivity.
Qed.

Lemma raw_attributes_registered (cls : model_class) (data : dict) (k : string) :
  In k (map fst (raw_attributes cls data)) ->
  registry_get k (get_attributes cls) <> None.
Proof.
  intros Hin. apply in_map_iff in Hin. destruct Hin as [[k' v] [Ek Hin]].
  simpl in Ek. subst k'.
  revert k v Hin. rewrite raw_attributes_fold.
  apply (fold_set_forall (raw_step cls) (raw_turn cls) (raw_attributes_step cls)
           (fun k _ => registry_get k (get_attributes cls) <> None)).
  - intros k b [].
  - intros p v _ Hv. unfold raw_step in Hv.
    destruct (registry_get (fst p) (get_attributes cls)); [discriminate|discriminate].
Qed.

Lemma raw_attributes_nodup (cls : model_class) (data : dict) :
  NoDup (map fst (raw_attributes cls data)).
Proof.
  rewrite raw_attributes_fold.
  apply (fold_set_nodup (raw_step cls) (raw_turn cls) (raw_attributes_step cls)).
  constructor.
Qed.

(** The instance [from_raw_data] builds: under each registered name, the
    deserialized value of the document, or the default of the attribute. *)
Lemma from_raw_data_values (cls : model_class) (data : dict) :
  NoDup (map fst (get_attributes cls)) ->
  NoDup (map fst data) ->
  exists fresh,
    from_raw_data cls (Some data) = Ok fresh
    /\ inst_class fresh = cls
    /\ forall n a,
         registry_get n (get_attributes cls) = Some a ->
         dict_get_none n (attribute_values fresh)
         = match dict_get n data with
           | Some v => deserialize (kind a) v
           | None => eval_default (default a)
           end.
Proof.
  intros Hreg Hdata.
  unfold from_raw_data, MongoDBModel_init, AttributeContainer_init. simpl.
  rewrite set_attributes_ok by apply raw_attributes_registered.
  eexists. split; [reflexivity|]. split; [reflexivity|].
  intros n a Ha. simpl. unfold dict_get_none, dict_get.
  assert (E : assoc_get n
                (fold_left (fun vals p => setattr (fst p) (snd p) vals)
                   (raw_attributes cls data)
                   (_set_defaults (get_attributes cls) []))
              = match assoc_get n (raw_attributes cls data) with
                | Some e => Some e
                | None => assoc_get n (_set_defaults (get_attributes cls) [])
                end).
  { exact (fold_set_get (fun p : string * pyval => Some (snd p))
             (fun vals p => setattr (fst p) (snd p) vals)
             (fun acc p => eq_refl) n (raw_attributes cls data)
             (_set_defaults (get_attributes cls) [])
             (raw_attributes_nodup cls data)). }
  rewrite E.
  pose proof (raw_attributes_get cls data n Hdata) as Hraw.
  pose proof (set_defaults_get (get_attributes cls) [] n Hreg) as Hdef.
  unfold dict_get in Hraw, Hdef. rewrite Hraw, Hdef, Ha.
  destruct (assoc_get n data) as [v|]; [reflexivity|].
  simpl. destruct (is_none (eval_default (default a))) eqn:Hn; [|reflexivity].
  symmetry. now apply is_none_true.
Qed.

(** [_deserialize] assigns every registered name. *)
Lemma deserialize_field (me : instance) (attrs : dict) (n : string) (a : attribute) :
  NoDup (map fst (get_attributes (inst_class me))) ->
  registry_get n (get_attributes (inst_class me)) = Some a ->
  attr_name a = Some n ->
  dict_get n (attribute_values (_deserialize me attrs))
  = Some (if is_none (dict_get_none n attrs) then VNone
          else deserialize (kind a) (dict_get_none n attrs)).
Proof.
  intros Hnd Ha Hname. unfold _deserialize. simpl. unfold dict_get.
  etransitivity.
  - exact (fold_set_get
             (fun p : string * attribute =>
                Some (let value := match attr_name (snd p) with
                                   | Some n => dict_get_none n attrs
                                   | None => VNone
                                   end in
                      if is_none value then value
                      else deserialize (kind (snd p)) value))
             _ (fun acc p => eq_refl) n (get_attributes (inst_class me))
             (attribute_values me) Hnd).
  - unfold registry_get in Ha. rewrite Ha. simpl. rewrite Hname.
    destruct (is_none (dict_get_none n attrs)) eqn:Hn; [|reflexivity].
    now rewrite (is_none_true _ Hn).
Qed.

(** A reload from a fetched document, field by field. *)
Lemma reload_field (id : nat) (d : class_decl) (me : instance) (data : dict)
    (n : string) (a : attribute) :
  inst_class me = MetaModel_init id d ->
  NoDup (map fst data) ->
  registry_get n (get_attributes (MetaModel_init id d)) = Some a ->
  exists fresh,
    from_raw_data (MetaModel_init id d) (Some data) = Ok fresh
    /\ getattr n (_deserialize me (attribute_values fresh))
       = reloaded_value a (dict_get n data).
Proof.
  intros Hcls Hdata Ha.
  destruct (registry_well_formed (resolve_members d)) as [Hnd Hnames].
  destruct (from_raw_data_values (MetaModel_init id d) data Hnd Hdata)
    as (fresh & Hfresh & _ & Hvals).
  exists fresh. split; [exact Hfresh|].
  assert (Hname : attr_name a = Some n).
  { apply Hnames. now apply assoc_get_some_in. }
  unfold getattr, dict_get_none at 1.
  rewrite (deserialize_field me (attribute_values fresh) n a);
    [| rewrite Hcls; exact Hnd | rewrite Hcls; exact Ha | exact Hname].
  rewrite (Hvals n a Ha). unfold reloaded_value.
  destruct (dict_get n data) as [v|]; reflexivity.
Qed.

Lemma from_raw_data_ok (cls : model_class) (data : dict) :
  exists fresh, from_raw_data cls (Some data) = Ok fresh.
Proof.
  unfold from_raw_data, MongoDBModel_init, AttributeContainer_init. simpl.
  rewrite set_attributes_ok by apply raw_attributes_registered.
  eexists. reflexivity.
Qed.

Lemma deserialize_idempotent (k : attr_kind) (v : pyval) :
  deserialize k (deserialize k v) = deserialize k v.
Proof. destruct k; reflexivity. Qed.

Lemma deserialize_not_none (k : attr_kind) (v : pyval) :
  is_none v = false -> is_none (deserialize k v) = false.
Proof. destruct k; simpl; auto. Qed.

(** ** [update] and its reload *)

Section UpdateProperties.

Variable collection : Collection.

(** The successful reload: what [update] returns and the world it leaves. *)
Lemma update_reloads (self : nat) (delta : dict) (reload upsert : option bool)
    (w : World) (flt : dict) (res : UpdateResult) (p : string * pyval)
    (data : dict) :
  identity_filter (objects w self) = Some flt ->
  update_one collection (calls w) flt (set_update delta) (arg_default false upsert)
  = Ok res ->
  N.eqb (modified_count res) 0 = false ->
  arg_default true reload = true ->
  find_one collection
    (calls w ++ [CallUpdateOne flt (set_update delta) (arg_default false upsert)])
    flt None = Ok (Some (p :: data)) ->
  exists fresh,
    from_raw_data (inst_class (objects w self)) (Some (p :: data)) = Ok fresh
    /\ update collection self delta reload upsert w
       = (Ok res,
          mkWorld (fun r => if Nat.eqb r self
                            then _deserialize (objects w self) (attribute_values fresh)
                            else objects w r)
                  (calls w ++ [CallUpdateOne flt (set_update delta)
                                 (arg_default false upsert)]
                           ++ [CallFindOne flt None])).
Proof.
  intros Hid Hup Hmod Hrel Hfind.
  destruct (from_raw_data_ok (inst_class (objects w self)) (p :: data))
    as [fresh Hfresh].
  exists fresh. split; [exact Hfresh|].
  rewrite update_resolves, Hid. simpl. rewrite Hup, Hmod, Hrel. simpl.
  rewrite (get_found collection _ None flt
             (after_call w (CallUpdateOne flt (set_update delta)
                              (arg_default false upsert)))
             (Some (p :: data)) Hfind eq_refl).
  rewrite Hfresh. simpl. rewrite <- app_assoc. reflexivity.
Qed.

(** The cases of [update]: the reply to the update, the reload, the fetch. *)
Lemma update_reload_cases (id : nat) (d : class_decl) (self : nat) (delta : dict)
    (reload upsert : option bool) (w : World) (flt : dict) :
  inst_class (objects w self) = MetaModel_init id d ->
  identity_filter (objects w self) = Some flt ->
  let cls := MetaModel_init id d in
  let set_call := CallUpdateOne flt (set_update delta) (arg_default false upsert) in
  let fetch_call := CallFindOne flt None in
  let outcome := update collection self delta reload upsert w in
  match update_one collection (calls w) flt (set_update delta)
          (arg_default false upsert) with
  | Raise e => outcome = (Raise e, after_call w set_call)
  | Ok res =>
      if negb (N.eqb (modified_count res) 0) && arg_default true reload then
        match find_one collection (calls w ++ [set_call]) flt None with
        | Raise e =>
            outcome = (Raise e, after_call (after_call w set_call) fetch_call)
        | Ok None =>
            outcome = (Raise (new_DoesNotExist cls),
                       after_call (after_call w set_call) fetch_call)
        | Ok (Some []) =>
            outcome = (Raise (new_DoesNotExist cls),
                       after_call (after_call w set_call) fetch_call)
        | Ok (Some (p :: data)) =>
            fst outcome = Ok res
            /\ calls (snd outcome) = calls w ++ [set_call; fetch_call]
            /\ (forall r, r <> self -> objects (snd outcome) r = objects w r)
            /\ (NoDup (map fst (p :: data)) ->
                forall n a,
                  registry_get n (get_attributes cls) = Some a ->
                  getattr n (objects (snd outcome) self)
                  = reloaded_value a (dict_get n (p :: data)))
        end
      else outcome = (Ok res, after_call w set_call)
  end.
Proof.
  intros Hcls Hid cls set_call fetch_call outcome.
  destruct (update_one collection (calls w) flt (set_update delta)
              (arg_default false upsert)) as [res|e] eqn:Hup.
  - destruct (negb (N.eqb (modified_count res) 0) && arg_default true reload)
      eqn:Hcond.
    + destruct (find_one collection (calls w ++ [set_call]) flt None)
        as [[[|p data]|]|e] eqn:Hfind.
      * unfold outcome. rewrite update_resolves, Hid. simpl.
        rewrite Hup, Hcond.
        rewrite (get_not_found collection _ None flt (after_call w set_call)
                   (Some []) Hfind eq_refl).
        rewrite Hcls. reflexivity.
      * apply andb_true_iff in Hcond. destruct Hcond as [Hmod Hrel].
        apply negb_true_iff in Hmod.
        destruct (update_reloads self delta reload upsert w flt res p data
                    Hid Hup Hmod Hrel Hfind) as (fresh & Hfresh & E).
        unfold outcome. rewrite E. simpl.
        split; [reflexivity|]. split; [reflexivity|]. split.
        -- intros r Hr. apply Nat.eqb_neq in Hr. now rewrite Hr.
        -- intros Hnd n a Ha. rewrite Nat.eqb_refl.
           destruct (reload_field id d (objects w self) (p :: data) n a
                       Hcls Hnd Ha) as (fresh' & Hfresh' & Hval).
           rewrite Hcls in Hfresh. rewrite Hfresh in Hfresh'.
           inversion Hfresh'. subst fresh'. exact Hval.
      * unfold outcome. rewrite update_resolves, Hid. simpl.
        rewrite Hup, Hcond.
        rewrite (get_not_found collection _ None flt (after_call w set_call)
                   None Hfind eq_refl).
        rewrite Hcls. reflexivity.
      * unfold outcome. rewrite update_resolves, Hid. simpl.
        rewrite Hup, Hcond. unfold get, run, bind, store. simpl.
        unfold set_call in Hfind. rewrite Hfind. reflexivity.
    + unfold outcome. rewrite update_resolves, Hid. simpl.
      rewrite Hup, Hcond. reflexivity.
  - unfold outcome. rewrite update_resolves, Hid. simpl. rewrite Hup.
    reflexivity.
Qed.

(** C5: [update] sends the delta as a [$set] through the identity-resolved
    filter; exactly when the store reports a modified document and [reload] is
    true it fetches one document through the same filter; the values of all
    the registered fields are then overwritten from the fetched document, and
    when no document is fetched the [DoesNotExist] of the model is raised to
    the caller. *)
Theorem C5_update_reload (id : nat) (d : class_decl) (self : nat) (delta : dict)
    (reload upsert : option bool) (w : World) (flt : dict) :
  inst_class (objects w self) = MetaModel_init id d ->
  identity_filter (objects w self) = Some flt ->
  let cls := MetaModel_init id d in
  let set_call := CallUpdateOne flt [("$set", VDict delta)] (arg_default false upsert) in
  let fetch_call := CallFindOne flt None in
  let outcome := update collection self delta reload upsert w in
  match update_one collection (calls w) flt [("$set", VDict delta)]
          (arg_default false upsert) with
  | Raise e => outcome = (Raise e, after_call w set_call)
  | Ok res =>
      if negb (N.eqb (modified_count res) 0) && arg_default true reload then
        match find_one collection (calls w ++ [set_call]) flt None with
        | Raise e =>
            outcome = (Raise e, after_call (after_call w set_call) fetch_call)
        | Ok None =>
            outcome = (Raise (new_DoesNotExist cls),
                       after_call (after_call w set_call) fetch_call)
        | Ok (Some []) =>
            outcome = (Raise (new_DoesNotExist cls),
                       after_call (after_call w set_call) fetch_call)
        | Ok (Some (p :: data)) =>
            fst outcome = Ok res
            /\ calls (snd outcome) = calls w ++ [set_call; fetch_call]
            /\ (forall r, r <> self -> objects (snd outcome) r = objects w r)
            /\ (NoDup (map fst (p :: data)) ->
                forall n a,
                  registry_get n (get_attributes cls) = Some a ->
                  getattr n (objects (snd outcome) self)
                  = reloaded_value a (dict_get n (p :: data)))
        end
      else outcome = (Ok res, after_call w set_call)
  end.
Proof.
  exact (update_reload_cases id d self delta reload upsert w flt).
Qed.

(** C10 (amended): after the reload of [update], each registered field, named
    in the delta or not, holds the deserialized value of the fetched document
    when the document has a value other than null for it; the default of the
    field, deserialized, when the field is absent from the document, so
    [None] only for a field without default; and [None] when the document has
    null for a field that is not a [BooleanAttribute]. *)
Theorem C10_reload_fields_amended (id : nat) (d : class_decl) (self : nat)
    (delta : dict) (reload upsert : option bool) (w : World) (flt : dict)
    (res : UpdateResult) (p : string * pyval) (data : dict) :
  inst_class (objects w self) = MetaModel_init id d ->
  identity_filter (objects w self) = Some flt ->
  update_one collection (calls w) flt (set_update delta) (arg_default false upsert)
  = Ok res ->
  N.eqb (modified_count res) 0 = false ->
  arg_default true reload = true ->
  find_one collection
    (calls w ++ [CallUpdateOne flt (set_update delta) (arg_default false upsert)])
    flt None = Ok (Some (p :: data)) ->
  nodup_keys (map fst (p :: data)) = true ->
  forall n a,
    registry_get n (get_attributes (MetaModel_init id d)) = Some a ->
    let after :=
      getattr n (objects (snd (update collection self delta reload upsert w)) self) in
    match dict_get n (p :: data) with
    | Some VNone => kind a <> BooleanAttribute -> after = VNone
    | Some v => after = deserialize (kind a) v
    | None =>
        after = if is_none (eval_default (default a)) then VNone
                else deserialize (kind a) (eval_default (default a))
    end.
Proof.
  intros Hcls Hid Hup Hmod Hrel Hfind Hnd n a Ha after.
  apply nodup_keys_NoDup in Hnd.
  destruct (update_reloads self delta reload upsert w flt res p data
              Hid Hup Hmod Hrel Hfind) as (fresh & Hfresh & E).
  destruct (reload_field id d (objects w self) (p :: data) n a Hcls Hnd Ha)
    as (fresh' & Hfresh' & Hval).
  rewrite Hcls in Hfresh. rewrite Hfresh in Hfresh'. inversion Hfresh'.
  subst fresh'. clear Hfresh'.
  assert (Hafter : after = reloaded_value a (dict_get n (p :: data))).
  { unfold after. rewrite E. simpl. rewrite Nat.eqb_refl. exact Hval. }
  rewrite Hafter. unfold reloaded_value.
  destruct (dict_get n (p :: data)) as [v|]; [|reflexivity].
  assert (Hv : is_none v = false ->
               (if is_none (deserialize (kind a) v) then VNone
                else deserialize (kind a) (deserialize (kind a) v))
               = deserialize (kind a) v).
  { intros Hn. rewrite (deserialize_not_none (kind a) v Hn).
    apply deserialize_idempotent. }
  destruct v; try (apply Hv; reflexivity).
  intros Hk. destruct (kind a); try reflexivity. congruence.
Qed.

End UpdateProperties.

Lemma C5_update_reload_witness :
  calls (snd (update reload_store 0 [("title", VStr "X")] (Some true) None
                example_world))
  = [CallUpdateOne [("_id", oid1)] [("$set", VDict [("title", VStr "X")])] false;
     CallFindOne [("_id", oid1)] None].
Proof.
  exact (proj1 (proj2
    (C5_update_reload reload_store 1
       (mkClassDecl "MovieModel" (Some MongoDBModel) MovieModel_body)
       0%nat [("title", VStr "X")] (Some true) None example_world
       [("_id", oid1)] eq_refl eq_refl))).
Defined.

(** C10, as stated, fails: [title] is registered with the default ["CN"] and
    is absent from the fetched document, and after the reload the movie holds
    ["CN"] under [title], not [None]. *)
Lemma C10_reload_counterexample :
  dict_get "title" year_document = None
  /\ registry_get "title" (get_attributes MovieModel) <> None
  /\ find_one reload_store
       [CallUpdateOne [("_id", oid1)] (set_update [("year", VInt 1943)]) false]
       [("_id", oid1)] None = Ok (Some year_document)
  /\ getattr "title" (example_objects 0) = VStr "Old"
  /\ getattr "title"
       (objects (snd (update reload_store 0 [("year", VInt 1943)] None None
                        example_world)) 0)
     = VStr "CN"
  /\ VStr "CN" <> VNone.
Proof.
  repeat split; try discriminate.
Qed.

Lemma C10_reload_fields_amended_witness :
  getattr "title"
    (objects (snd (update reload_store 0 [("year", VInt 1943)] None None
                     example_world)) 0)
  = VStr "CN".
Proof.
  exact (C10_reload_fields_amended reload_store 1
           (mkClassDecl "MovieModel" (Some MongoDBModel) MovieModel_body)
           0%nat [("year", VInt 1943)] None None example_world
           [("_id", oid1)] (mkUpdateResult 1 1 VNone)
           ("_id", oid1) [("year", VInt 1943)]
           eq_refl eq_refl eq_refl eq_refl eq_refl eq_refl eq_refl
           "title"
           (set_attr_name "title"
              (new_attribute UnicodeAttribute false None
                 (Some (DValue (VStr "CN"))) None))
           eq_refl).
Defined.

(** * Further properties *)

(** ** Attribute classes *)

(** X1: [UnicodeAttribute.serialize] raises exactly on the values other than
    [None] that have no length, and what it raises is the [TypeError] of
    [len]; when it returns, the result is [None] or the value itself, which
    then is not empty: an empty string is never what is stored. *)
Theorem unicode_serialize_edges (v : pyval) :
  (forall e, serialize UnicodeAttribute v = Raise e ->
     exn_cls e = ETypeError
     /\ e = Exn ETypeError
              (VStr ("object of type '" ++ type_name v ++ "' has no len()")))
  /\ ((exists e, serialize UnicodeAttribute v = Raise e)
      <-> is_none v = false /\ py_len v = None)
  /\ (forall s, serialize UnicodeAttribute v = Ok s ->
        s = VNone \/ (s = v /\ exists n, py_len v = Some (S n))).
Proof.
  split; [|split].
  - intros e He. unfold serialize in He.
    destruct (is_none v); [discriminate|].
    destruct (py_len v) as [[|n]|]; [discriminate| |].
    + destruct (is_text_type v); discriminate.
    + inversion He. split; reflexivity.
  - split.
    + intros [e He]. unfold serialize in He.
      destruct (is_none v); [discriminate|].
      destruct (py_len v) as [[|n]|]; [discriminate| |auto].
      destruct (is_text_type v); discriminate.
    + intros [Hn Hl]. unfold serialize. rewrite Hn, Hl. eexists. reflexivity.
  - intros s Hs. unfold serialize in Hs.
    destruct (is_none v); [left; congruence|].
    destruct (py_len v) as [[|n]|] eqn:Hl; [left; congruence| |discriminate].
    right. split; [|now exists n].
    unfold six_u in Hs. destruct (is_text_type v); congruence.
Qed.

(** X2: what [serialize] returns is in stored form: serializing it again
    returns it unchanged, for every attribute class and every value. *)
Theorem serialize_idempotent (k : attr_kind) (v s : pyval) :
  serialize k v = Ok s -> serialize k s = Ok s.
Proof.
  intros Hs. destruct k; try (simpl in *; congruence).
  - unfold serialize in *.
    destruct (is_none v); [inversion Hs; reflexivity|].
    destruct (truthy v); inversion Hs; reflexivity.
  - unfold serialize in Hs.
    destruct (is_none v) eqn:Hn; [inversion Hs; reflexivity|].
    destruct (py_len v) as [[|n]|] eqn:Hl;
      [inversion Hs; reflexivity| |discriminate].
    assert (E : s = v) by (unfold six_u in Hs; destruct (is_text_type v); congruence).
    subst s. unfold serialize. rewrite Hn, Hl. exact Hs.
Qed.

Lemma serialize_idempotent_witness :
  serialize BooleanAttribute (VBool true) = Ok (VBool true).
Proof.
  apply (serialize_idempotent BooleanAttribute (VInt 7) (VBool true)).
  reflexivity.
Defined.

(** X3: [BooleanAttribute] sends any value other than [None] to the boolean of
    its truth value, through [serialize] and back through [deserialize]; and
    [deserialize] returns a boolean whatever it is given. *)
Theorem boolean_normalises (v : pyval) :
  (is_none v = false -> roundtrip BooleanAttribute v = Ok (VBool (truthy v)))
  /\ exists b, deserialize BooleanAttribute v = VBool b.
Proof.
  split.
  - intros Hn. unfold roundtrip, serialize. rewrite Hn.
    destruct (truthy v); reflexivity.
  - now exists (truthy v).
Qed.

(** ** Construction of instances *)

Lemma set_attributes_registered (r : list (string * attribute)) (attrs vals vals' : dict) :
  _set_attributes r attrs vals = Ok vals' ->
  forall k, In k (map fst attrs) -> registry_get k r <> None.
Proof.
  revert vals. induction attrs as [|[k v] attrs IH]; intros vals H k' Hin.
  - destruct Hin.
  - simpl in H. destruct (registry_get k r) eqn:Hk; [|discriminate].
    destruct Hin as [E|Hin].
    + simpl in E. subst k'. congruence.
    + exact (IH _ H k' Hin).
Qed.

Lemma set_attributes_raises (r : list (string * attribute)) (attrs vals : dict)
    (e : exn) :
  _set_attributes r attrs vals = Raise e ->
  exists pre k v post,
    attrs = pre ++ (k, v) :: post
    /\ (forall k', In k' (map fst pre) -> registry_get k' r <> None)
    /\ registry_get k r = None
    /\ e = value_error ("Attribute " ++ k ++ " specified does not exist").
Proof.
  revert vals. induction attrs as [|[k v] attrs IH]; intros vals H.
  - discriminate.
  - simpl in H. destruct (registry_get k r) eqn:Hk.
    + destruct (IH _ H) as (pre & k' & v' & post & E & Hpre & Hk' & He).
      exists ((k, v) :: pre), k', v', post. subst attrs.
      split; [reflexivity|]. split; [|split; assumption].
      intros k'' [E|Hin]; [simpl in E; subst; congruence|now apply Hpre].
    + exists [], k, v, attrs.
      split; [reflexivity|]. split; [intros k' []|]. split; [exact Hk|].
      inversion H. reflexivity.
Qed.

(** X4: the constructor accepts a keyword dictionary exactly when every name
    in it is registered; otherwise it raises the [ValueError] that names the
    first name that is not, and no instance is built. *)
Theorem constructor_unknown_attribute (cls : model_class) (attrs : dict) :
  ((exists i, AttributeContainer_init cls attrs = Ok i)
   <-> forall k, In k (map fst attrs) ->
                 registry_get k (get_attributes cls) <> None)
  /\ (forall e, AttributeContainer_init cls attrs = Raise e ->
        exists pre k v post,
          attrs = pre ++ (k, v) :: post
          /\ (forall k', In k' (map fst pre) ->
                         registry_get k' (get_attributes cls) <> None)
          /\ registry_get k (get_attributes cls) = None
          /\ e = value_error ("Attribute " ++ k ++ " specified does not exist")).
Proof.
  unfold AttributeContainer_init. split; [split|].
  - intros [i Hi].
    destruct (_set_attributes (get_attributes cls) attrs
                (_set_defaults (get_attributes cls) [])) as [vals|e] eqn:Hs;
      [|discriminate].
    exact (set_attributes_registered _ _ _ _ Hs).
  - intros Hreg. rewrite (set_attributes_ok _ _ _ Hreg). eexists. reflexivity.
  - intros e He.
    destruct (_set_attributes (get_attributes cls) attrs
                (_set_defaults (get_attributes cls) [])) as [vals|e'] eqn:Hs;
      [discriminate|].
    inversion He. subst e'. exact (set_attributes_raises _ _ _ _ Hs).
Qed.

Lemma constructed_values (cls : model_class) (attrs : dict) (i : instance) :
  NoDup (map fst (get_attributes cls)) ->
  NoDup (map fst attrs) ->
  AttributeContainer_init cls attrs = Ok i ->
  inst_class i = cls
  /\ attributes i = attrs
  /\ forall n,
       getattr n i
       = match dict_get n attrs with
         | Some v => v
         | None => match registry_get n (get_attributes cls) with
                   | Some a => eval_default (default a)
                   | None => VNone
                   end
         end.
Proof.
  intros Hreg Hattrs Hi. unfold AttributeContainer_init in Hi.
  destruct (_set_attributes (get_attributes cls) attrs
              (_set_defaults (get_attributes cls) [])) as [vals|e] eqn:Hs;
    [|discriminate].
  inversion Hi. subst i. clear Hi. simpl. split; [reflexivity|].
  split; [reflexivity|]. intros n.
  rewrite (set_attributes_ok _ _ _ (set_attributes_registered _ _ _ _ Hs)) in Hs.
  inversion Hs. subst vals. clear Hs.
  unfold getattr, dict_get_none, dict_get. simpl.
  assert (E : assoc_get n
                (fold_left (fun vals p => setattr (fst p) (snd p) vals) attrs
                   (_set_defaults (get_attributes cls) []))
              = match assoc_get n attrs with
                | Some e => Some e
                | None => assoc_get n (_set_defaults (get_attributes cls) [])
                end).
  { exact (fold_set_get (fun p : string * pyval => Some (snd p))
             (fun vals p => setattr (fst p) (snd p) vals)
             (fun acc p => eq_refl) n attrs
             (_set_defaults (get_attributes cls) []) Hattrs). }
  rewrite E. destruct (assoc_get n attrs) as [v|]; [reflexivity|].
  pose proof (set_defaults_get (get_attributes cls) [] n Hreg) as Hdef.
  unfold dict_get in Hdef. rewrite Hdef.
  destruct (registry_get n (get_attributes cls)) as [a|]; [|reflexivity].
  simpl. destruct (is_none (eval_default (default a))) eqn:Hn; [|reflexivity].
  symmetry. now apply is_none_true.
Qed.

(** X5: in an instance the constructor builds, a field given by keyword holds
    the value given, whatever its default and wherever it is declared; a field
    not given holds its default, and [None] when it has none. The keyword
    dictionary is kept as the raw attributes. *)
Theorem constructor_override_precedence (id : nat) (d : class_decl)
    (attrs : dict) (i : instance) :
  NoDup (map fst attrs) ->
  MongoDBModel_init (MetaModel_init id d) VNone attrs = Ok i ->
  attributes i = attrs
  /\ forall n,
       getattr n i
       = match dict_get n attrs with
         | Some v => v
         | None =>
             match registry_get n (get_attributes (MetaModel_init id d)) with
             | Some a => eval_default (default a)
             | None => VNone
             end
         end.
Proof.
  intros Hattrs Hi.
  destruct (registry_well_formed (resolve_members d)) as [Hnd _].
  destruct (constructed_values (MetaModel_init id d) attrs i Hnd Hattrs Hi)
    as (_ & Ha & Hv).
  split; assumption.
Qed.

Lemma constructor_override_precedence_witness :
  getattr "title" (construct MovieModel [("title", VStr "Casablanca")])
  = VStr "Casablanca".
Proof.
  assert (Hnd : NoDup (map fst [("title", VStr "Casablanca")])).
  { constructor; [intros []|constructor]. }
  exact (proj2 (constructor_override_precedence 1
                  (mkClassDecl "MovieModel" (Some MongoDBModel) MovieModel_body)
                  [("title", VStr "Casablanca")]
                  (construct MovieModel [("title", VStr "Casablanca")])
                  Hnd eq_refl) "title").
Defined.

(** X6: a hash key given as the first argument of the constructor is stored
    under the hash-key field of the class and prevails over a keyword for that
    field; in a class without hash key it is filed under [None], and the
    constructor fails with the [TypeError] of a keyword that is not a string. *)
Theorem constructor_hash_key (id : nat) (d : class_decl) (hash_key : pyval)
    (attrs : dict) :
  is_none hash_key = false ->
  NoDup (map fst attrs) ->
  match _hash_key (MetaModel_init id d) with
  | None =>
      MongoDBModel_init (MetaModel_init id d) hash_key attrs
      = Raise (Exn ETypeError (VStr "keywords must be strings"))
  | Some k =>
      forall i,
        MongoDBModel_init (MetaModel_init id d) hash_key attrs = Ok i ->
        getattr k i = hash_key
        /\ dict_get k (attributes i) = Some hash_key
        /\ forall n, n <> k -> dict_get n (attributes i) = dict_get n attrs
  end.
Proof.
  intros Hn Hattrs. unfold MongoDBModel_init. rewrite Hn.
  destruct (_hash_key (MetaModel_init id d)) as [k|]; [|reflexivity].
  intros i Hi.
  destruct (registry_well_formed (resolve_members d)) as [Hnd _].
  assert (Hset : NoDup (map fst (dict_set k hash_key attrs)))
    by now apply assoc_set_nodup.
  destruct (constructed_values (MetaModel_init id d) _ i Hnd Hset Hi)
    as (_ & Ha & Hv).
  rewrite Ha. unfold dict_get, dict_set in *. repeat split.
  - rewrite Hv, assoc_get_set, String.eqb_refl. reflexivity.
  - now rewrite assoc_get_set, String.eqb_refl.
  - intros n Hnk. rewrite assoc_get_set.
    destruct (String.eqb_spec n k); [congruence|reflexivity].
Qed.

Lemma constructor_hash_key_witness :
  getattr "movie_id" hashed_movie = VStr "m7".
Proof.
  assert (Hnd : NoDup (map fst [("movie_id", VStr "m1")])).
  { constructor; [intros []|constructor]. }
  exact (proj1 (constructor_hash_key 1
                  (mkClassDecl "MovieModel" (Some MongoDBModel) MovieModel_body)
                  (VStr "m7") [("movie_id", VStr "m1")] eq_refl Hnd
                  hashed_movie eq_refl)).
Defined.

(** ** Instances from raw documents *)

Lemma raw_attributes_filter (cls : model_class) (data acc : dict) :
  fold_left (raw_turn cls) data acc
  = fold_left (raw_turn cls) (filter (fun p => registered cls (fst p)) data) acc.
Proof.
  revert acc. induction data as [|p data IH]; intros acc; [reflexivity|].
  simpl. unfold registered at 1.
  destruct (registry_get (fst p) (get_attributes cls)) eqn:Hp.
  - simpl. apply IH.
  - rewrite <- IH. unfold raw_turn at 2. now rewrite Hp.
Qed.

(** X7: [from_raw_data] builds an instance from any dictionary: the keys that
    are not registered names are ignored, and only [None] in place of a
    dictionary is refused, with a [ValueError]. *)
Theorem from_raw_data_ignores_unknown (cls : model_class) (data : dict) :
  from_raw_data cls (Some data)
  = from_raw_data cls (Some (filter (fun p => registered cls (fst p)) data))
  /\ (exists fresh, from_raw_data cls (Some data) = Ok fresh
                    /\ inst_class fresh = cls)
  /\ from_raw_data cls None
     = Raise (value_error "Received no data to construct object").
Proof.
  split; [|split; [|reflexivity]].
  - unfold from_raw_data. rewrite !raw_attributes_fold.
    now rewrite raw_attributes_filter.
  - unfold from_raw_data, MongoDBModel_init, AttributeContainer_init. simpl.
    rewrite set_attributes_ok by apply raw_attributes_registered.
    eexists. split; reflexivity.
Qed.

(** ** The values of an instance stay under registered names *)

Lemma assoc_get_in_keys {B : Type} (k : string) (d : list (string * B)) :
  In k (map fst d) -> assoc_get k d <> None.
Proof.
  induction d as [|[k' v] d IH]; simpl; [intros []|].
  intros [E|Hin]; destruct (String.eqb_spec k k'); try congruence.
  now apply IH.
Qed.

Lemma fold_set_keys {B E : Type} (f : string * E -> option B)
    (step : list (string * B) -> string * E -> list (string * B))
    (step_spec : forall acc p,
        step acc p = match f p with
                     | Some v => assoc_set (fst p) v acc
                     | None => acc
                     end)
    (l : list (string * E)) (acc : list (string * B)) (k : string) :
  In k (map fst (fold_left step l acc)) ->
  In k (map fst acc) \/ exists p v, In p l /\ f p = Some v /\ fst p = k.
Proof.
  intros Hin. apply in_map_iff in Hin. destruct Hin as [[k' b] [Ek Hin]].
  simpl in Ek. subst k'. revert k b Hin.
  apply (fold_set_forall f step step_spec
           (fun k _ => In k (map fst acc)
                       \/ exists p v, In p l /\ f p = Some v /\ fst p = k)).
  - intros k b Hin. left. apply in_map_iff. now exists (k, b).
  - intros p v Hp Hf. right. now exists p, v.
Qed.

Lemma deserialize_keeps_registered (me : instance) (attrs : dict) :
  values_registered me -> values_registered (_deserialize me attrs).
Proof.
  intros [Hnd Hreg]. unfold values_registered, _deserialize. simpl.
  set (f := fun p : string * attribute =>
              Some (let value := match attr_name (snd p) with
                                 | Some n => dict_get_none n attrs
                                 | None => VNone
                                 end in
                    if is_none value then value
                    else deserialize (kind (snd p)) value)).
  split.
  - exact (fold_set_nodup f _ (fun acc p => eq_refl) _ _ Hnd).
  - intros k Hk.
    destruct (fold_set_keys f _ (fun acc p => eq_refl) _ _ k Hk)
      as [Hold|(p & v & Hp & _ & Ek)].
    + now apply Hreg.
    + subst k. apply assoc_get_in_keys. now apply in_map.
Qed.

Lemma copy_step_spec (me source : instance) (acc : dict) (p : string * attribute) :
  (if String.eqb (fst p) "_id" then acc
   else if is_hash_key (snd p) then acc
   else match registry_get (fst p) (get_attributes (inst_class me)) with
        | Some _ => setattr (fst p) (getattr (fst p) source) acc
        | None => acc
        end)
  = match (if String.eqb (fst p) "_id" then None
           else if is_hash_key (snd p) then None
           else match registry_get (fst p) (get_attributes (inst_class me)) with
                | Some _ => Some (getattr (fst p) source)
                | None => None
                end) with
    | Some v => assoc_set (fst p) v acc
    | None => acc
    end.
Proof.
  destruct (String.eqb (fst p) "_id"); [reflexivity|].
  destruct (is_hash_key (snd p)); [reflexivity|].
  destruct (registry_get (fst p) (get_attributes (inst_class me))); reflexivity.
Qed.

Lemma copy_keeps_registered (me source : instance) :
  values_registered me ->
  values_registered
    (mkInstance (inst_class me) (attributes me) (copy_values me source)).
Proof.
  intros [Hnd Hreg]. unfold values_registered, copy_values. simpl. split.
  - exact (fold_set_nodup _ _ (copy_step_spec me source) _ _ Hnd).
  - intros k Hk.
    destruct (fold_set_keys _ _ (copy_step_spec me source) _ _ k Hk)
      as [Hold|(p & v & Hp & Hf & Ek)].
    + now apply Hreg.
    + subst k. destruct (String.eqb (fst p) "_id"); [discriminate|].
      destruct (is_hash_key (snd p)); [discriminate|].
      destruct (registry_get (fst p) (get_attributes (inst_class me)));
        [discriminate|discriminate].
Qed.

Lemma constructed_registered (cls : model_class) (attrs : dict) (i : instance) :
  AttributeContainer_init cls attrs = Ok i -> values_registered i.
Proof.
  intros Hi. unfold AttributeContainer_init in Hi.
  destruct (_set_attributes (get_attributes cls) attrs
              (_set_defaults (get_attributes cls) [])) as [vals|e] eqn:Hs;
    [|discriminate].
  inversion Hi. subst i. clear Hi.
  pose proof (set_attributes_registered _ _ _ _ Hs) as Hall.
  rewrite (set_attributes_ok _ _ _ Hall) in Hs. inversion Hs. subst vals.
  set (fd := fun p : string * attribute =>
               let v := eval_default (default (snd p)) in
               if is_none v then None else Some v).
  assert (Hfd : forall acc p,
             (let value := eval_default (default (snd p)) in
              if is_none value then acc else setattr (fst p) value acc)
             = match fd p with
               | Some v => assoc_set (fst p) v acc
               | None => acc
               end).
  { intros acc p. unfold fd. simpl.
    destruct (is_none (eval_default (default (snd p)))); reflexivity. }
  unfold values_registered. simpl. split.
  - apply (fold_set_nodup (fun p : string * pyval => Some (snd p)) _
             (fun acc p => eq_refl)).
    unfold _set_defaults.
    apply (fold_set_nodup fd _ Hfd). constructor.
  - intros k Hk.
    destruct (fold_set_keys (fun p : string * pyval => Some (snd p)) _
                (fun acc p => eq_refl) _ _ k Hk)
      as [Hold|(p & v & Hp & _ & Ek)].
    + unfold _set_defaults in Hold.
      destruct (fold_set_keys fd _ Hfd _ _ k Hold)
        as [[]|(p & v & Hp & _ & Ek)].
      subst k. apply assoc_get_in_keys. now apply in_map.
    + subst k. apply Hall. now apply in_map.
Qed.

(** X8: the values of an instance are held under registered names only, each
    name once: the constructor and [from_raw_data] build such instances, and
    [_deserialize] and [copy_from] keep them so. *)
Theorem values_stay_registered :
  (forall cls hash_key attrs i,
      MongoDBModel_init cls hash_key attrs = Ok i -> values_registered i)
  /\ (forall cls data fresh,
         from_raw_data cls data = Ok fresh -> values_registered fresh)
  /\ (forall me attrs,
         values_registered me -> values_registered (_deserialize me attrs))
  /\ (forall self model_from w,
         values_registered (objects w self) ->
         values_registered (objects (snd (copy_from self model_from w)) self)).
Proof.
  assert (Hinit : forall cls hash_key attrs i,
             MongoDBModel_init cls hash_key attrs = Ok i -> values_registered i).
  { intros cls hash_key attrs i Hi. unfold MongoDBModel_init in Hi.
    destruct (is_none hash_key); [exact (constructed_registered _ _ _ Hi)|].
    destruct (_hash_key cls); [|discriminate].
    exact (constructed_registered _ _ _ Hi). }
  split; [exact Hinit|]. split; [|split].
  - intros cls [data|] fresh Hf; [|discriminate].
    exact (Hinit _ _ _ _ Hf).
  - exact deserialize_keeps_registered.
  - intros self model_from w Hme.
    unfold copy_from, bind, read_object, write_object. simpl.
    rewrite Nat.eqb_refl. now apply copy_keeps_registered.
Qed.

(** ** [copy_from] *)

(** X9: [copy_from] makes no store call and changes no object but [self], of
    which it keeps the class and the raw attributes. It leaves [_id] and the
    fields that are hash keys of the source as they are, gives every other
    field of the source that the class of [self] registers the value the
    source holds ([None] when it holds none), and leaves alone the fields the
    source does not register. *)
Theorem copy_from_fields (id : nat) (d : class_decl) (self model_from : nat)
    (w : World) :
  inst_class (objects w model_from) = MetaModel_init id d ->
  let me := objects w self in
  let source := objects w model_from in
  let w' := snd (copy_from self model_from w) in
  fst (copy_from self model_from w) = Ok tt
  /\ calls w' = calls w
  /\ (forall r, r <> self -> objects w' r = objects w r)
  /\ inst_class (objects w' self) = inst_class me
  /\ attributes (objects w' self) = attributes me
  /\ getattr "_id" (objects w' self) = getattr "_id" me
  /\ forall k,
       getattr k (objects w' self)
       = match registry_get k (get_attributes (MetaModel_init id d)) with
         | Some a =>
             if String.eqb k "_id" then getattr k me
             else if is_hash_key a then getattr k me
             else if registered (inst_class me) k then getattr k source
             else getattr k me
         | None => getattr k me
         end.
Proof.
  intros Hcls me source w'.
  destruct (registry_well_formed (resolve_members d)) as [Hnd _].
  assert (Hget : forall k,
             dict_get k (copy_values me source)
             = match registry_get k (get_attributes (MetaModel_init id d)) with
               | Some a =>
                   if String.eqb k "_id" then dict_get k (attribute_values me)
                   else if is_hash_key a then dict_get k (attribute_values me)
                   else if registered (inst_class me) k
                        then Some (getattr k source)
                        else dict_get k (attribute_values me)
               | None => dict_get k (attribute_values me)
               end).
  { intros k. unfold copy_values, dict_get.
    assert (Hcls' : inst_class source = MetaModel_init id d) by exact Hcls.
    rewrite Hcls'. etransitivity.
    - exact (fold_set_get _ _ (copy_step_spec me source) k
               (get_attributes (MetaModel_init id d)) (attribute_values me) Hnd).
    - unfold registered, registry_get.
      destruct (assoc_get k (get_attributes (MetaModel_init id d))) as [a|];
        [|reflexivity].
      simpl. destruct (String.eqb k "_id"); [reflexivity|].
      destruct (is_hash_key a); [reflexivity|].
      destruct (assoc_get k (get_attributes (inst_class me))); reflexivity. }
  assert (Hw : objects w' self
               = mkInstance (inst_class me) (attributes me) (copy_values me source)).
  { unfold w', copy_from, bind, read_object, write_object. simpl.
    now rewrite Nat.eqb_refl. }
  split; [reflexivity|]. split; [reflexivity|]. split.
  { intros r Hr. unfold w', copy_from, bind, read_object, write_object. simpl.
    apply Nat.eqb_neq in Hr. now rewrite Hr. }
  rewrite Hw. split; [reflexivity|]. split; [reflexivity|].
  assert (Hattr : forall k,
             getattr k (mkInstance (inst_class me) (attributes me)
                          (copy_values me source))
             = match registry_get k (get_attributes (MetaModel_init id d)) with
               | Some a =>
                   if String.eqb k "_id" then getattr k me
                   else if is_hash_key a then getattr k me
                   else if registered (inst_class me) k then getattr k source
                   else getattr k me
               | None => getattr k me
               end).
  { intros k. unfold getattr at 1. unfold dict_get_none.
    cbn [attribute_values]. rewrite Hget.
    unfold getattr, dict_get_none.
    destruct (registry_get k (get_attributes (MetaModel_init id d))) as [a|];
      [|reflexivity].
    destruct (String.eqb k "_id"); [reflexivity|].
    destruct (is_hash_key a); [reflexivity|].
    destruct (registered (inst_class me) k); reflexivity. }
  split; [|exact Hattr].
  rewrite Hattr.
  destruct (registry_get "_id" (get_attributes (MetaModel_init id d)));
    reflexivity.
Qed.

Lemma copy_from_fields_witness :
  getattr "title" (objects (snd (copy_from 1 0 example_world)) 1) = VStr "Old"
  /\ getattr "movie_id" (objects (snd (copy_from 1 0 example_world)) 1)
     = VStr "m1".
Proof.
  pose proof (copy_from_fields 1
                (mkClassDecl "MovieModel" (Some MongoDBModel) MovieModel_body)
                1%nat 0%nat example_world eq_refl) as H.
  destruct H as (_ & _ & _ & _ & _ & _ & H).
  split; [exact (H "title")|exact (H "movie_id")].
Defined.

(** ** Queries and mutations: what they touch *)

Section FrameProperties.

Variable collection : Collection.

Lemma store_objects {A : Type} (c : store_call) (reply : list store_call -> result A)
    (w : World) :
  objects (snd (store c reply w)) = objects w.
Proof. reflexivity. Qed.

Lemma get_objects_unchanged (cls : model_class) (atg : option (list string))
    (kwargs : dict) (w : World) :
  objects (snd (get collection cls atg kwargs w)) = objects w
  /\ calls (snd (get collection cls atg kwargs w))
     = calls w ++ [CallFindOne kwargs atg].
Proof.
  unfold get, run, bind, store, lift_result, raise. simpl.
  destruct (find_one collection (calls w) kwargs atg) as [doc|e]; [|now split].
  destruct (document_truthy doc); now split.
Qed.

Lemma async_find_objects_unchanged (cls : model_class) (condition : dict)
    (sort offset limit : pyval) (atg : option (list string)) (hint : pyval)
    (explain_flag : bool) (w : World) :
  objects (snd (async_find collection cls condition sort offset limit atg hint
                  explain_flag w)) = objects w.
Proof.
  unfold async_find, bind, store, lift_result, ret. simpl.
  destruct (find_docs collection (calls w) _) as [raw|e]; [|reflexivity].
  simpl. destruct (map_result _ raw) as [docs|e]; [|reflexivity].
  destruct explain_flag; [|reflexivity].
  simpl. destruct (explain collection _ _); reflexivity.
Qed.

(** X10: [save] changes no instance but [self]; of [self] it keeps the class,
    the raw attributes and the values, to which the [_id] generated by the
    driver is added when there is none, also when the insert raises; the
    document sent is that dictionary. The queries ([get], [find], [query],
    [batch_get]) and [delete] and [inc] change no instance, whatever the store
    replies; [update] changes none but [self]. *)
Theorem operations_frame (w : World) :
  (forall self,
      let me := objects w self in
      let w' := snd (save collection self w) in
      let document :=
        if dict_mem "_id" (attribute_values me) then attribute_values me
        else dict_set "_id" (new_object_id collection (calls w))
               (attribute_values me) in
      (forall r, r <> self -> objects w' r = objects w r)
      /\ objects w' self = mkInstance (inst_class me) (attributes me) document
      /\ calls w' = calls w ++ [CallInsertOne document]
      /\ dict_mem "_id" (attribute_values (objects w' self)) = true
      /\ forall k, k <> "_id" -> getattr k (objects w' self) = getattr k me)
  /\ (forall cls atg kwargs,
         objects (snd (get collection cls atg kwargs w)) = objects w)
  /\ (forall cls condition sort offset limit atg hint explain_flag,
         objects (snd (find collection cls condition sort offset limit atg hint
                         explain_flag w)) = objects w)
  /\ (forall cls atg kwargs,
         objects (snd (query collection cls atg kwargs w)) = objects w)
  /\ (forall cls items atg,
         objects (snd (batch_get collection cls items atg w)) = objects w)
  /\ (forall self, objects (snd (delete collection self w)) = objects w)
  /\ (forall self actions,
         objects (snd (inc collection self actions w)) = objects w)
  /\ (forall self actions reload upsert r,
         r <> self ->
         objects (snd (update collection self actions reload upsert w)) r
         = objects w r).
Proof.
  split.
  { intros self me w' document.
    assert (Hself : objects w' self
                    = mkInstance (inst_class me) (attributes me) document).
    { unfold w', save, run, call_insert_one. simpl. now rewrite Nat.eqb_refl. }
    split.
    { intros r Hr. unfold w', save, run, call_insert_one. simpl.
      apply Nat.eqb_neq in Hr. now rewrite Hr. }
    split; [exact Hself|]. split; [reflexivity|]. rewrite Hself. split.
    - simpl. unfold document.
      destruct (dict_mem "_id" (attribute_values me)) eqn:Hm; [exact Hm|].
      unfold dict_mem, dict_get, dict_set. rewrite assoc_get_set. reflexivity.
    - intros k Hk. unfold getattr, dict_get_none. simpl. unfold document.
      destruct (dict_mem "_id" (attribute_values me)); [reflexivity|].
      unfold dict_get, dict_set. rewrite assoc_get_set.
      destruct (String.eqb_spec k "_id"); [congruence|reflexivity]. }
  split; [intros; apply get_objects_unchanged|].
  split; [intros; apply async_find_objects_unchanged|].
  split.
  { intros cls atg kwargs. unfold query.
    destruct (dict_mem "sort" kwargs); [reflexivity|].
    apply async_find_objects_unchanged. }
  split.
  { intros cls items atg. unfold batch_get. destruct items; [reflexivity|].
    unfold run, bind, lift_result. simpl.
    destruct (hash_key_filter cls _) as [flt|e]; [|reflexivity].
    apply async_find_objects_unchanged. }
  split.
  { intros self. rewrite delete_resolves.
    destruct (identity_filter (objects w self)); reflexivity. }
  split.
  { intros self actions. rewrite inc_resolves.
    destruct (identity_filter (objects w self)); reflexivity. }
  intros self actions reload upsert r Hr. rewrite update_resolves.
  destruct (identity_filter (objects w self)) as [flt|]; [|reflexivity].
  simpl.
  destruct (update_one collection (calls w) flt _ _) as [res|e]; [|reflexivity].
  destruct (negb (N.eqb (modified_count res) 0) && arg_default true reload);
    [|reflexivity].
  pose proof (get_objects_unchanged (inst_class (objects w self)) None flt
                (after_call w (CallUpdateOne flt (set_update actions)
                                 (arg_default false upsert)))) as [Hobj _].
  destruct (get collection _ None flt _) as [[nd|e] w2]; simpl in *.
  - apply Nat.eqb_neq in Hr. rewrite Hr. now rewrite Hobj.
  - now rewrite Hobj.
Qed.

(** X11: on an instance, [delete], [update] and [inc] filter by [_id] as soon
    as the instance has one, whatever its raw attributes; without [_id] they
    filter by the raw attributes; with neither, each raises the
    [AttrsEmptyException] of the class and the store is not called. *)
Theorem instance_identity_preference (self : nat) (actions : dict)
    (reload upsert : option bool) (w : World) :
  let me := objects w self in
  (truthy (_id me) = true ->
   calls (snd (delete collection self w))
   = calls w ++ [CallDeleteOne [("_id", _id me)]]
   /\ calls (snd (inc collection self actions w))
      = calls w ++ [CallUpdateOne [("_id", _id me)] (inc_update actions) false]
   /\ exists rest,
        calls (snd (update collection self actions reload upsert w))
        = calls w ++ CallUpdateOne [("_id", _id me)] (set_update actions)
                       (arg_default false upsert) :: rest)
  /\ (truthy (_id me) = false -> attributes me <> [] ->
      calls (snd (delete collection self w))
      = calls w ++ [CallDeleteOne (attributes me)]
      /\ calls (snd (inc collection self actions w))
         = calls w ++ [CallUpdateOne (attributes me) (inc_update actions) false]
      /\ exists rest,
           calls (snd (update collection self actions reload upsert w))
           = calls w ++ CallUpdateOne (attributes me) (set_update actions)
                          (arg_default false upsert) :: rest)
  /\ (truthy (_id me) = false -> attributes me = [] ->
      delete collection self w
      = (Raise (new_AttrsEmpty (inst_class me) "delete"), w)
      /\ inc collection self actions w
         = (Raise (new_AttrsEmpty (inst_class me) "inc"), w)
      /\ update collection self actions reload upsert w
         = (Raise (new_AttrsEmpty (inst_class me) "update"), w)).
Proof.
  intros me.
  assert (Hupd : forall flt,
             identity_filter me = Some flt ->
             exists rest,
               calls (snd (update collection self actions reload upsert w))
               = calls w ++ CallUpdateOne flt (set_update actions)
                              (arg_default false upsert) :: rest).
  { intros flt Hf. rewrite update_resolves. fold me. rewrite Hf. simpl.
    destruct (update_one collection (calls w) flt _ _) as [res|e];
      [|now exists []].
    destruct (negb (N.eqb (modified_count res) 0) && arg_default true reload);
      [|now exists []].
    pose proof (get_objects_unchanged (inst_class me) None flt
                  (after_call w (CallUpdateOne flt (set_update actions)
                                   (arg_default false upsert)))) as [_ Hc].
    destruct (get collection _ None flt _) as [[nd|e] w2]; simpl in *;
      rewrite Hc, <- app_assoc; now exists [CallFindOne flt None]. }
  split; [|split].
  - intros Hid.
    assert (Hf : identity_filter me = Some [("_id", _id me)]).
    { unfold identity_filter. now rewrite Hid. }
    rewrite delete_resolves, inc_resolves. fold me. rewrite Hf.
    split; [reflexivity|]. split; [reflexivity|]. now apply Hupd.
  - intros Hid Hattrs.
    assert (Hf : identity_filter me = Some (attributes me)).
    { unfold identity_filter. rewrite Hid.
      destruct (attributes me); [congruence|reflexivity]. }
    rewrite delete_resolves, inc_resolves. fold me. rewrite Hf.
    split; [reflexivity|]. split; [reflexivity|]. now apply Hupd.
  - intros Hid Hattrs.
    assert (Hf : identity_filter me = None).
    { unfold identity_filter. now rewrite Hid, Hattrs. }
    rewrite delete_resolves, inc_resolves, update_resolves. fold me.
    rewrite Hf. repeat split.
Qed.

End FrameProperties.

(** ** [find], [query] and [batch_get] *)

Lemma map_result_cons {A B : Type} (f : A -> result B) (x : A) (l : list A) :
  map_result f (x :: l)
  = match f x with
    | Raise e => Raise e
    | Ok y => match map_result f l with
              | Raise e => Raise e
              | Ok ys => Ok (y :: ys)
              end
    end.
Proof. reflexivity. Qed.

Lemma map_result_total (cls : model_class) (raw : list dict) :
  exists insts,
    map_result (fun d => from_raw_data cls (Some d)) raw = Ok insts
    /\ Forall2 (fun d i => from_raw_data cls (Some d) = Ok i) raw insts.
Proof.
  induction raw as [|d raw (insts & Hm & Hall)].
  - exists []. split; [reflexivity|constructor].
  - destruct (from_raw_data_ok cls d) as [i Hi].
    exists (i :: insts). rewrite map_result_cons, Hi, Hm.
    split; [reflexivity|]. now constructor.
Qed.

Lemma projection_get (names : list string) (acc : dict) (n : string) :
  dict_get n (fold_left (fun d attr => dict_set attr (VInt 1) d) names acc)
  = if existsb (String.eqb n) names then Some (VInt 1) else dict_get n acc.
Proof.
  revert acc. induction names as [|a names IH]; intros acc; [reflexivity|].
  simpl. rewrite IH. unfold dict_get, dict_set. rewrite assoc_get_set.
  destruct (String.eqb n a); simpl; [|reflexivity].
  destruct (existsb (String.eqb n) names); reflexivity.
Qed.

Section FindProperties.

Variable collection : Collection.

(** X12: [find] makes one query of the store and returns one instance for
    each document of the reply, in the order of the reply, each built by
    [from_raw_data]: a document with unknown keys or without registered ones
    never makes it fail. The projection it asks for holds exactly the names of
    [attributes_to_get], each with 1, and there is none when the list is empty
    or absent; a modifier whose argument is false (an offset of 0, no limit)
    is not applied. *)
Theorem find_returns_instances (cls : model_class) (condition : dict)
    (sort offset limit : pyval) (atg : option (list string)) (hint : pyval)
    (w : World) (raw : list dict) :
  let cur := mkCursor condition
               match atg with
               | Some (a :: l) =>
                   Some (fold_left (fun d attr => dict_set attr (VInt 1) d) (a :: l) [])
               | _ => None
               end
               (some_if (truthy sort) sort) (some_if (truthy offset) offset)
               (some_if (truthy limit) limit) (some_if (truthy hint) hint) in
  find_docs collection (calls w) cur = Ok raw ->
  (exists insts,
      find collection cls condition sort offset limit atg hint false w
      = (Ok insts, after_call w (CallFind cur))
      /\ Forall2 (fun d i => from_raw_data cls (Some d) = Ok i) raw insts)
  /\ (forall proj n,
         c_projection cur = Some proj ->
         dict_get n proj
         = if existsb (String.eqb n) (arg_default [] atg) then Some (VInt 1)
           else None)
  /\ (c_projection cur = None <-> atg = None \/ atg = Some [])
  /\ (c_skip cur = None <-> truthy offset = false)
  /\ (c_limit cur = None <-> truthy limit = false).
Proof.
  intros cur Hdocs. split; [|split; [|split; [|split]]].
  - destruct (map_result_total cls raw) as (insts & Hm & Hall).
    exists insts. split; [|exact Hall].
    unfold find, run, async_find, bind, store, lift_result, ret.
    cbv beta zeta. fold cur. rewrite Hdocs. cbv beta iota. rewrite Hm.
    reflexivity.
  - intros proj n Hp. unfold cur in Hp. simpl in Hp.
    destruct atg as [[|a l]|]; try discriminate.
    inversion Hp. subst proj. simpl arg_default.
    exact (projection_get (a :: l) [] n).
  - unfold cur. simpl. destruct atg as [[|a l]|]; split; intros H;
      try discriminate; auto.
    + destruct H; discriminate.
  - unfold cur, some_if. simpl. destruct (truthy offset); split; intros H;
      congruence.
  - unfold cur, some_if. simpl. destruct (truthy limit); split; intros H;
      congruence.
Qed.

Lemma dict_del_get (k k' : string) (d : dict) :
  NoDup (map fst d) ->
  dict_get k (dict_del k' d)
  = if String.eqb k k' then None else dict_get k d.
Proof.
  induction d as [|[k0 v0] d IH]; simpl; intros Hnd.
  - destruct (String.eqb k k'); reflexivity.
  - inversion Hnd as [|? ? Hnotin Hnd']; subst.
    destruct (String.eqb_spec k' k0) as [E|N].
    + subst k0. destruct (String.eqb_spec k k') as [E'|N'].
      * subst k. unfold dict_get. now apply assoc_get_notin.
      * unfold dict_get. simpl.
        destruct (String.eqb_spec k k'); [congruence|reflexivity].
    + unfold dict_get in *. simpl.
      destruct (String.eqb_spec k k0) as [E|N0].
      * subst k0. destruct (String.eqb_spec k k'); [congruence|reflexivity].
      * now apply IH.
Qed.

Lemma dict_del_nodup (k' : string) (d : dict) :
  NoDup (map fst d) -> NoDup (map fst (dict_del k' d)).
Proof.
  induction d as [|[k0 v0] d IH]; simpl; intros Hnd; [constructor|].
  inversion Hnd as [|? ? Hnotin Hnd']; subst.
  destruct (String.eqb k' k0); [exact Hnd'|].
  simpl. constructor; [|now apply IH].
  intros Hin. apply Hnotin.
  clear - Hin. induction d as [|[k1 v1] d IHd]; simpl in *; [exact Hin|].
  destruct (String.eqb k' k1); simpl in *; [now right|].
  destruct Hin as [E|Hin]; [now left|right; now apply IHd].
Qed.

(** X13: [async_query] takes [offset] and [limit] out of the keywords before
    they become the filter: the filter of its one query holds every other
    keyword and neither of the two; the offset is 0 and the limit [None] when
    not given, and then no skip and no limit is applied. *)
Theorem query_extracts_offset_limit (cls : model_class) (sort : pyval)
    (atg : option (list string)) (kwargs : dict) (w : World) :
  NoDup (map fst kwargs) ->
  exists cur,
    calls (snd (async_query collection cls sort atg kwargs w))
    = calls w ++ [CallFind cur]
    /\ (forall k,
           dict_get k (c_filter cur)
           = if String.eqb k "offset" || String.eqb k "limit" then None
             else dict_get k kwargs)
    /\ c_skip cur = match dict_get "offset" kwargs with
                    | Some v => some_if (truthy v) v
                    | None => None
                    end
    /\ c_limit cur = match dict_get "limit" kwargs with
                     | Some v => some_if (truthy v) v
                     | None => None
                     end.
Proof.
  intros Hnd.
  set (kw1 := if dict_mem "offset" kwargs then dict_del "offset" kwargs else kwargs).
  set (kw2 := if dict_mem "limit" kw1 then dict_del "limit" kw1 else kw1).
  assert (Hnd1 : NoDup (map fst kw1)).
  { unfold kw1. destruct (dict_mem "offset" kwargs);
      [now apply dict_del_nodup|exact Hnd]. }
  assert (H1 : forall k, dict_get k kw1
                         = if String.eqb k "offset" then None else dict_get k kwargs).
  { intros k. unfold kw1, dict_mem.
    destruct (dict_get "offset" kwargs) eqn:Ho; [now apply dict_del_get|].
    destruct (String.eqb_spec k "offset"); [subst; exact Ho|reflexivity]. }
  assert (H2 : forall k, dict_get k kw2
                         = if String.eqb k "limit" then None else dict_get k kw1).
  { intros k. unfold kw2, dict_mem.
    destruct (dict_get "limit" kw1) eqn:Hl; [now apply dict_del_get|].
    destruct (String.eqb_spec k "limit"); [subst; exact Hl|reflexivity]. }
  eexists. split; [|split; [|split]].
  - unfold async_query, async_find, bind, store, lift_result, ret.
    fold kw1. fold kw2. simpl.
    destruct (find_docs collection (calls w) _) as [raw|e]; [|reflexivity].
    simpl. destruct (map_result _ raw); reflexivity.
  - intros k. simpl. rewrite H2, H1.
    destruct (String.eqb k "offset"), (String.eqb k "limit"); reflexivity.
  - simpl. destruct (dict_get "offset" kwargs); reflexivity.
  - simpl. rewrite H1. simpl. destruct (dict_get "limit" kwargs); reflexivity.
Qed.

(** X14: [batch_get] of no item returns the empty list without calling the
    store, in both forms; of some items, it makes one query whose filter asks
    for the hash-key field to be among the items. *)
Theorem batch_get_edges (cls : model_class) (atg : option (list string))
    (w : World) :
  batch_get collection cls [] atg w = (Ok [], w)
  /\ async_batch_get collection cls [] atg w = (Ok [], w)
  /\ forall k item items,
       _hash_key cls = Some k ->
       exists cur,
         calls (snd (batch_get collection cls (item :: items) atg w))
         = calls w ++ [CallFind cur]
         /\ c_filter cur = [(k, VDict [("$in", VList (item :: items))])]
         /\ c_sort cur = None /\ c_skip cur = None /\ c_limit cur = None.
Proof.
  split; [reflexivity|]. split; [reflexivity|].
  intros k item items Hk. eexists. split.
  { unfold batch_get, run, bind, lift_result, hash_key_filter. rewrite Hk.
    unfold async_find, bind, store, lift_result, ret. simpl.
    destruct (find_docs collection (calls w) _) as [raw|e]; [|reflexivity].
    simpl. destruct (map_result _ raw); reflexivity. }
  repeat split.
Qed.

End FindProperties.

Lemma find_returns_instances_witness :
  exists insts,
    find reload_store MovieModel [("year", VInt 1943)] VNone (VInt 0) VNone
      (Some []) VNone false example_world
    = (Ok insts,
       after_call example_world
         (CallFind (mkCursor [("year", VInt 1943)] None None None None None)))
    /\ Forall2 (fun d i => from_raw_data MovieModel (Some d) = Ok i)
         [year_document] insts.
Proof.
  exact (proj1 (find_returns_instances reload_store MovieModel
                  [("year", VInt 1943)] VNone (VInt 0) VNone (Some []) VNone
                  example_world [year_document] eq_refl)).
Defined.

Lemma query_extracts_offset_limit_witness :
  exists cur,
    calls (snd (async_query accepting_store MovieModel VNone None
                  [("offset", VInt 0); ("limit", VInt 100);
                   ("title", VStr "Casablanca")] example_world))
    = [CallFind cur]
    /\ dict_get "title" (c_filter cur) = Some (VStr "Casablanca")
    /\ dict_get "limit" (c_filter cur) = None
    /\ c_skip cur = None
    /\ c_limit cur = Some (VInt 100).
Proof.
  assert (Hnd : NoDup (map fst [("offset", VInt 0); ("limit", VInt 100);
                                ("title", VStr "Casablanca")])).
  { repeat constructor; simpl; intuition discriminate. }
  destruct (query_extracts_offset_limit accepting_store MovieModel VNone None
              [("offset", VInt 0); ("limit", VInt 100);
               ("title", VStr "Casablanca")] example_world Hnd)
    as (cur & Hc & Hf & Hs & Hl).
  exists cur. split; [exact Hc|]. split; [exact (Hf "title")|].
  split; [exact (Hf "limit")|]. split; assumption.
Defined.


(** ** The batch writer: what reaches the store *)

Section WriterSends.

Variable K : constants.
Variable collection : Collection.

Import BatchWrite.

Hypothesis codes_distinct : distinct_codes K.
Hypothesis store_accepts : accepts_bulk_writes collection.

Lemma world_same_calls (w : World) : mkWorld (objects w) (calls w ++ []) = w.
Proof. rewrite app_nil_r. destruct w; reflexivity. Qed.

Lemma commit_accepted (b : t) (w : World) (c : stage_call) (cs : list stage_call) :
  pending_operations b = map (operation_of K) (c :: cs) ->
  BatchWrite.commit K collection (b, w)
  = (Ok tt,
     (with_pending b [],
      mkWorld (objects w)
        (calls w ++ [CallBulkWrite (map (request_of (objects w)) (c :: cs))
                       (ordered b)]))).
Proof.
  intros Hp.
  assert (Hb : build_requests K (objects w) (pending_operations b)
               = Ok (request_of (objects w) c :: map (request_of (objects w)) cs)).
  { rewrite Hp. exact (build_requests_staged K (objects w) (c :: cs) codes_distinct). }
  rewrite (commit_requests K collection b w _ _ Hb).
  destruct (store_accepts (calls w)
              (request_of (objects w) c :: map (request_of (objects w)) cs)
              (ordered b)) as [reply Hr].
  rewrite Hr. reflexivity.
Qed.

(** Staging on an accepting store: the flushes made so far and the queue
    together hold every staged operation, in order. *)
Lemma stage_all_sent (cs pre : list stage_call) (b : t) (w : World) :
  0 < max_operations b ->
  pending_operations b = map (operation_of K) pre ->
  Z.of_nat (length pre) <= max_operations b ->
  exists post chunks,
    BatchWrite.stage_all K collection cs (b, w)
    = (Ok tt,
       (with_pending b (map (operation_of K) post),
        mkWorld (objects w)
          (calls w ++ map (fun rs => CallBulkWrite rs (ordered b)) chunks)))
    /\ Z.of_nat (length post) <= max_operations b
    /\ concat chunks ++ map (request_of (objects w)) post
       = map (request_of (objects w)) (pre ++ cs)
    /\ Forall (fun rs => Z.of_nat (length rs) = max_operations b) chunks.
Proof.
  revert pre b w. induction cs as [|c cs IH]; intros pre b w Hpos Hp Hlen.
  - exists pre, []. simpl. rewrite <- Hp, with_pending_same, world_same_calls.
    rewrite app_nil_r. repeat split; auto.
  - simpl. unfold bind at 1. rewrite stage_unfold.
    destruct (at_limit b) eqn:Hl.
    + unfold at_limit in Hl. apply Z.eqb_eq in Hl. rewrite Hp, length_map in Hl.
      destruct pre as [|p pre]; [simpl in Hl; lia|].
      rewrite (commit_accepted b w p pre Hp), append_eq.
      set (w1 := mkWorld (objects w)
                   (calls w ++ [CallBulkWrite
                                  (map (request_of (objects w)) (p :: pre))
                                  (ordered b)])).
      destruct (IH [c]
                  (with_pending (with_pending b [])
                     (pending_operations (with_pending b []) ++ [operation_of K c]))
                  w1) as (post & chunks & E & Hpost & Hcat & Hall).
      * exact Hpos.
      * reflexivity.
      * simpl. lia.
      * exists post, (map (request_of (objects w)) (p :: pre) :: chunks).
        rewrite E. simpl. split; [|split; [exact Hpost|split]].
        -- unfold w1. simpl. rewrite <- app_assoc. reflexivity.
        -- simpl in Hcat. rewrite <- app_assoc, Hcat.
           rewrite map_app. reflexivity.
        -- constructor; [|exact Hall].
           simpl. rewrite length_map. simpl in Hl. exact Hl.
    + rewrite append_eq.
      unfold at_limit in Hl. apply Z.eqb_neq in Hl. rewrite Hp, length_map in Hl.
      destruct (IH (pre ++ [c])
                  (with_pending b (pending_operations b ++ [operation_of K c])) w)
        as (post & chunks & E & Hpost & Hcat & Hall).
      * exact Hpos.
      * simpl. rewrite Hp, map_app. reflexivity.
      * simpl. rewrite length_app. simpl. lia.
      * exists post, chunks. rewrite E. simpl.
        split; [reflexivity|]. split; [exact Hpost|]. split; [|exact Hall].
        rewrite Hcat, <- app_assoc. reflexivity.
Qed.

(** X15: on a store that accepts the bulk writes, the staging calls followed by
    [commit] (as leaving the [async with] block does) send every staged
    operation once, in staging order: the requests of the bulk writes made, put
    end to end, are the staged operations; no bulk write is empty or longer than
    the page limit; nothing else is called and the queue ends empty. *)
Theorem batch_sends_all_in_order (cls : model_class) (ord : option bool)
    (cs : list stage_call) (w : World) :
  0 < BATCH_WRITE_PAGE_LIMIT K ->
  exists chunks,
    bind (BatchWrite.stage_all K collection cs)
         (fun _ => BatchWrite.__aexit__ K collection) (init K cls ord, w)
    = (Ok tt,
       (init K cls ord,
        mkWorld (objects w)
          (calls w ++ map (fun rs => CallBulkWrite rs (arg_default false ord))
                        chunks)))
    /\ concat chunks = map (request_of (objects w)) cs
    /\ Forall (fun rs => 1 <= Z.of_nat (length rs) <= BATCH_WRITE_PAGE_LIMIT K)
              chunks.
Proof.
  intros Hpos.
  destruct (stage_all_sent cs [] (init K cls ord) w Hpos eq_refl)
    as (post & chunks & E & Hpost & Hcat & Hall); [simpl; lia|].
  simpl in Hcat, Hpost, Hall, E.
  assert (Hall' : Forall (fun rs => 1 <= Z.of_nat (length rs)
                                    <= BATCH_WRITE_PAGE_LIMIT K) chunks).
  { eapply Forall_impl; [|exact Hall]. simpl. intros rs Hrs. lia. }
  unfold bind at 1. rewrite E. unfold BatchWrite.__aexit__.
  destruct post as [|p post].
  - exists chunks. rewrite commit_empty by reflexivity.
    simpl in Hcat. rewrite app_nil_r in Hcat.
    split; [reflexivity|]. split; assumption.
  - exists (chunks ++ [map (request_of (objects w)) (p :: post)]).
    match goal with
    | |- context [BatchWrite.commit K collection (?b1, ?w1)] =>
        rewrite (commit_accepted b1 w1 p post eq_refl)
    end.
    simpl. split; [|split].
    + rewrite map_app, <- app_assoc. reflexivity.
    + rewrite concat_app. simpl. rewrite app_nil_r. exact Hcat.
    + apply Forall_app. split; [exact Hall'|].
      constructor; [|constructor]. simpl. rewrite length_map.
      simpl in Hpost. lia.
Qed.

(** X16: [commit] does not keep what it sent: after a [commit] of staged
    operations, accepted or not by the store, a second [commit] calls nothing
    and changes nothing. *)
Theorem commit_twice (failing : Collection) (b : t) (w : World)
    (cs : list stage_call) :
  pending_operations b = map (operation_of K) cs ->
  let s1 := snd (BatchWrite.commit K failing (b, w)) in
  pending_operations (fst s1) = []
  /\ BatchWrite.commit K failing s1 = (Ok tt, s1).
Proof.
  intros Hp s1.
  assert (Hs1 : exists w1, s1 = (with_pending b [], w1)).
  { unfold s1. destruct cs as [|c cs].
    - rewrite commit_empty by exact Hp. now exists w.
    - assert (Hb : build_requests K (objects w) (pending_operations b)
                   = Ok (request_of (objects w) c
                           :: map (request_of (objects w)) cs)).
      { rewrite Hp.
        exact (build_requests_staged K (objects w) (c :: cs) codes_distinct). }
      rewrite (commit_requests K failing b w _ _ Hb). simpl. eexists.
      reflexivity. }
  destruct Hs1 as [w1 Hs1]. rewrite Hs1. split; [reflexivity|].
  now rewrite commit_empty.
Qed.

End WriterSends.

Lemma accepting_store_accepts : accepts_bulk_writes accepting_store.
Proof. intros log requests ordered. now exists VNone. Qed.

Lemma batch_sends_all_in_order_witness :
  exists chunks,
    bind (BatchWrite.stage_all example_constants accepting_store
            [BatchWrite.StageSave 0; BatchWrite.StageSave 1; BatchWrite.StageSave 2;
             BatchWrite.StageDelete 0; BatchWrite.StageInc 1 [("year", VInt 1)] None])
         (fun _ => BatchWrite.__aexit__ example_constants accepting_store)
         (BatchWrite.init example_constants MovieModel None, example_world)
    = (Ok tt,
       (BatchWrite.init example_constants MovieModel None,
        mkWorld example_objects
          (map (fun rs => CallBulkWrite rs false) chunks)))
    /\ concat chunks
       = map (request_of example_objects)
           [BatchWrite.StageSave 0; BatchWrite.StageSave 1; BatchWrite.StageSave 2;
            BatchWrite.StageDelete 0; BatchWrite.StageInc 1 [("year", VInt 1)] None]
    /\ Forall (fun rs => 1 <= Z.of_nat (length rs) <= 3) chunks.
Proof.
  assert (Hpos : 0 < BATCH_WRITE_PAGE_LIMIT example_constants) by (simpl; lia).
  exact (batch_sends_all_in_order example_constants accepting_store
           example_codes_distinct accepting_store_accepts MovieModel None
           [BatchWrite.StageSave 0; BatchWrite.StageSave 1; BatchWrite.StageSave 2;
            BatchWrite.StageDelete 0; BatchWrite.StageInc 1 [("year", VInt 1)] None]
           example_world Hpos).
Defined.

Lemma commit_twice_witness :
  BatchWrite.commit example_constants rejecting_store
    (snd (BatchWrite.commit example_constants rejecting_store
            (writer_of [BatchWrite.StageSave 1; BatchWrite.StageDelete 0],
             example_world)))
  = (Ok tt,
     snd (BatchWrite.commit example_constants rejecting_store
            (writer_of [BatchWrite.StageSave 1; BatchWrite.StageDelete 0],
             example_world))).
Proof.
  exact (proj2 (commit_twice example_constants example_codes_distinct
                  rejecting_store
                  (writer_of [BatchWrite.StageSave 1; BatchWrite.StageDelete 0])
                  example_world
                  [BatchWrite.StageSave 1; BatchWrite.StageDelete 0] eq_refl)).
Defined.

(** ** The registry of a class: what is in it, and in which order *)

Lemma insert_by_name_in (x p : string * member) (l : namespace) :
  In x (insert_by_name p l) <-> x = p \/ In x l.
Proof.
  induction l as [|q l IH]; simpl; [intuition|].
  destruct (String.leb (fst p) (fst q)); simpl; [intuition|].
  rewrite IH. intuition.
Qed.

Lemma sort_by_name_in (x : string * member) (l : namespace) :
  In x (sort_by_name l) <-> In x l.
Proof.
  induction l as [|q l IH]; simpl; [reflexivity|].
  rewrite insert_by_name_in, IH. intuition.
Qed.

Lemma getmembers_in (ns : namespace) (n : string) (a : attribute) :
  In (n, a) (getmembers ns) <-> In (n, MAttribute a) ns.
Proof.
  unfold getmembers. rewrite in_flat_map. split.
  - intros [[k m] [Hin Hm]]. apply (proj1 (sort_by_name_in _ _)) in Hin.
    simpl in Hm.
    destruct m; try (destruct Hm; fail).
    destruct Hm as [E|[]]. inversion E. subst. exact Hin.
  - intros Hin. exists (n, MAttribute a). split.
    + now apply sort_by_name_in.
    + now left.
Qed.

Lemma fold_set_keys_mem {B E : Type} (f : string * E -> option B)
    (step : list (string * B) -> string * E -> list (string * B))
    (step_spec : forall acc p,
        step acc p = match f p with
                     | Some v => assoc_set (fst p) v acc
                     | None => acc
                     end)
    (l : list (string * E)) (acc : list (string * B)) (k : string) :
  In k (map fst acc) \/ (exists p v, In p l /\ f p = Some v /\ fst p = k) ->
  In k (map fst (fold_left step l acc)).
Proof.
  revert acc. induction l as [|q l IH]; intros acc H.
  - destruct H as [H|(p & v & [] & _)]. exact H.
  - simpl. apply IH. rewrite step_spec.
    destruct H as [H|(p & v & [Epq|Hin] & Hf & Ek)].
    + left. destruct (f q); [|exact H]. apply assoc_set_keys. now right.
    + subst q. left. rewrite Hf. apply assoc_set_keys. now left.
    + right. now exists p, v.
Qed.

(** A name is registered exactly when the namespace of the class binds it to
    an attribute. *)
Lemma registered_iff (id : nat) (d : class_decl) (n : string) :
  registered (MetaModel_init id d) n = true
  <-> exists a, In (n, MAttribute a) (resolve_members d).
Proof.
  unfold registered, registry_get.
  set (f := fun p : string * attribute => Some (set_attr_name (fst p) (snd p))).
  assert (Hkeys : In n (map fst (get_attributes (MetaModel_init id d)))
                  <-> exists a, In (n, MAttribute a) (resolve_members d)).
  { simpl. unfold _initialize_attributes. split.
    - intros Hin.
      destruct (fold_set_keys f _ (fun acc p => eq_refl) _ _ n Hin)
        as [[]|([k a] & v & Hp & _ & Ek)].
      simpl in Ek. subst k. exists a. now apply getmembers_in.
    - intros [a Ha].
      apply (fold_set_keys_mem f _ (fun acc p => eq_refl)).
      right. exists (n, a), (set_attr_name n a).
      split; [now apply getmembers_in|]. split; reflexivity. }
  rewrite <- Hkeys. split.
  - intros H. destruct (assoc_get n (get_attributes (MetaModel_init id d)))
      as [a|] eqn:Ha; [|discriminate].
    apply assoc_get_some_in in Ha. apply in_map_iff. now exists (n, a).
  - intros Hin. apply assoc_get_in_keys in Hin.
    destruct (assoc_get n (get_attributes (MetaModel_init id d)));
      [reflexivity|congruence].
Qed.

Lemma assoc_set_in_other {B : Type} (k k' : string) (b v : B)
    (d : list (string * B)) :
  k <> k' -> In (k, b) d -> In (k, b) (assoc_set k' v d).
Proof.
  intros Hk. induction d as [|[k0 v0] d IH]; simpl; [intros []|].
  destruct (String.eqb_spec k' k0) as [E|N]; simpl.
  - subst k0. intros [E|Hin]; [inversion E; congruence|now right].
  - intros [E|Hin]; [now left|right; now apply IH].
Qed.

Lemma members_attributes (id : nat) (d : class_decl) (n : string) (a : attribute) :
  (In (n, MAttribute a) (members (MetaModel_init id d)) ->
   In (n, MAttribute a) (resolve_members d))
  /\ (n <> "_hash_key" -> n <> "DoesNotExist" ->
      In (n, MAttribute a) (resolve_members d) ->
      In (n, MAttribute a) (members (MetaModel_init id d))).
Proof.
  simpl. split.
  - intros Hin.
    destruct (ns_mem "DoesNotExist" (decl_attrs d)).
    + destruct (record_hash_key _ _); [|exact Hin].
      destruct (assoc_set_in _ _ _ _ _ Hin) as [[_ E]|H]; [discriminate|exact H].
    + destruct (assoc_set_in _ _ _ _ _ Hin) as [[_ E]|H]; [discriminate|].
      destruct (record_hash_key _ _); [|exact H].
      destruct (assoc_set_in _ _ _ _ _ H) as [[_ E]|H']; [discriminate|exact H'].
  - intros Hhk Hdne Hin.
    assert (H1 : In (n, MAttribute a)
                   match record_hash_key (member_hash_key (resolve_members d))
                           (_initialize_attributes (resolve_members d)) with
                   | Some n0 => assoc_set "_hash_key" (MValue (VStr n0))
                                  (resolve_members d)
                   | None => resolve_members d
                   end).
    { destruct (record_hash_key _ _); [|exact Hin].
      now apply assoc_set_in_other. }
    destruct (ns_mem "DoesNotExist" (decl_attrs d)); [exact H1|].
    now apply assoc_set_in_other.
Qed.

(** X17: the registry of a class holds the attributes of its body and the
    registered fields of its base class that the body does not bind again,
    and nothing else. *)
Theorem registry_complete (id idb : nat) (db : class_decl) (name : string)
    (body : namespace) (n : string) :
  let base := MetaModel_init idb db in
  let cls := MetaModel_init id (mkClassDecl name (Some base) body) in
  ((exists a, In (n, MAttribute a) body) -> registered cls n = true)
  /\ (registered base n = true -> ns_mem n body = false ->
      n <> "_hash_key" -> n <> "DoesNotExist" -> registered cls n = true)
  /\ (registered cls n = true ->
      (exists a, In (n, MAttribute a) body) \/ registered base n = true).
Proof.
  intros base cls. unfold cls. split; [|split].
  - intros [a Ha]. apply registered_iff. exists a.
    unfold resolve_members. simpl. apply in_or_app. now left.
  - intros Hb Hbody Hhk Hdne. apply registered_iff.
    apply registered_iff in Hb. destruct Hb as [a Ha].
    exists a. unfold resolve_members at 1. simpl decl_attrs. simpl decl_base.
    apply in_or_app. right. apply filter_In. split.
    + now apply (proj2 (members_attributes idb db n a)).
    + simpl. now rewrite Hbody.
  - intros Hc. apply registered_iff in Hc. destruct Hc as [a Ha].
    unfold resolve_members at 1 in Ha. simpl decl_attrs in Ha.
    simpl decl_base in Ha. apply in_app_or in Ha. destruct Ha as [Ha|Ha].
    + left. now exists a.
    + right. apply filter_In in Ha. destruct Ha as [Ha _].
      apply registered_iff. exists a.
      now apply (proj1 (members_attributes idb db n a)).
Qed.

Lemma ascii_compare_refl (a : ascii) : Ascii.compare a a = Eq.
Proof. unfold Ascii.compare. apply N.compare_refl. Qed.

Lemma string_compare_trans (s1 s2 s3 : string) :
  String.compare s1 s2 <> Gt -> String.compare s2 s3 <> Gt ->
  String.compare s1 s3 <> Gt.
Proof.
  revert s2 s3. induction s1 as [|a s1 IH]; intros [|b s2] [|c s3]; simpl;
    try congruence.
  destruct (Ascii.compare a b) eqn:Hab; [| |congruence];
    destruct (Ascii.compare b c) eqn:Hbc; try congruence.
  - apply Ascii.compare_eq_iff in Hab, Hbc. subst.
    rewrite ascii_compare_refl. apply IH.
  - apply Ascii.compare_eq_iff in Hab. subst. rewrite Hbc. congruence.
  - apply Ascii.compare_eq_iff in Hbc. subst. rewrite Hab. congruence.
  - unfold Ascii.compare in *. rewrite N.compare_lt_iff in Hab, Hbc.
    assert (Hac : (N_of_ascii a < N_of_ascii c)%N) by lia.
    apply N.compare_lt_iff in Hac. rewrite Hac. congruence.
Qed.

Lemma name_le_trans (a b c : string) : name_le a b -> name_le b c -> name_le a c.
Proof.
  unfold name_le, String.leb. intros Hab Hbc.
  pose proof (string_compare_trans a b c) as H.
  destruct (String.compare a b); try discriminate;
    destruct (String.compare b c); try discriminate;
    destruct (String.compare a c); try reflexivity;
    exfalso; apply H; congruence.
Qed.

Lemma insert_by_name_sorted (p : string * member) (l : namespace) :
  StronglySorted name_le (map fst l) ->
  StronglySorted name_le (map fst (insert_by_name p l)).
Proof.
  induction l as [|q l IH]; simpl; intros Hs.
  - constructor; constructor.
  - inversion Hs as [|? ? Hs' Hall]; subst.
    destruct (String.leb (fst p) (fst q)) eqn:Hpq; simpl.
    + constructor; [exact Hs|]. constructor; [exact Hpq|].
      eapply Forall_impl; [|exact Hall].
      intros x Hx. now apply (name_le_trans _ (fst q)).
    + constructor; [now apply IH|].
      assert (Hqp : name_le (fst q) (fst p)).
      { destruct (String.leb_total (fst p) (fst q)); [congruence|assumption]. }
      apply Forall_forall. intros x Hx. apply in_map_iff in Hx.
      destruct Hx as [y [Ey Hy]]. subst x.
      apply insert_by_name_in in Hy. destruct Hy as [E|Hy]; [now subst|].
      rewrite Forall_forall in Hall. apply Hall. now apply in_map.
Qed.

Lemma sort_by_name_sorted (l : namespace) :
  StronglySorted name_le (map fst (sort_by_name l)).
Proof.
  induction l as [|q l IH]; simpl; [constructor|].
  now apply insert_by_name_sorted.
Qed.

Lemma getmembers_sorted (ns : namespace) :
  StronglySorted name_le (map fst (getmembers ns)).
Proof.
  unfold getmembers. pose proof (sort_by_name_sorted ns) as Hs.
  induction (sort_by_name ns) as [|[k m] l IH]; simpl; [constructor|].
  simpl in Hs. inversion Hs as [|? ? Hs' Hall]; subst.
  specialize (IH Hs').
  destruct m; simpl; try exact IH.
  constructor; [exact IH|].
  apply Forall_forall. intros x Hx. apply in_map_iff in Hx.
  destruct Hx as [[k' a'] [Ek Hin]]. simpl in Ek. subst x.
  apply in_flat_map in Hin. destruct Hin as [[k'' m''] [Hin Hm]].
  simpl in Hm. destruct m''; try (destruct Hm; fail).
  destruct Hm as [E|[]]. inversion E. subst.
  rewrite Forall_forall in Hall. apply Hall.
  apply in_map_iff. now exists (k', MAttribute a').
Qed.

Lemma assoc_set_keys_eq {B : Type} (k : string) (v : B) (d : list (string * B)) :
  map fst (assoc_set k v d)
  = if existsb (String.eqb k) (map fst d) then map fst d else map fst d ++ [k].
Proof.
  induction d as [|[k' v'] d IH]; simpl; [reflexivity|].
  destruct (String.eqb k k'); simpl; [reflexivity|].
  rewrite IH. destruct (existsb (String.eqb k) (map fst d)); reflexivity.
Qed.

Lemma sorted_remove_middle (xs ys : list string) (y : string) :
  StronglySorted name_le (xs ++ y :: ys) -> StronglySorted name_le (xs ++ ys).
Proof.
  induction xs as [|x xs IH]; simpl; intros Hs.
  - now inversion Hs.
  - inversion Hs as [|? ? Hs' Hall]; subst. constructor; [now apply IH|].
    apply Forall_app in Hall. destruct Hall as [H1 H2].
    apply Forall_app. split; [exact H1|]. now inversion H2.
Qed.

Lemma fold_assoc_set_sorted {B E : Type} (h : string * E -> B)
    (l : list (string * E)) (acc : list (string * B)) :
  StronglySorted name_le (map fst acc ++ map fst l) ->
  StronglySorted name_le
    (map fst (fold_left (fun acc p => assoc_set (fst p) (h p) acc) l acc)).
Proof.
  revert acc. induction l as [|p l IH]; intros acc Hs.
  - simpl in *. now rewrite app_nil_r in Hs.
  - simpl. apply IH. rewrite assoc_set_keys_eq. simpl in Hs.
    destruct (existsb (String.eqb (fst p)) (map fst acc)).
    + exact (sorted_remove_middle _ _ _ Hs).
    + now rewrite <- app_assoc.
Qed.

Lemma registry_keys_sorted (id : nat) (d : class_decl) :
  StronglySorted name_le (map fst (get_attributes (MetaModel_init id d))).
Proof.
  simpl. unfold _initialize_attributes.
  apply (fold_assoc_set_sorted (fun p => set_attr_name (fst p) (snd p))).
  apply getmembers_sorted.
Qed.

(** X18: the fields of a class are registered in ascending order of their
    names, whatever the order in which the class body and its base declare
    them, and each under one entry: this is the order in which the registry is
    enumerated, defaults are applied and a hash key is searched. *)
Theorem registry_sorted_by_name (id : nat) (d : class_decl) :
  StronglySorted name_le (map fst (get_attributes (MetaModel_init id d)))
  /\ NoDup (map fst (get_attributes (MetaModel_init id d))).
Proof.
  split.
  - apply registry_keys_sorted.
  - exact (proj1 (registry_well_formed (resolve_members d))).
Qed.

Lemma string_compare_refl (s : string) : String.compare s s = Eq.
Proof.
  induction s as [|a s IH]; simpl; [reflexivity|].
  now rewrite ascii_compare_refl.
Qed.

Lemma name_le_refl (s : string) : name_le s s.
Proof. unfold name_le, String.leb. now rewrite string_compare_refl. Qed.

Lemma last_hash_key (r : list (string * attribute)) :
  (exists p, In p r /\ is_hash_key (snd p) = true) ->
  exists pre n a post,
    r = pre ++ (n, a) :: post
    /\ is_hash_key a = true
    /\ forall p, In p post -> is_hash_key (snd p) = false.
Proof.
  induction r as [|[k b] r IH]; intros [p [Hin Hp]]; [destruct Hin|].
  destruct (existsb (fun q => is_hash_key (snd q)) r) eqn:Hex.
  - apply existsb_exists in Hex. destruct (IH Hex) as (pre & n & a & post & E & Ha & Hpost).
    exists ((k, b) :: pre), n, a, post. subst r. repeat split; auto.
  - assert (Hnone : forall q, In q r -> is_hash_key (snd q) = false).
    { intros q Hq. destruct (is_hash_key (snd q)) eqn:Hq'; [|reflexivity].
      assert (existsb (fun q => is_hash_key (snd q)) r = true)
        by (apply existsb_exists; now exists q).
      congruence. }
    destruct Hin as [E|Hin].
    + subst p. exists [], k, b, r. repeat split; auto.
    + rewrite (Hnone p Hin) in Hp. discriminate.
Qed.

Lemma sorted_before (xs ys : list string) (y : string) :
  StronglySorted name_le (xs ++ y :: ys) -> Forall (fun x => name_le x y) xs.
Proof.
  induction xs as [|x xs IH]; simpl; intros Hs; [constructor|].
  inversion Hs as [|? ? Hs' Hall]; subst. constructor; [|now apply IH].
  apply Forall_app in Hall. destruct Hall as [_ H2]. now inversion H2.
Qed.

(** X19: when several fields of a class are hash keys, the hash key of the
    class is the one whose name comes last in the order of names; the order in
    which the class body declares them plays no part. *)
Theorem hash_key_greatest_name (id : nat) (d : class_decl) (m : string)
    (a : attribute) :
  registry_get m (get_attributes (MetaModel_init id d)) = Some a ->
  is_hash_key a = true ->
  exists n b,
    _hash_key (MetaModel_init id d) = Some n
    /\ registry_get n (get_attributes (MetaModel_init id d)) = Some b
    /\ is_hash_key b = true
    /\ name_le m n.
Proof.
  intros Hm Ha.
  pose proof (registry_keys_sorted id d) as Hsorted.
  pose proof (proj1 (registry_well_formed (resolve_members d))) as Hnd.
  change (_initialize_attributes (resolve_members d))
    with (get_attributes (MetaModel_init id d)) in Hnd.
  destruct (last_hash_key (get_attributes (MetaModel_init id d)))
    as (pre & n & b & post & E & Hb & Hpost).
  { exists (m, a). split; [now apply assoc_get_some_in|exact Ha]. }
  exists n, b.
  assert (Hin : forall k v, In (k, v) (get_attributes (MetaModel_init id d)) ->
                            registry_get k (get_attributes (MetaModel_init id d))
                            = Some v).
  { intros k v Hkv. unfold registry_get.
    destruct (assoc_get k (get_attributes (MetaModel_init id d))) as [v'|] eqn:Hk.
    - apply assoc_get_some_in in Hk.
      clear - Hnd Hkv Hk. revert Hnd Hkv Hk.
      induction (get_attributes (MetaModel_init id d)) as [|[k0 v0] l IH];
        simpl; intros Hnd Hkv Hk; [destruct Hkv|].
      inversion Hnd as [|? ? Hnotin Hnd']; subst.
      destruct Hkv as [E1|H1], Hk as [E2|H2].
      + congruence.
      + inversion E1. subst. exfalso. apply Hnotin. apply in_map_iff.
        now exists (k, v').
      + inversion E2. subst. exfalso. apply Hnotin. apply in_map_iff.
        now exists (k, v).
      + now apply IH.
    - exfalso. apply (assoc_get_in_keys k (get_attributes (MetaModel_init id d)));
        [apply in_map_iff; now exists (k, v)|exact Hk]. }
  split; [|split; [|split]].
  - assert (Hhk : _hash_key (MetaModel_init id d)
                  = record_hash_key (member_hash_key (resolve_members d))
                      (get_attributes (MetaModel_init id d))) by reflexivity.
    rewrite Hhk, E. now apply record_hash_key_last.
  - apply Hin. rewrite E. apply in_or_app. right. now left.
  - exact Hb.
  - apply assoc_get_some_in in Hm. rewrite E in Hm, Hsorted.
    rewrite map_app in Hsorted. simpl in Hsorted.
    apply in_app_or in Hm. destruct Hm as [Hm|[Hm|Hm]].
    + pose proof (sorted_before _ _ _ Hsorted) as Hbefore.
      rewrite Forall_forall in Hbefore. apply Hbefore.
      apply in_map_iff. now exists (m, a).
    + inversion Hm. apply name_le_refl.
    + pose proof (Hpost (m, a) Hm) as Hf. simpl in Hf. congruence.
Qed.

Lemma hash_key_greatest_name_witness :
  exists n b,
    _hash_key TwoKeysModel = Some n
    /\ registry_get n (get_attributes TwoKeysModel) = Some b
    /\ is_hash_key b = true
    /\ name_le "alpha" n.
Proof.
  exact (hash_key_greatest_name 2
           (mkClassDecl "TwoKeysModel" (Some MongoDBModel) TwoKeysModel_body)
           "alpha"
           (set_attr_name "alpha"
              (new_attribute UnicodeAttribute true None None None))
           eq_refl eq_refl).
Defined.

(** ** Compositions *)

Section Compositions.

Variable collection : Collection.

(** X20: an instance without [_id], resolved by its raw attributes, takes the
    [_id] of the document a reloading [update] fetches; from then on its
    [delete] filters by that [_id] and no longer by the raw attributes. *)
Theorem reload_acquires_id (id : nat) (d : class_decl) (self : nat)
    (delta : dict) (reload upsert : option bool) (w : World) (flt : dict)
    (res : UpdateResult) (p : string * pyval) (data : dict) (a : attribute)
    (oid : pyval) :
  inst_class (objects w self) = MetaModel_init id d ->
  identity_filter (objects w self) = Some flt ->
  update_one collection (calls w) flt (set_update delta) (arg_default false upsert)
  = Ok res ->
  N.eqb (modified_count res) 0 = false ->
  arg_default true reload = true ->
  find_one collection
    (calls w ++ [CallUpdateOne flt (set_update delta) (arg_default false upsert)])
    flt None = Ok (Some (p :: data)) ->
  nodup_keys (map fst (p :: data)) = true ->
  registry_get "_id" (get_attributes (MetaModel_init id d)) = Some a ->
  kind a = ObjectIdAttribute ->
  dict_get "_id" (p :: data) = Some oid ->
  truthy oid = true ->
  let w' := snd (update collection self delta reload upsert w) in
  _id (objects w' self) = oid
  /\ calls (snd (delete collection self w'))
     = calls w ++ [CallUpdateOne flt (set_update delta) (arg_default false upsert);
                   CallFindOne flt None;
                   CallDeleteOne [("_id", oid)]].
Proof.
  intros Hcls Hid Hup Hmod Hrel Hfind Hnd Ha Hk Hoid Ht w'.
  apply nodup_keys_NoDup in Hnd.
  destruct (update_reloads collection self delta reload upsert w flt res p data
              Hid Hup Hmod Hrel Hfind) as (fresh & Hfresh & E).
  destruct (reload_field id d (objects w self) (p :: data) "_id" a Hcls Hnd Ha)
    as (fresh' & Hfresh' & Hval).
  rewrite Hcls in Hfresh. rewrite Hfresh in Hfresh'. inversion Hfresh'.
  subst fresh'. clear Hfresh'.
  assert (Hw : objects w' self
               = _deserialize (objects w self) (attribute_values fresh)).
  { unfold w'. rewrite E. simpl. now rewrite Nat.eqb_refl. }
  assert (Hnew : _id (objects w' self) = oid).
  { unfold _id. rewrite Hw, Hval, Hoid. unfold reloaded_value. rewrite Hk.
    simpl. destruct oid; reflexivity. }
  split; [exact Hnew|].
  rewrite delete_resolves. unfold identity_filter. rewrite Hnew, Ht.
  unfold id_filter, after_call. simpl. unfold w'. rewrite E. simpl.
  rewrite <- app_assoc. reflexivity.
Qed.

(** X21: a staged instance is read when [commit] runs, not when it is staged:
    an instance changed between the two is written as changed. *)
Theorem commit_reads_at_commit_time (K : constants) (cls : model_class)
    (ord : option bool) (r : nat) (changed : instance) (w : World) :
  0 < BATCH_WRITE_PAGE_LIMIT K ->
  let s := bind (BatchWrite.save K collection r)
             (fun _ => bind (BatchWrite.on_world (write_object r changed))
                         (fun _ => BatchWrite.commit K collection))
             (BatchWrite.init K cls ord, w) in
  calls (snd (snd s))
  = calls w ++ [CallBulkWrite [InsertOne (attribute_values changed)]
                  (arg_default false ord)].
Proof.
  intros Hpos s. unfold s.
  change (BatchWrite.save K collection r)
    with (BatchWrite.stage K collection (BatchWrite.StageSave r)).
  unfold bind at 1.
  rewrite (stage_unfold K collection (BatchWrite.StageSave r)).
  assert (Hl : BatchWrite.at_limit (BatchWrite.init K cls ord) = false).
  { unfold BatchWrite.at_limit. simpl.
    destruct (BATCH_WRITE_PAGE_LIMIT K); [lia|reflexivity|reflexivity]. }
  rewrite Hl, append_eq. unfold bind at 1.
  unfold BatchWrite.on_world, write_object. simpl.
  unfold BatchWrite.commit, bind, BatchWrite.get_self, BatchWrite.get_objects,
    lift_result, BatchWrite.set_pending, ret, try_except, BatchWrite.on_world,
    bulk_write, store, raise. simpl.
  unfold BatchWrite.item_requests. simpl. rewrite Z.eqb_refl, Nat.eqb_refl. simpl.
  destruct (bulk_write_reply collection (calls w) _ _) as [v|err]; simpl;
    [reflexivity|].
  destruct (catches EBulkWriteError (exn_cls err)); reflexivity.
Qed.

End Compositions.

Lemma reload_acquires_id_witness :
  _id (objects (snd (update reload_store 1 [("year", VInt 1943)] None None
                       example_world)) 1) = oid1
  /\ calls (snd (delete reload_store 1
                   (snd (update reload_store 1 [("year", VInt 1943)] None None
                           example_world))))
     = [CallUpdateOne [("movie_id", VStr "m1")] (set_update [("year", VInt 1943)])
          false;
        CallFindOne [("movie_id", VStr "m1")] None;
        CallDeleteOne [("_id", oid1)]].
Proof.
  exact (reload_acquires_id reload_store 1
           (mkClassDecl "MovieModel" (Some MongoDBModel) MovieModel_body)
           1%nat [("year", VInt 1943)] None None example_world
           [("movie_id", VStr "m1")] (mkUpdateResult 1 1 VNone)
           ("_id", oid1) [("year", VInt 1943)]
           (set_attr_name "_id"
              (new_attribute ObjectIdAttribute false None None None))
           oid1
           eq_refl eq_refl eq_refl eq_refl eq_refl eq_refl eq_refl eq_refl
           eq_refl eq_refl eq_refl).
Defined.

Lemma commit_reads_at_commit_time_witness :
  calls (snd (snd
    (bind (BatchWrite.save example_constants accepting_store 2)
       (fun _ => bind (BatchWrite.on_world (write_object 2 fetched_movie))
                   (fun _ => BatchWrite.commit example_constants accepting_store))
       (BatchWrite.init example_constants MovieModel None, example_world))))
  = [CallBulkWrite [InsertOne (attribute_values fetched_movie)] false].
Proof.
  assert (Hpos : 0 < BATCH_WRITE_PAGE_LIMIT example_constants) by (simpl; lia).
  exact (commit_reads_at_commit_time accepting_store example_constants MovieModel
           None 2%nat fetched_movie example_world Hpos).
Defined.

(** X22: while the queue is below the page limit, staging is local: the calls
    return, the store is not called whatever it would reply, no instance is
    touched, and the queue grows by the staged operations in order. *)
Theorem staging_below_limit_is_local (K : constants) (collection : Collection)
    (cls : model_class) (ord : option bool) (cs : list BatchWrite.stage_call)
    (w : World) :
  Z.of_nat (length cs) <= BATCH_WRITE_PAGE_LIMIT K ->
  BatchWrite.stage_all K collection cs (BatchWrite.init K cls ord, w)
  = (Ok tt,
     (BatchWrite.with_pending (BatchWrite.init K cls ord)
        (map (operation_of K) cs), w)).
Proof.
  intros Hlen.
  exact (stage_all_below_limit K collection cs (BatchWrite.init K cls ord) w Hlen).
Qed.

Lemma staging_below_limit_is_local_witness :
  BatchWrite.stage_all example_constants rejecting_store
    [BatchWrite.StageSave 0; BatchWrite.StageDelete 1;
     BatchWrite.StageUpdate 2 [("year", VInt 1943)] (Some true)]
    (BatchWrite.init example_constants MovieModel None, example_world)
  = (Ok tt,
     (writer_of [BatchWrite.StageSave 0; BatchWrite.StageDelete 1;
                 BatchWrite.StageUpdate 2 [("year", VInt 1943)] (Some true)],
      example_world)).
Proof.
  apply (staging_below_limit_is_local example_constants rejecting_store MovieModel
           None
           [BatchWrite.StageSave 0; BatchWrite.StageDelete 1;
            BatchWrite.StageUpdate 2 [("year", VInt 1943)] (Some true)]
           example_world).
  simpl. lia.
Defined.
